(** * Terminology search front-end: search, pagination, detail view, upload gate

    A shallow embedding of the client-side logic of the React components
    [SearchPage.js], [MappingDetailsPage.js], [SystemResultsPage.jsx] and
    [SystemPage] (the per-system page), together with the properties their
    specification states about them.

    Conventions.
    - JavaScript integers (page numbers, array indices, lengths) are [Z];
      arrays are [list]; a string is the [string] of its code units, so
      that [String.length] is its [.length]; [null]/[undefined]/an absent
      property is [None].
    - JavaScript objects used as maps ([results], [loadingProgress], the
      [apiCache] Map) are [gmap string _].
    - [async] code is a program in a state-and-exception monad over the
      component state and a [World] that records every request sent.
      [await] is sequencing; the server is an arbitrary function of the
      request history and the URL. *)

From Stdlib Require Import ZArith QArith String Ascii List Lia.
From stdpp Require Import gmap strings list fin_maps pretty.
From Equations Require Import Equations.
From Equations.Prop Require Import Logic.

Local Open Scope string_scope.
Local Open Scope Z_scope.

(* ===================================================================== *)
(** * JavaScript built-ins used by the components *)
(* ===================================================================== *)

Module Js.

(** [Array.prototype.slice(start, end)] on integer arguments: a negative
    index counts from the end, both indices are clamped to [0, length], and
    an empty range gives the empty array. *)
Definition slice {A : Type} (l : list A) (start end_ : Z) : list A :=
  let len := Z.of_nat (length l) in
  let k := if start <? 0 then Z.max (len + start) 0 else Z.min start len in
  let final := if end_ <? 0 then Z.max (len + end_) 0 else Z.min end_ len in
  take (Z.to_nat (final - k)) (drop (Z.to_nat k) l).

(** [Math.ceil(a / b)] for an array length [a] and a positive integer [b].
    Both are far below 2^53, where the floating-point quotient rounds to the
    same integer as the exact one. *)
Definition ceil_div (a b : Z) : Z := - ((- a) / b).

(** [Math.floor(a / b)] on integers. *)
Definition floor_div (a b : Z) : Z := a / b.

(** [Array.from({ length: n }, (_, i) => f i)]. *)
Definition array_from {A : Type} (n : Z) (f : Z -> A) : list A :=
  f <$> seqZ 0 n.

(** [for (let i = lo; i <= hi; i++) out.push(i)]. *)
Definition push_range (lo hi : Z) : list Z := seqZ lo (hi - lo + 1).

(** [s.includes(sub)]. *)
Fixpoint includes (s sub : string) : bool :=
  String.prefix sub s ||
  match s with
  | EmptyString => false
  | String _ s' => includes s' sub
  end.

(** Truthiness of a string or number that may be absent. *)
Definition truthy_str (o : option string) : bool :=
  match o with
  | Some s => negb (String.eqb s "")
  | None => false
  end.

Definition truthy_num (o : option Q) : bool :=
  match o with
  | Some q => negb (Qeq_bool q 0)
  | None => false
  end.

(** [a || b] on strings that may be absent. *)
Definition or_str (a b : option string) : option string :=
  if truthy_str a then a else b.

Definition or_num (a b : option Q) : option Q :=
  if truthy_num a then a else b.

(** Built-ins whose tables live in the JavaScript runtime, not in this
    repository.  The development is parametric in them. *)
Record Runtime := {
  toLowerCase : string -> string;
  trim : string -> string;
  encodeURIComponent : string -> string
}.

(** An ASCII instance, used to run the definitions on examples. *)
Definition ascii_lower (c : ascii) : ascii :=
  let n := nat_of_ascii c in
  if ((65 <=? n) && (n <=? 90))%nat then ascii_of_nat (n + 32) else c.

Fixpoint map_string (f : ascii -> ascii) (s : string) : string :=
  match s with
  | EmptyString => EmptyString
  | String c s' => String (f c) (map_string f s')
  end.

Definition is_space (c : ascii) : bool :=
  let n := nat_of_ascii c in
  ((n =? 32) || ((9 <=? n) && (n <=? 13)))%nat.

Fixpoint trim_left (s : string) : string :=
  match s with
  | EmptyString => EmptyString
  | String c s' => if is_space c then trim_left s' else s
  end.

Fixpoint rev_string (acc s : string) : string :=
  match s with
  | EmptyString => acc
  | String c s' => rev_string (String c acc) s'
  end.

Definition ascii_trim (s : string) : string :=
  rev_string "" (trim_left (rev_string "" (trim_left s))).

Definition ascii_runtime : Runtime :=
  {| toLowerCase := map_string ascii_lower;
     trim := ascii_trim;
     encodeURIComponent := fun s => s |}.

End Js.

(* ===================================================================== *)
(** * Data model: what the REST API returns *)
(* ===================================================================== *)

(** A traditional-medicine term attached to a combined-search result. *)
Module Related.
Record t := mk {
  id : option Z;
  code : option string;
  english_name : option string;
  local_name : option string
}.
End Related.

Module MappingInfo.
Record t := mk {
  confidence_score : option Q
}.
End MappingInfo.

(** One element of a [results] array: an ICD-11 entry of the combined
    endpoint (with its [related_*] terms) or a term of one system. *)
Module Item.
Record t := mk {
  id : option Z;
  code : option string;
  title : option string;
  english_name : option string;
  definition : option string;
  class_kind : option string;
  foundation_uri : option string;
  related_ayurveda : option Related.t;
  related_siddha : option Related.t;
  related_unani : option Related.t;
  mapping_info : option MappingInfo.t;
  search_score : option Q
}.
End Item.

Module Api.

(** The paginated list shape [{ results, count, next, previous }]. *)
Record ResultSet (A : Type) := mkResultSet {
  results : option (list A);
  count : option Z;
  next : option string;
  previous : option string
}.
Arguments mkResultSet {A}.
Arguments results {A}.
Arguments count {A}.
Arguments next {A}.
Arguments previous {A}.

(** A parsed JSON body, or the [null] a fetch helper returns on failure. *)
Inductive Data (A : Type) :=
| DNull
| DArray (items : list A)
| DObject (rs : ResultSet A).
Arguments DNull {A}.
Arguments DArray {A}.
Arguments DObject {A}.

(** Truthiness of a [Data]: only [null] is falsy. *)
Definition truthy {A} (d : Data A) : bool :=
  match d with DNull => false | _ => true end.

(** [data.results], [data.count], [data.next], [data.previous]; reading a
    property of an array gives [undefined].  Reading one of [null] throws,
    so callers guard with [truthy] or [?.] first. *)
Definition get_results {A} (d : Data A) : option (list A) :=
  match d with DObject rs => results rs | _ => None end.
Definition get_count {A} (d : Data A) : option Z :=
  match d with DObject rs => count rs | _ => None end.
Definition get_next {A} (d : Data A) : option string :=
  match d with DObject rs => next rs | _ => None end.
Definition get_previous {A} (d : Data A) : option string :=
  match d with DObject rs => previous rs | _ => None end.

(** The literals [{ results: [] }] and [{ results: [], count: 0 }]. *)
Definition empty_results {A} : Data A :=
  DObject (mkResultSet (Some []) None None None).
Definition empty_results_count0 {A} : Data A :=
  DObject (mkResultSet (Some []) (Some 0) None None).

(** What the server does with one request. *)
Inductive Reply (A : Type) :=
| NetworkFailure
| HttpReply (status : Z) (body : option (Data A)).
Arguments NetworkFailure {A}.
Arguments HttpReply {A}.

(** A server answers a URL knowing the requests made so far. *)
Definition Server (A : Type) := list string -> string -> Reply A.

(** A request fails when the network does, when the status is not 2xx, or
    when the body is not JSON. *)
Definition failed {A} (r : Reply A) : bool :=
  match r with
  | NetworkFailure => true
  | HttpReply status body =>
      negb ((200 <=? status) && (status <=? 299)) ||
      match body with None => true | Some _ => false end
  end.

(** Number of results a body carries. *)
Definition results_length {A} (d : Data A) : nat :=
  length (default [] (get_results d)).

(** A server honours a page size when no body it sends carries more
    results than that. *)
Definition honours_page_size {A} (server : Server A) (pageSize : nat) : Prop :=
  forall (history : list string) (url : string) (status : Z) (d : Data A),
    server history url = HttpReply status (Some d) ->
    (results_length d <= pageSize)%nat.

(** The body a failed request leaves its caller with is none at all: the
    fetch helpers hand [null] on, and the parsed body otherwise. *)
Definition reply_data {A} (r : Reply A) : Data A :=
  match r with
  | HttpReply status (Some d) =>
      if (200 <=? status) && (status <=? 299) then d else DNull
  | _ => DNull
  end.

End Api.

(* ===================================================================== *)
(** * Asynchronous programs: state, requests and exceptions *)
(* ===================================================================== *)

Module Async.
Import Api.

Inductive Exn :=
| TypeError (message : string)
| Error (message : string)
| SyntaxError (message : string).

Inductive Outcome (A : Type) :=
| Return (a : A)
| Throw (e : Exn).
Arguments Return {A}.
Arguments Throw {A}.

(** Everything outside the component: requests sent, console output, and
    [alert] dialogs shown to the user. *)
Record World := mkWorld {
  requests : list string;
  console : list string;
  alerts : list string
}.

Definition world0 : World := mkWorld [] [] [].

(** The world after one more request, and after one more console line. *)
Definition sent (w : World) (url : string) : World :=
  mkWorld (requests w ++ [url]) (console w) (alerts w).

Definition logged (w : World) (msg : string) : World :=
  mkWorld (requests w) (console w ++ [msg]) (alerts w).

(** A program over component state [S]. *)
Definition Prog (S A : Type) : Type := World * S -> Outcome A * (World * S).

Definition ret {S A} (a : A) : Prog S A := fun c => (Return a, c).

Definition throw {S A} (e : Exn) : Prog S A := fun c => (Throw e, c).

Definition bind {S A B} (p : Prog S A) (k : A -> Prog S B) : Prog S B :=
  fun c =>
    match p c with
    | (Return a, c') => k a c'
    | (Throw e, c') => (Throw e, c')
    end.

(** [try { p } catch (e) { h e }]. *)
Definition try_catch {S A} (p : Prog S A) (h : Exn -> Prog S A) : Prog S A :=
  fun c =>
    match p c with
    | (Return a, c') => (Return a, c')
    | (Throw e, c') => h e c'
    end.

(** [try { p } finally { f }]: [f] runs either way; the outcome of [p]
    stands unless [f] itself throws. *)
Definition try_finally {S A} (p : Prog S A) (f : Prog S unit) : Prog S A :=
  fun c =>
    match p c with
    | (o, c') =>
        match f c' with
        | (Return _, c'') => (o, c'')
        | (Throw e, c'') => (Throw e, c'')
        end
    end.

(** An [async] call that is not awaited: its effects happen, a rejection
    stays with its own promise. *)
Definition spawn {S A} (p : Prog S A) : Prog S unit :=
  fun c => match p c with (_, c') => (Return tt, c') end.

Definition get {S} : Prog S S := fun c => (Return (snd c), c).

(** A state setter [setX(f)]. *)
Definition modify {S} (f : S -> S) : Prog S unit :=
  fun c => (Return tt, (fst c, f (snd c))).

Definition console_error {S} (msg : string) : Prog S unit :=
  fun c =>
    let w := fst c in
    (Return tt, (mkWorld (requests w) (console w ++ [msg]) (alerts w), snd c)).

Definition alert {S} (msg : string) : Prog S unit :=
  fun c =>
    let w := fst c in
    (Return tt, (mkWorld (requests w) (console w) (alerts w ++ [msg]), snd c)).

(** The [Response] of [fetch]. *)
Record Response (A : Type) := mkResponse {
  ok : bool;
  status : Z;
  body : option (Data A)
}.
Arguments mkResponse {A}.
Arguments ok {A}.
Arguments status {A}.
Arguments body {A}.

(** [await fetch(url)]: the request is recorded; a network failure rejects. *)
Definition fetch {S A} (server : Server A) (url : string) : Prog S (Response A) :=
  fun c =>
    let w := fst c in
    let w' := mkWorld (requests w ++ [url]) (console w) (alerts w) in
    match server (requests w) url with
    | NetworkFailure => (Throw (TypeError "Failed to fetch"), (w', snd c))
    | HttpReply st b =>
        (Return (mkResponse ((200 <=? st) && (st <=? 299)) st b), (w', snd c))
    end.

(** [await response.json()]. *)
Definition json {S A} (r : Response A) : Prog S (Data A) :=
  match body r with
  | Some d => ret d
  | None => throw (SyntaxError "Unexpected token")
  end.

(** [items.forEach(f)]. *)
Fixpoint for_each {S A} (items : list A) (f : A -> Prog S unit) : Prog S unit :=
  match items with
  | [] => ret tt
  | x :: rest => bind (f x) (fun _ => for_each rest f)
  end.

Definition run {S A} (p : Prog S A) (w : World) (s : S) : Outcome A * (World * S) :=
  p (w, s).

Definition outcome {S A} (r : Outcome A * (World * S)) : Outcome A := fst r.
Definition world_of {S A} (r : Outcome A * (World * S)) : World := fst (snd r).
Definition state_of {S A} (r : Outcome A * (World * S)) : S := snd (snd r).

Definition returned {A} (o : Outcome A) : option A :=
  match o with Return a => Some a | Throw _ => None end.

(** The world after a fetch helper has dealt with one request: the request
    is on record, and a failure has left one line on the console. *)
Definition after_fetch {A} (server : Server A) (msg : string) (w : World)
  (url : string) : World :=
  if failed (server (requests w) url) then logged (sent w url) msg else sent w url.

End Async.

Declare Scope prog_scope.
Delimit Scope prog_scope with prog.
Notation "x <- p ;; k" := (Async.bind p (fun x => k))
  (at level 100, p at next level, right associativity) : prog_scope.
Notation "p ;;; k" := (Async.bind p (fun _ => k))
  (at level 100, right associativity) : prog_scope.

(* ===================================================================== *)
(** * SearchPage.js: search orchestrator and suggestion fetcher *)
(* ===================================================================== *)

(** The normalized mapping record built from a combined-search result. *)
Module SourceTerm.
Record t := mk {
  code : option string;
  english_name : option string;
  hindi_name : option string
}.
End SourceTerm.

Module NamasteTerm.
Record t := mk {
  code : option string;
  english_name : option string;
  local_name : option string
}.
End NamasteTerm.

Module NamasteTerms.
Record t := mk {
  ayurveda : option NamasteTerm.t;
  siddha : option NamasteTerm.t;
  unani : option NamasteTerm.t
}.
End NamasteTerms.

Module IcdMapping.
Record t := mk {
  code : option string;
  title : option string;
  definition : option string;
  class_kind : option string;
  foundation_uri : option string
}.
End IcdMapping.

Module Mapping.
Record t := mk {
  mapping_id : option Z;
  source_term : SourceTerm.t;
  namaste_terms : NamasteTerms.t;
  icd_mapping : IcdMapping.t;
  confidence_score : Q;
  search_score : option Q
}.
End Mapping.

Module Suggestion.
Record t := mk {
  name : option string;
  type : string;
  confidence : Q;
  id : option Z;
  system : string;
  definition : option string
}.
End Suggestion.

Module SearchPage.
Import Api Async.

Record Strategy := mkStrategy { fuzzy : bool; fullText : bool }.

(** A property of the [results] state object: a per-source result set, or
    the [mappingResults] array. *)
Inductive SlotVal :=
| Slot (d : Data Item.t)
| Mappings (l : list Mapping.t).

Record State := mkState {
  searchTerm : string;
  selectedSystem : string;
  minConfidence : Q;
  results : option (gmap string SlotVal);
  isSearching : bool;
  hasSearched : bool;
  suggestions : list Suggestion.t;
  showSuggestions : bool;
  recommendations : list Suggestion.t;
  searchStrategy : Strategy;
  loadingProgress : gmap string bool
}.

(** The [useState] initial values. *)
Definition initial : State :=
  mkState "" "all" (1 # 10) None false false [] false []
    (mkStrategy true false)
    (<["combined" := false]> (<["ayurveda" := false]> (<["unani" := false]>
      (<["siddha" := false]> (<["icd11" := false]>
        (<["suggestions" := false]> ∅)))))).

Definition setResults (f : option (gmap string SlotVal) -> option (gmap string SlotVal))
  : Prog State unit :=
  modify (fun s =>
    mkState (searchTerm s) (selectedSystem s) (minConfidence s) (f (results s))
      (isSearching s) (hasSearched s) (suggestions s) (showSuggestions s)
      (recommendations s) (searchStrategy s) (loadingProgress s)).

Definition setIsSearching (b : bool) : Prog State unit :=
  modify (fun s =>
    mkState (searchTerm s) (selectedSystem s) (minConfidence s) (results s)
      b (hasSearched s) (suggestions s) (showSuggestions s)
      (recommendations s) (searchStrategy s) (loadingProgress s)).

Definition setHasSearched (b : bool) : Prog State unit :=
  modify (fun s =>
    mkState (searchTerm s) (selectedSystem s) (minConfidence s) (results s)
      (isSearching s) b (suggestions s) (showSuggestions s)
      (recommendations s) (searchStrategy s) (loadingProgress s)).

Definition setSuggestions (l : list Suggestion.t) : Prog State unit :=
  modify (fun s =>
    mkState (searchTerm s) (selectedSystem s) (minConfidence s) (results s)
      (isSearching s) (hasSearched s) l (showSuggestions s)
      (recommendations s) (searchStrategy s) (loadingProgress s)).

Definition setShowSuggestions (b : bool) : Prog State unit :=
  modify (fun s =>
    mkState (searchTerm s) (selectedSystem s) (minConfidence s) (results s)
      (isSearching s) (hasSearched s) (suggestions s) b
      (recommendations s) (searchStrategy s) (loadingProgress s)).

Definition setRecommendations (l : list Suggestion.t) : Prog State unit :=
  modify (fun s =>
    mkState (searchTerm s) (selectedSystem s) (minConfidence s) (results s)
      (isSearching s) (hasSearched s) (suggestions s) (showSuggestions s)
      l (searchStrategy s) (loadingProgress s)).

Definition setLoadingProgress (f : gmap string bool -> gmap string bool)
  : Prog State unit :=
  modify (fun s =>
    mkState (searchTerm s) (selectedSystem s) (minConfidence s) (results s)
      (isSearching s) (hasSearched s) (suggestions s) (showSuggestions s)
      (recommendations s) (searchStrategy s) (f (loadingProgress s))).

(** [results?.[key]], as the render code reads it. *)
Definition results_at (s : State) (key : string) : option SlotVal :=
  results s ≫= (fun r => r !! key).

(** [{ ...prev, [key]: v }]; spreading [null] contributes nothing. *)
Definition spread_set {V} (prev : option (gmap string V)) (key : string) (v : V)
  : option (gmap string V) :=
  Some (<[key := v]> (default ∅ prev)).

(** The all-empty [results] object set when a search starts or fails. *)
Definition blank_results : gmap string SlotVal :=
  <["combined" := Slot empty_results]> (<["ayurveda" := Slot empty_results]>
    (<["unani" := Slot empty_results]> (<["siddha" := Slot empty_results]>
      (<["icd11" := Slot empty_results]> (<["mappingResults" := Mappings []]> ∅))))).

(** [URLSearchParams.toString()] for keys and values that need no escaping. *)
Fixpoint params_toString (params : list (string * string)) : string :=
  match params with
  | [] => ""
  | [(k, v)] => k +:+ "=" +:+ v
  | (k, v) :: rest => k +:+ "=" +:+ v +:+ "&" +:+ params_toString rest
  end.

Section WithEnvironment.
Variable rt : Js.Runtime.
Variable API_BASE_URL : string.
Variable server : Server Item.t.

(** [fetchData]: every failure is logged and turned into [null]. *)
Definition fetchData (url : string) : Prog State (Data Item.t) :=
  try_catch
    (response <- fetch server url ;;
     if negb (ok response)
     then throw (Error ("HTTP error! status: " +:+ pretty (status response)))
     else
       data <- json response ;;
       ret data)%prog
    (fun error =>
       console_error "Error fetching data:" ;;;
       ret DNull)%prog.

Definition buildSearchUrl (strategy : Strategy) (term endpoint : string) : string :=
  let baseUrl :=
    API_BASE_URL +:+ "/terminologies/search/" +:+ endpoint +:+ "/?q=" +:+
    Js.encodeURIComponent rt term in
  let params :=
    ((if fuzzy strategy then [("fuzzy", "true"); ("threshold", "0.3")] else []) ++
     (if fullText strategy then [("use_fts", "true")] else []) ++
     [("page_size", if String.eqb endpoint "combined" then "20" else "15")])%list in
  baseUrl +:+ "&" +:+ params_toString params.

Definition suggestionsUrl (term : string) : string :=
  API_BASE_URL +:+ "/terminologies/search/combined/?q=" +:+
  Js.encodeURIComponent rt term +:+ "&fuzzy=true&threshold=0.4&page_size=8".

Definition toSuggestion (item : Item.t) : Suggestion.t :=
  Suggestion.mk (Item.title item) "combined"
    (default (8 # 10) (Js.or_num (Item.search_score item) None))
    (Item.id item) "icd11" (Item.definition item).

(** [fetchSuggestions]. *)
Definition fetchSuggestions (term : string) : Prog State unit :=
  if String.eqb term "" || (String.length term <? 2)%nat
  then
    (setSuggestions [] ;;;
     setRecommendations [] ;;;
     ret tt)%prog
  else
    try_finally
      (try_catch
         (setLoadingProgress (fun prev => <["suggestions" := true]> prev) ;;;
          let url := suggestionsUrl term in
          data <- fetchData url ;;
          match (if truthy data then get_results data else None) with
          | Some rs =>
              let allSuggestions := toSuggestion <$> rs in
              setSuggestions allSuggestions ;;;
              setRecommendations (Js.slice allSuggestions 0 3)
          | None => ret tt
          end)%prog
         (fun error =>
            console_error "Error fetching suggestions:" ;;;
            setSuggestions [] ;;;
            setRecommendations [])%prog)
      (setLoadingProgress (fun prev => <["suggestions" := false]> prev)).

(** The debounced effect on [searchTerm]: the body of its timer callback. *)
Definition suggestionsEffect : Prog State unit :=
  (s <- get ;;
   if (2 <=? String.length (searchTerm s))%nat
   then spawn (fetchSuggestions (searchTerm s))
   else
     setSuggestions [] ;;;
     setRecommendations [])%prog.

(** The reshaping of one combined-search result into a mapping record. *)
Definition toMapping (item : Item.t) : Mapping.t :=
  Mapping.mk
    (Item.id item)
    (SourceTerm.mk (Item.code item) (Item.title item) None)
    (NamasteTerms.mk
       (match Item.related_ayurveda item with
        | Some r => Some (NamasteTerm.mk (Related.code r) (Related.english_name r)
                            (Related.local_name r))
        | None => None
        end)
       (match Item.related_siddha item with
        | Some r => Some (NamasteTerm.mk (Related.code r) (Related.english_name r)
                            (Related.local_name r))
        | None => None
        end)
       (match Item.related_unani item with
        | Some r => Some (NamasteTerm.mk (Related.code r) (Related.english_name r)
                            (Related.local_name r))
        | None => None
        end))
    (IcdMapping.mk (Item.code item) (Item.title item) (Item.definition item)
       (Item.class_kind item) (Item.foundation_uri item))
    (default (7 # 10)
       (Js.or_num
          (Js.or_num
             (match Item.mapping_info item with
              | Some mi => MappingInfo.confidence_score mi
              | None => None
              end)
             (Item.search_score item))
          None))
    (Item.search_score item).

(** [combinedData?.results ? combinedData.results.map(...) : []]. *)
Definition toMappingResults (combinedData : Data Item.t) : list Mapping.t :=
  match get_results combinedData with
  | Some rs => toMapping <$> rs
  | None => []
  end.

(** [data || { results: [] }]. *)
Definition or_empty (d : Data Item.t) : Data Item.t :=
  if truthy d then d else empty_results.

Definition systemUrl (system term : string) : string :=
  API_BASE_URL +:+ "/terminologies/" +:+ system +:+ "/search/?q=" +:+
  Js.encodeURIComponent rt term +:+ "&threshold=0.2&page_size=12".

Definition traditionalSystems (term : string) : list (string * string) :=
  [ ("ayurveda", systemUrl "ayurveda" term);
    ("unani", systemUrl "unani" term);
    ("siddha", systemUrl "siddha" term) ].

(** [performSearch].  The three callbacks of phase 3 are not awaited; each
    is run here up to its completion, in array order.  Each one writes only
    its own key of [results] and of [loadingProgress]. *)
Definition performSearch (term system : string) (confidence : Q) : Prog State unit :=
  if String.eqb term "" || String.eqb (Js.trim rt term) ""
  then ret tt
  else
    (setIsSearching true ;;;
     setResults (fun _ => Some blank_results) ;;;
     try_finally
       (try_catch
          (s <- get ;;
           (* Phase 1: combined *)
           setLoadingProgress (fun prev => <["combined" := true]> prev) ;;;
           let combinedUrl := buildSearchUrl (searchStrategy s) term "combined" in
           combinedData <- fetchData combinedUrl ;;
           let mappingResults := toMappingResults combinedData in
           setResults (fun prev =>
             Some (<["mappingResults" := Mappings mappingResults]>
                    (<["combined" := Slot (or_empty combinedData)]>
                       (default ∅ prev)))) ;;;
           setLoadingProgress (fun prev => <["combined" := false]> prev) ;;;
           setHasSearched true ;;;
           (* Phase 2: ICD-11 *)
           setLoadingProgress (fun prev => <["icd11" := true]> prev) ;;;
           let icd11Url := buildSearchUrl (searchStrategy s) term "icd11" in
           icd11Data <- fetchData icd11Url ;;
           setResults (fun prev => spread_set prev "icd11" (Slot (or_empty icd11Data))) ;;;
           setLoadingProgress (fun prev => <["icd11" := false]> prev) ;;;
           (* Phase 3: the traditional systems *)
           for_each (traditionalSystems term) (fun system =>
             spawn
               (setLoadingProgress (fun prev => <[fst system := true]> prev) ;;;
                systemData <- fetchData (snd system) ;;
                setResults (fun prev =>
                  spread_set prev (fst system) (Slot (or_empty systemData))) ;;;
                setLoadingProgress (fun prev => <[fst system := false]> prev))))%prog
          (fun error =>
             console_error "Search error:" ;;;
             setResults (fun _ => Some blank_results))%prog)
       (setIsSearching false))%prog.

(** [handleSearch], the submit handler of the search form. *)
Definition handleSearch : Prog State unit :=
  (setShowSuggestions false ;;;
   s <- get ;;
   performSearch (searchTerm s) (selectedSystem s) (minConfidence s))%prog.

End WithEnvironment.
End SearchPage.

(* ===================================================================== *)
(** * MappingDetailsPage.js: detail aggregator and its pagination *)
(* ===================================================================== *)

(** What [fetchPaginatedData] returns, and what the detail view keeps per
    source. *)
Module Paged.
Record t := mk {
  results : list Item.t;
  count : Z;
  next : option string;
  previous : option string
}.
Definition empty : t := mk [] 0 None None.
End Paged.

(** What [fetchAllPagesForSystem] returns. *)
Module Collected.
Record t := mk {
  results : list Item.t;
  count : Z
}.
End Collected.

Module MappingDetailsPage.
Import Api Async.

Record State := mkState {
  apiCache : gmap string (Data Item.t);
  detailedData : option (gmap string Paged.t);
  isLoading : bool;
  loadedTerms : gset string
}.

Definition initial : State := mkState ∅ None false ∅.

Definition setCache (f : gmap string (Data Item.t) -> gmap string (Data Item.t))
  : Prog State unit :=
  modify (fun s => mkState (f (apiCache s)) (detailedData s) (isLoading s) (loadedTerms s)).

Definition setDetailedData (d : option (gmap string Paged.t)) : Prog State unit :=
  modify (fun s => mkState (apiCache s) d (isLoading s) (loadedTerms s)).

Definition setIsLoading (b : bool) : Prog State unit :=
  modify (fun s => mkState (apiCache s) (detailedData s) b (loadedTerms s)).

Definition addLoadedTerm (t : string) : Prog State unit :=
  modify (fun s => mkState (apiCache s) (detailedData s) (isLoading s) ({[t]} ∪ loadedTerms s)).

(** Every cached body carries at most [pageSize] results. *)
Definition cache_within (cache : gmap string (Data Item.t)) (pageSize : nat) : Prop :=
  forall (url : string) (d : Data Item.t),
    cache !! url = Some d -> (results_length d <= pageSize)%nat.

(** What a program may do to the world and to the cache: send at most [n]
    requests, show no dialog, leave [detailedData] alone, and keep the cache
    within a page size that the server honours. *)
Definition bounded_effect (server : Server Item.t) (n : nat)
  (w : World) (s : State) (w' : World) (s' : State) : Prop :=
  (exists sent : list string,
      requests w' = (requests w ++ sent)%list /\ (length sent <= n)%nat) /\
  alerts w' = alerts w /\
  detailedData s' = detailedData s /\
  forall bound : nat,
    honours_page_size server bound ->
    cache_within (apiCache s) bound ->
    cache_within (apiCache s') bound.

(** The constants of the component. *)
Definition itemsPerPage : Z := 10.
Definition maxVisiblePages : Z := 5.
Definition defaultMaxPages : Z := 3.
Definition detailPageSize : Z := 50.

(** ** Pagination helpers (pure) *)

Definition getCurrentPageData (currentPage itemsPerPage : Z) (data : option Paged.t)
  : list Item.t :=
  match data with
  | None => []
  | Some d =>
      if (length (Paged.results d) =? 0)%nat then []
      else
        let startIndex := (currentPage - 1) * itemsPerPage in
        let endIndex := startIndex + itemsPerPage in
        Js.slice (Paged.results d) startIndex endIndex
  end.

Definition getTotalPages (itemsPerPage : Z) (data : option Paged.t) : Z :=
  match data with
  | None => 0
  | Some d =>
      if (length (Paged.results d) =? 0)%nat then 0
      else Js.ceil_div (Z.of_nat (length (Paged.results d))) itemsPerPage
  end.

(** The numbered buttons computed by [renderPagination]. *)
Definition pageNumbers (currentPage totalPages : Z) : list Z :=
  let startPage := Z.max 1 (currentPage - Js.floor_div maxVisiblePages 2) in
  let endPage := Z.min totalPages (startPage + maxVisiblePages - 1) in
  let startPage :=
    if endPage - startPage + 1 <? maxVisiblePages
    then Z.max 1 (endPage - maxVisiblePages + 1)
    else startPage in
  Js.push_range startPage endPage.

(** [renderPagination]: [None] when it renders nothing, else the numbered
    buttons. *)
Definition renderPagination (currentPage itemsPerPage : Z) (data : option Paged.t)
  : option (list Z) :=
  let totalPages := getTotalPages itemsPerPage data in
  if totalPages <=? 1 then None
  else Some (pageNumbers currentPage totalPages).

(** ** Best-match selection *)

(** [(result.english_name || result.title || '').toLowerCase()]. *)
Definition resultName (rt : Js.Runtime) (result : Item.t) : string :=
  Js.toLowerCase rt
    (default ""
       (Js.or_str (Js.or_str (Item.english_name result) (Item.title result))
          (Some ""))).

Definition findBestMatch (rt : Js.Runtime) (data : option Paged.t) (termName : string)
  : option Item.t :=
  match data with
  | None => None
  | Some d =>
      if (length (Paged.results d) =? 0)%nat then None
      else
        let termNameLower := Js.toLowerCase rt termName in
        (* exact match first *)
        let match_ :=
          List.find (fun result => String.eqb (resultName rt result) termNameLower)
            (Paged.results d) in
        (* then partial match *)
        let match_ :=
          match match_ with
          | Some m => Some m
          | None =>
              List.find
                (fun result =>
                   Js.includes (resultName rt result) termNameLower ||
                   Js.includes termNameLower (resultName rt result))
                (Paged.results d)
          end in
        (* first result as fallback *)
        match match_ with
        | Some m => Some m
        | None => head (Paged.results d)
        end
  end.

(** ** Fetching *)

Section WithEnvironment.
Variable rt : Js.Runtime.
Variable API_BASE_URL : string.
Variable server : Server Item.t.

(** [fetchData(url, useCache)]: a cached body is returned without a
    request; a failure is logged and turned into [null]. *)
Definition fetchData (url : string) (useCache : bool) : Prog State (Data Item.t) :=
  (s <- get ;;
   match (if useCache then apiCache s !! url else None) with
   | Some cached => ret cached
   | None =>
       try_catch
         (response <- fetch server url ;;
          if negb (ok response)
          then throw (Error ("HTTP error! status: " +:+ pretty (status response)))
          else
            data <- json response ;;
            (if useCache then setCache (fun c => <[url := data]> c) else ret tt) ;;;
            ret data)
         (fun error =>
            console_error "Error fetching data:" ;;;
            ret DNull)
   end)%prog.

Definition pagedUrl (baseUrl searchTerm : string) (system : option string)
  (page pageSize : Z) : option string :=
  match system with
  | Some sys =>
      if String.eqb sys "combined" then
        Some (baseUrl +:+ "/terminologies/search/combined/?q=" +:+
              Js.encodeURIComponent rt searchTerm +:+
              "&fuzzy=true&threshold=0.2&use_fts=true&page=" +:+ pretty page +:+
              "&page_size=" +:+ pretty pageSize)
      else if String.eqb sys "icd11" then
        Some (baseUrl +:+ "/terminologies/icd11/search/?q=" +:+
              Js.encodeURIComponent rt searchTerm +:+
              "&fuzzy=true&threshold=0.2&page=" +:+ pretty page +:+
              "&page_size=" +:+ pretty pageSize)
      else if negb (String.eqb sys "") then
        Some (baseUrl +:+ "/terminologies/" +:+ sys +:+ "/search/?q=" +:+
              Js.encodeURIComponent rt searchTerm +:+
              "&threshold=0.2&page=" +:+ pretty page +:+
              "&page_size=" +:+ pretty pageSize)
      else None
  | None => None
  end.

(** [fetchPaginatedData]. *)
Definition fetchPaginatedData (baseUrl searchTerm : string) (system : option string)
  (page pageSize : Z) : Prog State Paged.t :=
  match pagedUrl baseUrl searchTerm system page pageSize with
  | None => ret Paged.empty
  | Some url =>
      try_catch
        (data <- fetchData url true ;;
         if truthy data
         then ret (Paged.mk (default [] (get_results data))
                     (default 0 (get_count data))
                     (get_next data) (get_previous data))
         else ret Paged.empty)%prog
        (fun error =>
           console_error ("Error fetching " +:+ default "null" system +:+ " data:") ;;;
           ret Paged.empty)%prog
  end.

(** The variables of the [while] loop of [fetchAllPagesForSystem]. *)
Record Loop := mkLoop {
  allResults : list Item.t;
  page : Z;
  hasMore : bool
}.

Definition loop_cond (maxPages : Z) (l : Loop) : bool :=
  hasMore l && (page l <=? maxPages).

(** One pass through the loop body, given the page just fetched. *)
Definition loop_body (l : Loop) (data : Paged.t) : Loop :=
  if negb (length (Paged.results data) =? 0)%nat
  then mkLoop (allResults l ++ Paged.results data) (page l + 1)
         (Js.truthy_str (Paged.next data))
  else mkLoop (allResults l) (page l) false.

(** Pages the loop may still ask for. *)
Definition pages_left (maxPages : Z) (l : Loop) : nat :=
  if hasMore l then Z.to_nat (maxPages + 1 - page l) else 0%nat.

(** The loop variant: pages still allowed while [hasMore] holds. *)
Definition loop_variant (maxPages : Z) (l : Loop) : nat :=
  if hasMore l then S (Z.to_nat (maxPages + 1 - page l)) else 0%nat.

Equations? fetchAllPages_while (baseUrl searchTerm : string) (system : option string)
  (maxPages pageSize : Z) (l : Loop) : Prog State Loop
  by wf (loop_variant maxPages l) lt :=
fetchAllPages_while baseUrl searchTerm system maxPages pageSize l
  with inspect (loop_cond maxPages l) := {
  | exist _ true Hcond :=
      bind (fetchPaginatedData baseUrl searchTerm system (page l) pageSize)
        (fun data =>
           fetchAllPages_while baseUrl searchTerm system maxPages pageSize
             (loop_body l data));
  | exist _ false _ := ret l }.
Proof.
  unfold loop_cond in Hcond.
  apply andb_prop in Hcond as [Hmore Hpage]. apply Z.leb_le in Hpage.
  unfold loop_variant, loop_body. rewrite Hmore.
  destruct (negb _); simpl; [destruct (Js.truthy_str _)|]; lia.
Qed.

(** [fetchAllPagesForSystem(baseUrl, searchTerm, system, maxPages = 3)]. *)
Definition fetchAllPagesForSystem (baseUrl searchTerm : string) (system : option string)
  (maxPages : Z) : Prog State Collected.t :=
  let pageSize := detailPageSize in
  (l <- fetchAllPages_while baseUrl searchTerm system maxPages pageSize
         (mkLoop [] 1 true) ;;
   ret (Collected.mk (allResults l) (Z.of_nat (length (allResults l)))))%prog.

(** [{ ...prev[name], ...allData }]. *)
Definition mergeCollected (prev : option Paged.t) (allData : Collected.t) : Paged.t :=
  Paged.mk (Collected.results allData) (Collected.count allData)
    (prev ≫= Paged.next) (prev ≫= Paged.previous).

(** [fetchAdditionalPages]: for each source whose first page has a [next],
    collect its pages and merge them into [detailedData]. *)
Definition fetchAdditionalPages (termName : string)
  (systems : list (string * Paged.t)) : Prog State unit :=
  for_each systems (fun system =>
    if Js.truthy_str (Paged.next (snd system))
    then
      (allData <- fetchAllPagesForSystem API_BASE_URL termName (Some (fst system))
                    defaultMaxPages ;;
       s <- get ;;
       match detailedData s with
       | None => throw (TypeError "Cannot read properties of null")
       | Some prev =>
           setDetailedData
             (Some (<[fst system := mergeCollected (prev !! fst system) allData]> prev))
       end)%prog
    else ret tt).

(** [fetchDetailedData(termName)]. *)
Definition fetchDetailedData (termName : option string) : Prog State unit :=
  (s <- get ;;
   match termName with
   | None => ret tt
   | Some termName =>
       if String.eqb termName "" || bool_decide (termName ∈ loadedTerms s)
       then ret tt
       else
         setIsLoading true ;;;
         addLoadedTerm termName ;;;
         try_finally
           (try_catch
              (combinedDetail <- fetchPaginatedData API_BASE_URL termName (Some "combined") 1 10 ;;
               ayurvedaDetail <- fetchPaginatedData API_BASE_URL termName (Some "ayurveda") 1 10 ;;
               unaniDetail <- fetchPaginatedData API_BASE_URL termName (Some "unani") 1 10 ;;
               siddhaDetail <- fetchPaginatedData API_BASE_URL termName (Some "siddha") 1 10 ;;
               icd11Detail <- fetchPaginatedData API_BASE_URL termName (Some "icd11") 1 10 ;;
               setDetailedData
                 (Some (<["combined" := combinedDetail]> (<["ayurveda" := ayurvedaDetail]>
                   (<["unani" := unaniDetail]> (<["siddha" := siddhaDetail]>
                     (<["icd11" := icd11Detail]> ∅)))))) ;;;
               spawn
                 (fetchAdditionalPages termName
                    [ ("combined", combinedDetail); ("ayurveda", ayurvedaDetail);
                      ("unani", unaniDetail); ("siddha", siddhaDetail);
                      ("icd11", icd11Detail) ]))
              (fun error => console_error "Error fetching detailed data:"))
           (setIsLoading false)
   end)%prog.

End WithEnvironment.
End MappingDetailsPage.

(* ===================================================================== *)
(** * SystemResultsPage.jsx: full result list of one source *)
(* ===================================================================== *)

Module SystemResultsPage.
Import Api Async.

Record State := mkState {
  data : Data Item.t;
  isLoading : bool;
  currentPage : Z
}.

Definition itemsPerPage : Z := 20.

Definition setData (d : Data Item.t) : Prog State unit :=
  modify (fun s => mkState d (isLoading s) (currentPage s)).

Definition setIsLoading (b : bool) : Prog State unit :=
  modify (fun s => mkState (data s) b (currentPage s)).

(** [data?.results?.length], falsy when there is nothing to show. *)
Definition results_of (d : Data Item.t) : list Item.t :=
  default [] (get_results d).

(** [pageData]. *)
Definition pageData (currentPage itemsPerPage : Z) (d : Data Item.t) : list Item.t :=
  if (length (results_of d) =? 0)%nat then []
  else
    let start := (currentPage - 1) * itemsPerPage in
    Js.slice (results_of d) start (start + itemsPerPage).

(** [totalPages]. *)
Definition totalPages (itemsPerPage : Z) (d : Data Item.t) : Z :=
  if (length (results_of d) =? 0)%nat then 0
  else Js.ceil_div (Z.of_nat (length (results_of d))) itemsPerPage.

(** The numbered buttons, rendered when [totalPages > 1]. *)
Definition pageNumbers (currentPage totalPages : Z) : list Z :=
  Js.slice (Js.array_from totalPages (fun i => i + 1))
    (Z.max 0 (currentPage - 3)) (currentPage + 2).

Definition renderPagination (currentPage itemsPerPage : Z) (d : Data Item.t)
  : option (list Z) :=
  if 1 <? totalPages itemsPerPage d
  then Some (pageNumbers currentPage (totalPages itemsPerPage d))
  else None.

Section WithEnvironment.
Variable rt : Js.Runtime.
Variable API_BASE : string.
Variable server : Server Item.t.

Definition searchUrl (system searchTerm : string) : string :=
  if String.eqb system "combined" then
    API_BASE +:+ "/terminologies/search/combined/?q=" +:+
    Js.encodeURIComponent rt searchTerm +:+ "&fuzzy=true&threshold=0.2&page_size=100"
  else if String.eqb system "icd11" then
    API_BASE +:+ "/terminologies/icd11/search/?q=" +:+
    Js.encodeURIComponent rt searchTerm +:+ "&fuzzy=true&threshold=0.2&page_size=100"
  else
    API_BASE +:+ "/terminologies/" +:+ system +:+ "/search/?q=" +:+
    Js.encodeURIComponent rt searchTerm +:+ "&threshold=0.1".

(** The [get] of the data-fetch effect. *)
Definition get_ (system searchTerm : string) : Prog State unit :=
  (setIsLoading true ;;;
   try_finally
     (try_catch
        (let url := searchUrl system searchTerm in
         res <- fetch server url ;;
         if negb (ok res) then throw (Error "statusText")
         else
           json_ <- json res ;;
           setData json_)
        (fun e =>
           console_error "e" ;;;
           setData empty_results_count0))
     (setIsLoading false))%prog.

End WithEnvironment.
End SystemResultsPage.

(* ===================================================================== *)
(** * SystemPage: search, autocomplete and CSV upload for one system *)
(* ===================================================================== *)

Module SystemPage.
Import Api Async.

Record User := mkUser {
  displayName : option string;
  email : option string
}.

Inductive SystemName := ayurveda | siddha | unani | icd11 | mappings.

(** The endpoints of the [systemData] table. *)
Record SystemConfig := mkConfig {
  title : string;
  searchEp : string;
  csvEp : option string;
  autoEp : option string
}.

Record State := mkState {
  searchTerm : string;
  results : list Item.t;
  isSearching : bool;
  currentPage : Z;
  suggPage : Z;
  uploading : bool;
  currentUser : option User;
  userChecked : bool;
  suggestions : list string;
  showSuggestions : bool;
  suggTotal : Z;
  suggLoading : bool;
  suggTotalPages : Z;
  allSuggestions : list string;
  fileInputClicks : nat
}.

Definition initial : State :=
  mkState "" [] false 1 1 false None false [] false 0 false 1 [] 0%nat.

Definition resultsPerPage : Z := 10.
Definition suggPerPage : Z := 10.

Definition setResults (l : list Item.t) : Prog State unit :=
  modify (fun s =>
    mkState (searchTerm s) l (isSearching s) (currentPage s) (suggPage s)
      (uploading s) (currentUser s) (userChecked s) (suggestions s)
      (showSuggestions s) (suggTotal s) (suggLoading s) (suggTotalPages s)
      (allSuggestions s) (fileInputClicks s)).

Definition setIsSearching (b : bool) : Prog State unit :=
  modify (fun s =>
    mkState (searchTerm s) (results s) b (currentPage s) (suggPage s)
      (uploading s) (currentUser s) (userChecked s) (suggestions s)
      (showSuggestions s) (suggTotal s) (suggLoading s) (suggTotalPages s)
      (allSuggestions s) (fileInputClicks s)).

Definition setCurrentPage (n : Z) : Prog State unit :=
  modify (fun s =>
    mkState (searchTerm s) (results s) (isSearching s) n (suggPage s)
      (uploading s) (currentUser s) (userChecked s) (suggestions s)
      (showSuggestions s) (suggTotal s) (suggLoading s) (suggTotalPages s)
      (allSuggestions s) (fileInputClicks s)).

Definition setSuggPage (n : Z) : Prog State unit :=
  modify (fun s =>
    mkState (searchTerm s) (results s) (isSearching s) (currentPage s) n
      (uploading s) (currentUser s) (userChecked s) (suggestions s)
      (showSuggestions s) (suggTotal s) (suggLoading s) (suggTotalPages s)
      (allSuggestions s) (fileInputClicks s)).

Definition setSuggestions (l : list string) : Prog State unit :=
  modify (fun s =>
    mkState (searchTerm s) (results s) (isSearching s) (currentPage s)
      (suggPage s) (uploading s) (currentUser s) (userChecked s) l
      (showSuggestions s) (suggTotal s) (suggLoading s) (suggTotalPages s)
      (allSuggestions s) (fileInputClicks s)).

Definition setShowSuggestions (b : bool) : Prog State unit :=
  modify (fun s =>
    mkState (searchTerm s) (results s) (isSearching s) (currentPage s)
      (suggPage s) (uploading s) (currentUser s) (userChecked s)
      (suggestions s) b (suggTotal s) (suggLoading s) (suggTotalPages s)
      (allSuggestions s) (fileInputClicks s)).

Definition setSuggTotal (n : Z) : Prog State unit :=
  modify (fun s =>
    mkState (searchTerm s) (results s) (isSearching s) (currentPage s)
      (suggPage s) (uploading s) (currentUser s) (userChecked s)
      (suggestions s) (showSuggestions s) n (suggLoading s) (suggTotalPages s)
      (allSuggestions s) (fileInputClicks s)).

Definition setSuggLoading (b : bool) : Prog State unit :=
  modify (fun s =>
    mkState (searchTerm s) (results s) (isSearching s) (currentPage s)
      (suggPage s) (uploading s) (currentUser s) (userChecked s)
      (suggestions s) (showSuggestions s) (suggTotal s) b (suggTotalPages s)
      (allSuggestions s) (fileInputClicks s)).

Definition setSuggTotalPages (n : Z) : Prog State unit :=
  modify (fun s =>
    mkState (searchTerm s) (results s) (isSearching s) (currentPage s)
      (suggPage s) (uploading s) (currentUser s) (userChecked s)
      (suggestions s) (showSuggestions s) (suggTotal s) (suggLoading s) n
      (allSuggestions s) (fileInputClicks s)).

Definition setAllSuggestions (l : list string) : Prog State unit :=
  modify (fun s =>
    mkState (searchTerm s) (results s) (isSearching s) (currentPage s)
      (suggPage s) (uploading s) (currentUser s) (userChecked s)
      (suggestions s) (showSuggestions s) (suggTotal s) (suggLoading s)
      (suggTotalPages s) l (fileInputClicks s)).

(** [fileInputRef.current?.click()]. *)
Definition clickFileInput : Prog State unit :=
  modify (fun s =>
    mkState (searchTerm s) (results s) (isSearching s) (currentPage s)
      (suggPage s) (uploading s) (currentUser s) (userChecked s)
      (suggestions s) (showSuggestions s) (suggTotal s) (suggLoading s)
      (suggTotalPages s) (allSuggestions s) (S (fileInputClicks s))).

(** ** Upload gate *)

(** [currentUser?.displayName === 'root' && currentUser?.email === 'root@gmail.com']. *)
Definition isAdmin (currentUser : option User) : bool :=
  match currentUser ≫= displayName with
  | Some n => String.eqb n "root"
  | None => false
  end &&
  match currentUser ≫= email with
  | Some e => String.eqb e "root@gmail.com"
  | None => false
  end.

(** [!!currentUser]. *)
Definition isLoggedIn (currentUser : option User) : bool :=
  match currentUser with Some _ => true | None => false end.

Definition handleFilePick : Prog State unit :=
  (s <- get ;;
   if negb (userChecked s) then
     alert "Please wait while we check your authentication status..."
   else if negb (isLoggedIn (currentUser s)) then
     alert "Please log in to upload files"
   else if negb (isAdmin (currentUser s)) then
     alert "Only admin users can upload files"
   else clickFileInput)%prog.

Definition getUploadIconTitle (s : State) : string :=
  if negb (userChecked s) then "Checking authentication..."
  else if negb (isLoggedIn (currentUser s)) then "Please log in to upload files"
  else if negb (isAdmin (currentUser s)) then "Only admin can upload files"
  else "Upload CSV to update database".

Definition getUploadIconClass (s : State) : string :=
  if negb (userChecked s) || uploading s then "upload-icon checking"
  else if negb (isLoggedIn (currentUser s)) || negb (isAdmin (currentUser s))
  then "upload-icon disabled"
  else "upload-icon".

(** The upload control as rendered: [className] and [title] of the icon,
    present only when the system has a CSV endpoint. *)
Record UploadControl := mkControl {
  className : string;
  tooltip : string
}.

Definition renderUpload (system : SystemConfig) (s : State) : option UploadControl :=
  match csvEp system with
  | Some _ => Some (mkControl (getUploadIconClass s) (getUploadIconTitle s))
  | None => None
  end.

(** ** Result pagination (pure) *)

Definition totalPages (resultsPerPage : Z) (results : list Item.t) : Z :=
  Js.ceil_div (Z.of_nat (length results)) resultsPerPage.

Definition currentResults (currentPage resultsPerPage : Z) (results : list Item.t)
  : list Item.t :=
  Js.slice results ((currentPage - 1) * resultsPerPage) (currentPage * resultsPerPage).

(** The numbered buttons, rendered when [totalPages > 1]. *)
Definition pageNumbers (currentPage totalPages : Z) : list Z :=
  Js.array_from (Z.min 5 totalPages) (fun i =>
    if totalPages <=? 5 then i + 1
    else if currentPage <=? 3 then i + 1
    else if totalPages - 2 <=? currentPage then totalPages - 4 + i
    else currentPage - 2 + i).

Definition renderPagination (currentPage resultsPerPage : Z) (results : list Item.t)
  : option (list Z) :=
  if (0 <? length (currentResults currentPage resultsPerPage results))%nat &&
     (1 <? totalPages resultsPerPage results)
  then Some (pageNumbers currentPage (totalPages resultsPerPage results))
  else None.

Section WithEnvironment.
Variable rt : Js.Runtime.
Variable API_BASE : string.
Variable auto_server : Server string.
Variable search_server : Server Item.t.

Definition systemData (systemName : SystemName) : SystemConfig :=
  match systemName with
  | ayurveda =>
      mkConfig "Ayurveda"
        (API_BASE +:+ "/terminologies/ayurveda/search/?q=")
        (Some (API_BASE +:+ "/terminologies/ayurveda/csv/upload/"))
        (Some (API_BASE +:+ "/terminologies/ayurveda/autocomplete/?q="))
  | siddha =>
      mkConfig "Siddha"
        (API_BASE +:+ "/terminologies/siddha/search/?q=")
        (Some (API_BASE +:+ "/terminologies/siddha/csv/upload/"))
        (Some (API_BASE +:+ "/terminologies/siddha/autocomplete/?q="))
  | unani =>
      mkConfig "Unani"
        (API_BASE +:+ "/terminologies/unani/search/?q=")
        (Some (API_BASE +:+ "/terminologies/unani/csv/upload/"))
        (Some (API_BASE +:+ "/terminologies/unani/autocomplete/?q="))
  | icd11 =>
      mkConfig "ICD-11"
        (API_BASE +:+ "/terminologies/icd11/search/?fuzzy=true&q=")
        None
        (Some (API_BASE +:+ "/terminologies/icd11/autocomplete/?q="))
  | mappings =>
      mkConfig "Mappings"
        (API_BASE +:+ "/terminologies/mappings/?system=")
        None
        None
  end.

(** [fetchData]: every failure is logged and turned into [null]. *)
Definition fetchData {A} (server : Server A) (url : string) : Prog State (Data A) :=
  try_catch
    (res <- fetch server url ;;
     if negb (ok res)
     then throw (Error ("HTTP error! status: " +:+ pretty (status res)))
     else json res)%prog
    (fun e =>
       console_error "fetch error" ;;;
       ret DNull)%prog.

Definition updateDisplayedSuggestions (allData : list string) (page : Z)
  : Prog State unit :=
  let start := (page - 1) * suggPerPage in
  let end_ := start + suggPerPage in
  setSuggestions (Js.slice allData start end_).

Definition autocompleteUrl (system : SystemConfig) (term : string) : string :=
  default "null" (autoEp system) +:+ Js.encodeURIComponent rt term +:+ "&limit=1000".

(** [fetchAllSuggestions]. *)
Definition fetchAllSuggestions (system : SystemConfig) (term : string) : Prog State unit :=
  if String.eqb term "" || (String.length term <? 2)%nat
  then
    (setAllSuggestions [] ;;;
     setSuggestions [] ;;;
     setSuggTotal 0 ;;;
     setSuggTotalPages 1 ;;;
     ret tt)%prog
  else
    (setSuggLoading true ;;;
     try_finally
       (try_catch
          (data <- fetchData auto_server (autocompleteUrl system term) ;;
           let allData :=
             match data with
             | DObject rs => default [] (Api.results rs)
             | DArray items => items
             | DNull => []
             end in
           setAllSuggestions allData ;;;
           setSuggTotal (Z.of_nat (length allData)) ;;;
           setSuggTotalPages (Js.ceil_div (Z.of_nat (length allData)) suggPerPage) ;;;
           updateDisplayedSuggestions allData 1)
          (fun error =>
             console_error "Error fetching suggestions:" ;;;
             setAllSuggestions [] ;;;
             setSuggestions [] ;;;
             setSuggTotal 0 ;;;
             setSuggTotalPages 1))
       (setSuggLoading false))%prog.

(** The debounced effect on [searchTerm]: the body of its timer callback. *)
Definition suggestionsEffect (system : SystemConfig) : Prog State unit :=
  (setSuggPage 1 ;;;
   s <- get ;;
   spawn (fetchAllSuggestions system (searchTerm s)))%prog.

(** [handleSearch]. *)
Definition handleSearch (system : SystemConfig) : Prog State unit :=
  (s <- get ;;
   if String.eqb (Js.trim rt (searchTerm s)) "" then ret tt
   else
     setIsSearching true ;;;
     setCurrentPage 1 ;;;
     try_finally
       (try_catch
          (let searchUrl := searchEp system +:+ Js.encodeURIComponent rt (searchTerm s) in
           data <- fetchData search_server searchUrl ;;
           let res :=
             match data with
             | DObject rs => default [] (Api.results rs)
             | DArray items => items
             | DNull => []
             end in
           setResults res)
          (fun error =>
             console_error "Search error:" ;;;
             setResults []))
       (setIsSearching false ;;;
        setShowSuggestions false))%prog.

End WithEnvironment.
End SystemPage.

(* ===================================================================== *)
(** * SearchPage.js: strategy toggles, result counts and what is shown *)
(* ===================================================================== *)

Module SearchView.
Import Api Async SearchPage.

(** The updaters of [toggleSearchStrategy]. *)
Definition toggled (strategy : string) (prev : Strategy) : Strategy :=
  if String.eqb strategy "fuzzy" then
    mkStrategy (negb (fuzzy prev)) (if fuzzy prev then fullText prev else false)
  else if String.eqb strategy "fullText" then
    mkStrategy (if fullText prev then fuzzy prev else false) (negb (fullText prev))
  else prev.

(** [toggleSearchStrategy]. *)
Definition toggleSearchStrategy (strategy : string) : Prog State unit :=
  modify (fun s =>
    mkState (searchTerm s) (selectedSystem s) (minConfidence s) (results s)
      (isSearching s) (hasSearched s) (suggestions s) (showSuggestions s)
      (recommendations s) (toggled strategy (searchStrategy s))
      (loadingProgress s)).

(** The effect on [selectedSystem], [minConfidence] and [searchStrategy]:
    the guards, and the body of its timer callback. *)
Definition searchEffect (rt : Js.Runtime) (API_BASE_URL : string)
  (server : Server Item.t) : Prog State unit :=
  (s <- get ;;
   if negb (hasSearched s) then ret tt
   else if String.eqb (searchTerm s) "" || String.eqb (Js.trim rt (searchTerm s)) ""
   then ret tt
   else
     spawn (performSearch rt API_BASE_URL server (searchTerm s) (selectedSystem s)
              (minConfidence s)))%prog.

(** [results.key?.results] and [results.key?.count]. *)
Definition slot_results (v : option SlotVal) : option (list Item.t) :=
  match v with
  | Some (Slot d) => get_results d
  | _ => None
  end.

Definition slot_count (v : option SlotVal) : option Z :=
  match v with
  | Some (Slot d) => get_count d
  | _ => None
  end.

(** [n || fallback] on a number that may be absent. *)
Definition or_z (n : option Z) (fallback : Z) : Z :=
  match n with
  | Some n => if n =? 0 then fallback else n
  | None => fallback
  end.

Record Counts := mkCounts {
  combined : Z;
  ayurveda : Z;
  unani : Z;
  siddha : Z;
  icd11 : Z
}.

(** [getResultCounts]. *)
Definition getResultCounts (results : option (gmap string SlotVal)) : Counts :=
  match results with
  | None => mkCounts 0 0 0 0 0
  | Some r =>
      let len key := Z.of_nat ∘ length <$> slot_results (r !! key) in
      mkCounts
        (or_z (len "combined") 0)
        (or_z (len "ayurveda") (or_z (slot_count (r !! "ayurveda")) 0))
        (or_z (len "unani") (or_z (slot_count (r !! "unani")) 0))
        (or_z (len "siddha") (or_z (slot_count (r !! "siddha")) 0))
        (or_z (len "icd11") (or_z (slot_count (r !! "icd11")) 0))
  end.

(** [Object.values(resultCounts).reduce((sum, count) => sum + count, 0)]. *)
Definition totalResults (c : Counts) : Z :=
  fold_left Z.add [combined c; ayurveda c; unani c; siddha c; icd11 c] 0.

(** [results.mappingResults.length], read by the mapping table. *)
Definition mappingCount (s : State) : option Z :=
  match results_at s "mappingResults" with
  | Some (Mappings l) => Some (Z.of_nat (length l))
  | _ => None
  end.

(** What the results area shows. *)
Inductive ResultsView :=
| NoResultsSection
| ComprehensiveResults
| NoResultsMessage
| Blank.

Definition resultsView (s : State) : ResultsView :=
  match results s with
  | None => NoResultsSection
  | Some _ =>
      if 0 <? totalResults (getResultCounts (results s)) then ComprehensiveResults
      else if hasSearched s && negb (isSearching s) then NoResultsMessage
      else Blank
  end.

(** What the dropdown under the search box shows. *)
Inductive Dropdown :=
| Hidden
| LoadingSuggestions
| SearchSuggestions (shown : list Suggestion.t)
| TopRecommendations (shown : list Suggestion.t)
| Nothing.

Definition dropdown (s : State) : Dropdown :=
  let loading := default false (loadingProgress s !! "suggestions") in
  if showSuggestions s &&
     ((0 <? length (suggestions s))%nat || (0 <? length (recommendations s))%nat ||
      loading)
  then
    if loading then LoadingSuggestions
    else if (0 <? length (suggestions s))%nat
         then SearchSuggestions (Js.slice (suggestions s) 0 6)
    else if (0 <? length (recommendations s))%nat
         then TopRecommendations (recommendations s)
    else Nothing
  else Hidden.

End SearchView.

(* ===================================================================== *)
(** * MappingDetailsPage.js: progressive loading and "load more" *)
(* ===================================================================== *)

(** A mapped term shown in place of search results.  Its [id] is the
    term's own when it has one, else a string drawn from [Math.random]. *)
Module MappedRow.
Inductive Id :=
| Known (id : Z)
| Random (drawn : string).

Record t := mk {
  id : Id;
  code : option string;
  english_name : option string;
  local_name : option string
}.
End MappedRow.

(** One entry of [allData]: the rows of a source and its paging state. *)
Module Source.
Inductive Row :=
| FromSearch (item : Item.t)
| FromMapping (m : MappedRow.t).

Record t := mk {
  results : list Row;
  count : Z;
  next : option string;
  previous : option string;
  currentPage : Z
}.

(** The [useState] value [{ results: [], count: 0, next: null, currentPage: 1 }]. *)
Definition empty : t := mk [] 0 None None 1.
End Source.

(** What the page is opened with ([mapping], [item]) or has selected: the
    fields of that object which the loading code reads. *)
Module Carried.
Record t := mk {
  related_ayurveda : option Related.t;
  related_siddha : option Related.t;
  related_unani : option Related.t;
  namaste_terms : option NamasteTerms.t;
  source_term_english_name : option string;
  title : option string;
  english_name : option string
}.

(** A result of the combined endpoint, as such an object. *)
Definition of_item (item : Item.t) : t :=
  mk (Item.related_ayurveda item) (Item.related_siddha item)
    (Item.related_unani item) None None (Item.title item) (Item.english_name item).

(** A row of the search page's mapping table, as such an object. *)
Definition of_mapping (m : Mapping.t) : t :=
  mk None None None (Some (Mapping.namaste_terms m))
    (SourceTerm.english_name (Mapping.source_term m)) None None.

(** [obj[`related_${system}`]]. *)
Definition related (c : t) (system : string) : option Related.t :=
  if String.eqb system "ayurveda" then related_ayurveda c
  else if String.eqb system "siddha" then related_siddha c
  else if String.eqb system "unani" then related_unani c
  else None.

(** [obj.namaste_terms && obj.namaste_terms[system]]. *)
Definition namaste (c : t) (system : string) : option NamasteTerm.t :=
  match namaste_terms c with
  | Some slots =>
      if String.eqb system "ayurveda" then NamasteTerms.ayurveda slots
      else if String.eqb system "siddha" then NamasteTerms.siddha slots
      else if String.eqb system "unani" then NamasteTerms.unani slots
      else None
  | None => None
  end.
End Carried.

Module Selected.
Record t := mk {
  carried : Carried.t;
  system : string;
  type : string;
  termName : option string
}.
End Selected.

Module DetailsPage.
Import Api Async.

(** The component state: the part the fetch helpers work on ([core]) and
    the hooks of the page itself. *)
Record State := mkState {
  core : MappingDetailsPage.State;
  allData : gmap string Source.t;
  isLoadingMore : bool;
  selectedResult : option Selected.t;
  loadingProgress : gmap string bool
}.

Definition initial : State :=
  mkState MappingDetailsPage.initial
    (<["combined" := Source.empty]> (<["ayurveda" := Source.empty]>
      (<["unani" := Source.empty]> (<["siddha" := Source.empty]>
        (<["icd11" := Source.empty]> ∅)))))
    false None
    (<["combined" := false]> (<["ayurveda" := false]> (<["unani" := false]>
      (<["siddha" := false]> (<["icd11" := false]> ∅))))).

(** A program on [core], run inside the page. *)
Definition on_core {A} (p : Prog MappingDetailsPage.State A) : Prog State A :=
  fun c =>
    match p (fst c, core (snd c)) with
    | (o, (w', core')) =>
        (o, (w', mkState core' (allData (snd c)) (isLoadingMore (snd c))
                   (selectedResult (snd c)) (loadingProgress (snd c))))
    end.

Definition setAllData (f : gmap string Source.t -> gmap string Source.t)
  : Prog State unit :=
  modify (fun s =>
    mkState (core s) (f (allData s)) (isLoadingMore s) (selectedResult s)
      (loadingProgress s)).

Definition setIsLoadingMore (b : bool) : Prog State unit :=
  modify (fun s =>
    mkState (core s) (allData s) b (selectedResult s) (loadingProgress s)).

Definition setSelectedResult (r : Selected.t) : Prog State unit :=
  modify (fun s =>
    mkState (core s) (allData s) (isLoadingMore s) (Some r) (loadingProgress s)).

Definition setLoadingProgress (f : gmap string bool -> gmap string bool)
  : Prog State unit :=
  modify (fun s =>
    mkState (core s) (allData s) (isLoadingMore s) (selectedResult s)
      (f (loadingProgress s))).

(** The parts of [core] that fetching leaves alone. *)
Definition frame (s s' : MappingDetailsPage.State) : Prop :=
  MappingDetailsPage.detailedData s' = MappingDetailsPage.detailedData s /\
  MappingDetailsPage.isLoading s' = MappingDetailsPage.isLoading s /\
  MappingDetailsPage.loadedTerms s' = MappingDetailsPage.loadedTerms s.

(** [{ ...page, currentPage }] with the rows as they came from the search. *)
Definition source_of (page : Paged.t) (currentPage : Z) : Source.t :=
  Source.mk (Source.FromSearch <$> Paged.results page) (Paged.count page)
    (Paged.next page) (Paged.previous page) currentPage.

(** [{ ...mappedTerm, id: mappedTerm.id || Math.random().toString() }]. *)
Definition row_of_related (drawn : string) (r : Related.t) : MappedRow.t :=
  MappedRow.mk
    (match Related.id r with
     | Some id => if id =? 0 then MappedRow.Random drawn else MappedRow.Known id
     | None => MappedRow.Random drawn
     end)
    (Related.code r) (Related.english_name r) (Related.local_name r).

Definition row_of_namaste (drawn : string) (n : NamasteTerm.t) : MappedRow.t :=
  MappedRow.mk (MappedRow.Random drawn)
    (NamasteTerm.code n) (NamasteTerm.english_name n) (NamasteTerm.local_name n).

(** The mapped term the active item carries for a system, as a row. *)
Definition mappedTerm (drawn : string) (activeItem : option Carried.t)
  (system : string) : option MappedRow.t :=
  match activeItem with
  | Some a =>
      match Carried.related a system with
      | Some r => Some (row_of_related drawn r)
      | None =>
          match Carried.namaste a system with
          | Some n => Some (row_of_namaste drawn n)
          | None => None
          end
      end
  | None => None
  end.

(** What a system's callback stores for the page it fetched: the mapped
    term when a traditional system's search came back empty and there is
    one, else the page as it is. *)
Definition loaded_source (drawn : string) (activeItem : option Carried.t)
  (system : string) (systemData : Paged.t) : Source.t :=
  if (length (Paged.results systemData) =? 0)%nat && negb (String.eqb system "icd11")
  then
    match mappedTerm drawn activeItem system with
    | Some row =>
        Source.mk [Source.FromMapping row] 1 (Paged.next systemData)
          (Paged.previous systemData) 1
    | None => source_of systemData 1
    end
  else source_of systemData 1.

Section WithEnvironment.
Variable rt : Js.Runtime.
Variable API_BASE_URL : string.
Variable server : Server Item.t.
(** The string [Math.random().toString()] gives in the callback of a system. *)
Variable random_id : string -> string.
(** The values the page is opened with. *)
Variable searchTerm : option string.
Variable mapping : option Carried.t.
Variable item : option Carried.t.
Variable systemType : option string.

(** [loadMoreResults(systemKey)]. *)
Definition loadMoreResults (systemKey : string) : Prog State unit :=
  (s <- get ;;
   if negb (Js.truthy_str (allData s !! systemKey ≫= Source.next)) || isLoadingMore s
   then ret tt
   else
     setIsLoadingMore true ;;;
     try_finally
       (try_catch
          (s <- get ;;
           match allData s !! systemKey with
           | None => throw (TypeError "Cannot read properties of undefined")
           | Some current =>
               let nextPage :=
                 (if Source.currentPage current =? 0 then 1
                  else Source.currentPage current) + 1 in
               newData <- on_core
                 (MappingDetailsPage.fetchPaginatedData rt server API_BASE_URL
                    (default "undefined" searchTerm)
                    (Some (if String.eqb systemKey "icd11" then "icd11" else systemKey))
                    nextPage 10) ;;
               s <- get ;;
               match allData s !! systemKey with
               | None => throw (TypeError "Cannot read properties of undefined")
               | Some prev =>
                   setAllData (fun all =>
                     <[systemKey :=
                         Source.mk
                           (Source.results prev ++
                            (Source.FromSearch <$> Paged.results newData))
                           (Paged.count newData) (Paged.next newData) None
                           nextPage]> all)
               end
           end)
          (fun error =>
             console_error ("Error loading more " +:+ systemKey +:+ " results:")))
       (setIsLoadingMore false))%prog.

(** The item the fallback reads its mappings from, and the selection the
    effect makes, given the first combined page and the selection the
    effect started with. *)
Definition chooseActive (term : string) (combinedData : Paged.t)
  (selected : option Selected.t) : option Carried.t * option Selected.t :=
  match Paged.results combinedData, selected, mapping, item with
  | firstResult :: _, None, _, _ =>
      (Some (Carried.of_item firstResult),
       Some (Selected.mk (Carried.of_item firstResult) "Combined" "combined"
               (Js.or_str (Item.title firstResult) (Some term))))
  | [], None, Some m, _ =>
      (Some m,
       Some (Selected.mk m (default "Combined" (Js.or_str systemType None)) "mapping"
               (Js.or_str
                  (Js.or_str (Carried.source_term_english_name m) (Carried.title m))
                  (Some term))))
  | [], None, None, Some i =>
      (Some i,
       Some (Selected.mk i (default "System" (Js.or_str systemType None)) "item"
               (Js.or_str (Js.or_str (Carried.english_name i) (Carried.title i))
                  (Some term))))
  | _, Some sel, _, _ => (Some (Selected.carried sel), None)
  | [], None, None, None => (None, None)
  end.

(** The progressive-loading effect.  The four callbacks of its [forEach]
    are not awaited; each is run here up to its completion, in array order.
    Each one writes only its own key of [allData] and of [loadingProgress]. *)
Definition loadDataProgressively : Prog State unit :=
  match searchTerm with
  | None => ret tt
  | Some term =>
      if String.eqb term "" then ret tt
      else
        (s <- get ;;
         on_core (MappingDetailsPage.setIsLoading true) ;;;
         setLoadingProgress (fun prev => <["combined" := true]> prev) ;;;
         combinedData <- on_core
           (MappingDetailsPage.fetchPaginatedData rt server API_BASE_URL term
              (Some "combined") 1 10) ;;
         setAllData (fun prev => <["combined" := source_of combinedData 1]> prev) ;;;
         setLoadingProgress (fun prev => <["combined" := false]> prev) ;;;
         let chosen := chooseActive term combinedData (selectedResult s) in
         match snd chosen with
         | Some selection => setSelectedResult selection
         | None => ret tt
         end ;;;
         let activeItem := fst chosen in
         for_each ["ayurveda"; "unani"; "siddha"; "icd11"] (fun system =>
           spawn
             (setLoadingProgress (fun prev => <[system := true]> prev) ;;;
              systemData <- on_core
                (MappingDetailsPage.fetchPaginatedData rt server API_BASE_URL term
                   (Some system) 1 10) ;;
              setAllData (fun prev =>
                <[system := loaded_source (random_id system) activeItem system
                              systemData]> prev) ;;;
              setLoadingProgress (fun prev => <[system := false]> prev))) ;;;
         on_core (MappingDetailsPage.setIsLoading false))%prog
  end.

End WithEnvironment.
End DetailsPage.

(* ===================================================================== *)
(** * SystemPage: suggestion paging and CSV upload *)
(* ===================================================================== *)

Module SuggestionPaging.
Import Api Async SystemPage.

(** [handleSuggPage(page)]. *)
Definition handleSuggPage (page : Z) : Prog State unit :=
  (s <- get ;;
   if (page <? 1) || (suggTotalPages s <? page) then ret tt
   else setSuggPage page)%prog.

(** The effect on [[suggPage, allSuggestions]]. *)
Definition pageEffect : Prog State unit :=
  (s <- get ;;
   if (0 <? length (allSuggestions s))%nat
   then updateDisplayedSuggestions (allSuggestions s) (suggPage s)
   else ret tt)%prog.

(** "Showing [startItem]-[endItem] of [total]". *)
Record Label := mkLabel {
  startItem : Z;
  endItem : Z;
  total : Z
}.

(** [renderSuggPagination]: [None] when it renders nothing. *)
Definition renderSuggPagination (s : State) : option Label :=
  if suggTotalPages s <=? 1 then None
  else
    let startItem := (suggPage s - 1) * suggPerPage + 1 in
    let endItem := Z.min (suggPage s * suggPerPage) (suggTotal s) in
    Some (mkLabel startItem endItem (suggTotal s)).

(** The suggestions dropdown as rendered. *)
Inductive Dropdown :=
| Hidden
| LoadingSuggestions
| Items (shown : list string) (label : option Label)
| NoSuggestions.

Definition dropdown (s : State) : Dropdown :=
  if showSuggestions s && (2 <=? String.length (searchTerm s))%nat then
    if suggLoading s then LoadingSuggestions
    else if (0 <? length (suggestions s))%nat
         then Items (suggestions s) (renderSuggPagination s)
    else NoSuggestions
  else Hidden.

End SuggestionPaging.

Module CsvUpload.
Import Api Async SystemPage.

(** The body the upload endpoint answers with, as far as the page reads it. *)
Record UploadJson := mkJson {
  error : option string;
  summary : option string;
  created : option Z;
  updated : option Z;
  skipped : option Z
}.

(** What the upload endpoint does with one request: the network fails, the
    body is not JSON, or it is a JSON value ([None] for [null]). *)
Inductive UploadReply :=
| NetworkDown
| NotJson
| Json (value : option UploadJson).

Definition UploadServer := list string -> string -> UploadReply.

(** The page state with the upload hooks: [uploadRes] and the value of the
    hidden file input. *)
Record State := mkState {
  page : SystemPage.State;
  uploadRes : option UploadJson;
  inputValue : string
}.

Definition setUploading (b : bool) : Prog State unit :=
  modify (fun s =>
    mkState
      (SystemPage.mkState (searchTerm (page s)) (results (page s))
         (isSearching (page s)) (currentPage (page s)) (suggPage (page s)) b
         (currentUser (page s)) (userChecked (page s)) (suggestions (page s))
         (showSuggestions (page s)) (suggTotal (page s)) (suggLoading (page s))
         (suggTotalPages (page s)) (allSuggestions (page s))
         (fileInputClicks (page s)))
      (uploadRes s) (inputValue s)).

Definition setUploadRes (r : option UploadJson) : Prog State unit :=
  modify (fun s => mkState (page s) r (inputValue s)).

(** [e.target.value = '']. *)
Definition clearInput : Prog State unit :=
  modify (fun s => mkState (page s) (uploadRes s) "").

(** [await fetch(url, { method: 'POST', body: form })] followed by
    [await res.json()]: the request is recorded; there is no check of
    [res.ok]. *)
Definition post (server : UploadServer) (url : string)
  : Prog State (option UploadJson) :=
  fun c =>
    let w := fst c in
    let w' := mkWorld (requests w ++ [url]) (console w) (alerts w) in
    match server (requests w) url with
    | NetworkDown => (Throw (TypeError "Failed to fetch"), (w', snd c))
    | NotJson => (Throw (SyntaxError "Unexpected token"), (w', snd c))
    | Json value => (Return value, (w', snd c))
    end.

(** [handleFileUpload(e)], with [file] for [e.target.files[0]]. *)
Definition handleFileUpload (server : UploadServer) (system : SystemConfig)
  (file : option string) : Prog State unit :=
  (s <- get ;;
   match file, csvEp system with
   | Some _, Some endpoint =>
       if String.eqb endpoint "" then ret tt
       else if negb (isLoggedIn (currentUser (page s))) then
         alert "Please log in to upload files" ;;;
         clearInput
       else if negb (isAdmin (currentUser (page s))) then
         alert "Only admin users can upload files" ;;;
         clearInput
       else
         setUploading true ;;;
         setUploadRes None ;;;
         try_finally
           (try_catch
              (json <- post server endpoint ;;
               setUploadRes json)
              (fun err =>
                 setUploadRes
                   (Some (mkJson (Some "Network or server error") None None None None))))
           (setUploading false ;;;
            clearInput)
   | _, _ => ret tt
   end)%prog.

(** The upload feedback as rendered. *)
Inductive Feedback :=
| UploadFailed (message : string)
| UploadSucceeded (message : string).

Definition or_zero (n : option Z) : Z :=
  match n with
  | Some k => k
  | None => 0
  end.

Definition feedback (s : State) : option Feedback :=
  match uploadRes s with
  | None => None
  | Some res =>
      if Js.truthy_str (error res)
      then Some (UploadFailed ("Upload failed: " +:+ default "" (error res)))
      else
        Some (UploadSucceeded
                (default
                   ("Created: " +:+ pretty (or_zero (created res)) +:+
                    " | Updated: " +:+ pretty (or_zero (updated res)) +:+
                    " | Skipped: " +:+ pretty (or_zero (skipped res)))
                   (Js.or_str (summary res) None)))
  end.

End CsvUpload.

Module TableHeaders.
Import SystemPage.

Definition allowedIcd11Headers : list string :=
  ["code"; "title"; "display_name"; "definition"; "class_kind"].

(** [keys.add(k)] on a [Set], which keeps insertion order. *)
Definition add_key (keys : list string) (k : string) : list string :=
  if bool_decide (k ∈ keys) then keys else (keys ++ [k])%list.

Section WithKeys.
(** [Object.keys(item)]: the property names of a row as the server sent it. *)
Variable object_keys : Item.t -> list string.

(** [getTableHeaders(items)]. *)
Definition getTableHeaders (systemName : SystemName) (items : list Item.t)
  : list string :=
  if (length items =? 0)%nat then []
  else
    match systemName with
    | icd11 => allowedIcd11Headers
    | _ =>
        fold_left (fun keys item => fold_left add_key (object_keys item) keys)
          items []
    end.

End WithKeys.
End TableHeaders.

(* ===================================================================== *)
(** * MappingDetailsPage.js: the definition column of the combined table *)
(* ===================================================================== *)

Module DefinitionCell.

(** [result.definition ? `${result.definition.substring(0, 100)}${...}` : "-"]. *)
Definition definitionPreview (definition : option string) : string :=
  match definition with
  | Some d =>
      if String.eqb d "" then "-"
      else
        String.substring 0 100 d +:+
        (if (100 <? String.length d)%nat then "..." else "")
  | None => "-"
  end.

End DefinitionCell.

(* ===================================================================== *)
(** * SystemResultsPage.jsx: the details drawer and the data-fetch effect *)
(* ===================================================================== *)

Module DetailsDrawer.
Import Async.

Section WithBody.
(** A parsed JSON body of one of the per-code endpoints. *)
Variable V : Type.

Inductive Reply :=
| NetworkFailure
| HttpReply (status : Z) (body : option V).

Definition Server := list string -> string -> Reply.

(** The five slots of the drawer; [None] is [null] or not yet set. *)
Record Data := mkData {
  icd : option V;
  ayur : option V;
  sidd : option V;
  unan : option V;
  map : option V
}.

Record State := mkState {
  loading : bool;
  data : Data
}.

(** [useState(true)] and [useState({})]. *)
Definition initial : State := mkState true (mkData None None None None None).

Definition setLoading (b : bool) : Prog State unit :=
  modify (fun s => mkState b (data s)).

Definition setData (d : Data) : Prog State unit :=
  modify (fun s => mkState (loading s) d).

(** [fetchJSON(url)]: rejects on a network failure, on a status outside
    2xx, and on a body that is not JSON. *)
Definition fetchJSON (server : Server) (url : string) : Prog State V :=
  fun c =>
    let w := fst c in
    let w' := mkWorld (requests w ++ [url]) (console w) (alerts w) in
    match server (requests w) url with
    | NetworkFailure => (Throw (TypeError "Failed to fetch"), (w', snd c))
    | HttpReply st body =>
        if negb ((200 <=? st) && (st <=? 299))
        then (Throw (Error "statusText"), (w', snd c))
        else
          match body with
          | Some v => (Return v, (w', snd c))
          | None => (Throw (SyntaxError "Unexpected token"), (w', snd c))
          end
    end.

(** One entry of [Promise.allSettled]. *)
Inductive Settled :=
| Fulfilled (value : V)
| Rejected (reason : Exn).

Definition settle (p : Prog State V) : Prog State Settled :=
  fun c =>
    match p c with
    | (Return v, c') => (Return (Fulfilled v), c')
    | (Throw e, c') => (Return (Rejected e), c')
    end.

(** [x.status === 'fulfilled' ? x.value : null]. *)
Definition value_or_null (x : Settled) : option V :=
  match x with
  | Fulfilled v => Some v
  | Rejected _ => None
  end.

Section WithEnvironment.
Variable rt : Js.Runtime.
Variable API_BASE : string.
Variable server : Server.

Definition codeUrl (source code : string) : string :=
  API_BASE +:+ "/terminologies/" +:+ source +:+ "/" +:+ Js.encodeURIComponent rt code.

(** The [get] of the drawer's effect.  [stale] is the flag as it stands
    when the five requests have settled. *)
Definition get_ (code : string) (stale : bool) : Prog State unit :=
  (try_finally
     (try_catch
        (setLoading true ;;;
         icd <- settle (fetchJSON server (codeUrl "icd11" code)) ;;
         ayur <- settle (fetchJSON server (codeUrl "ayurveda" code)) ;;
         sidd <- settle (fetchJSON server (codeUrl "siddha" code)) ;;
         unan <- settle (fetchJSON server (codeUrl "unani" code)) ;;
         map <- settle (fetchJSON server (codeUrl "mappings" code)) ;;
         if stale then ret tt
         else
           setData (mkData (value_or_null icd) (value_or_null ayur)
                      (value_or_null sidd) (value_or_null unan)
                      (value_or_null map)))
        (fun e => console_error "e"))
     (setLoading false))%prog.

End WithEnvironment.
End WithBody.

Arguments NetworkFailure {V}.
Arguments HttpReply {V}.
Arguments mkData {V}.
Arguments icd {V}.
Arguments ayur {V}.
Arguments sidd {V}.
Arguments unan {V}.
Arguments map {V}.
Arguments mkState {V}.
Arguments loading {V}.
Arguments data {V}.
Arguments initial {V}.
Arguments fetchJSON {V}.
Arguments settle {V}.
Arguments value_or_null {V}.
Arguments get_ {V}.

(** Whether a request to [url] after [history] yields a value. *)
Definition succeeds {V} (server : Server V) (history : list string) (url : string)
  : option V :=
  match server history url with
  | NetworkFailure => None
  | HttpReply st body =>
      if (200 <=? st) && (st <=? 299) then body else None
  end.

End DetailsDrawer.

Module ResultsEffect.
Import Api Async SystemResultsPage.

(** The page state together with the routes it has navigated to. *)
Record State := mkState {
  core : SystemResultsPage.State;
  navigations : list string
}.

(** The initial hooks, given [location.state.results]. *)
Definition opened (prefilledResults : option (Data Item.t)) : State :=
  mkState
    (SystemResultsPage.mkState
       (match prefilledResults with
        | Some d => if truthy d then d else DNull
        | None => DNull
        end)
       (negb (match prefilledResults with Some d => truthy d | None => false end))
       1)
    [].

Definition navigate (route : string) : Prog State unit :=
  modify (fun s => mkState (core s) (navigations s ++ [route])).

Definition on_core {A} (p : Prog SystemResultsPage.State A) : Prog State A :=
  fun c =>
    match p (fst c, core (snd c)) with
    | (o, (w', core')) => (o, (w', mkState core' (navigations (snd c))))
    end.

Section WithEnvironment.
Variable rt : Js.Runtime.
Variable API_BASE : string.
Variable server : Server Item.t.

(** The data-fetch effect. *)
Definition dataEffect (system searchTerm : option string)
  (prefilledResults : option (Data Item.t)) : Prog State unit :=
  if negb (Js.truthy_str system) || negb (Js.truthy_str searchTerm)
  then navigate "/search"
  else if match prefilledResults with Some d => truthy d | None => false end
  then on_core (setIsLoading false)
  else
    spawn (on_core (get_ rt API_BASE server (default "" system)
                      (default "" searchTerm))).

End WithEnvironment.
End ResultsEffect.

(* ===================================================================== *)
(** * Requests in flight: un-awaited callbacks, cut at their await *)
(* ===================================================================== *)

(** [Async.spawn] runs an un-awaited call through to its end, so a state
    computed with it is the state once every request of that call has
    settled.  The modules below cut such a call at its [await]: what it
    does before (the request goes out), and what it does after, when and if
    the request settles.  The caller goes on in between, and a request that
    never settles never resumes its callback. *)
Module InFlight.
Import Api Async.

(** [fetch(url)] up to its [await]: the request goes out. *)
Definition send {S} (url : string) : Prog S unit :=
  fun c => (Return tt, (sent (fst c) url, snd c)).

(** [await fetch(url)] from the [await] on, once the request has settled
    with [reply]. *)
Definition arrive {S A} (reply : Reply A) : Prog S (Response A) :=
  match reply with
  | NetworkFailure => throw (TypeError "Failed to fetch")
  | HttpReply st b => ret (mkResponse ((200 <=? st) && (st <=? 299)) st b)
  end.

(** [items.forEach(f)] for callbacks cut at their [await], keeping what
    each of them is left awaiting. *)
Fixpoint for_each_start {S A B} (items : list A) (f : A -> Prog S B)
  : Prog S (list (A * B)) :=
  match items with
  | [] => ret []
  | x :: rest =>
      bind (f x) (fun b =>
        bind (for_each_start rest f) (fun bs => ret ((x, b) :: bs)))
  end.

End InFlight.

Module SearchInFlight.
Import Api Async SearchPage InFlight.

(** [fetchData] from its [await fetch(url)] on. *)
Definition fetchData_resume (reply : Reply Item.t) : Prog State (Data Item.t) :=
  try_catch
    (response <- arrive reply ;;
     if negb (ok response)
     then throw (Error ("HTTP error! status: " +:+ pretty (status response)))
     else
       data <- json response ;;
       ret data)%prog
    (fun error =>
       console_error "Error fetching data:" ;;;
       ret DNull)%prog.

(** A callback of phase 3 up to its [await]: its flag goes on and its
    request goes out. *)
Definition callback_start (system : string * string) : Prog State unit :=
  (setLoadingProgress (fun prev => <[fst system := true]> prev) ;;;
   send (snd system))%prog.

(** The same callback from its [await] on. *)
Definition callback_resume (key : string) (reply : Reply Item.t) : Prog State unit :=
  (systemData <- fetchData_resume reply ;;
   setResults (fun prev => spread_set prev key (Slot (or_empty systemData))) ;;;
   setLoadingProgress (fun prev => <[key := false]> prev))%prog.

(** The requests in flight settling, one after the other: each arrival
    names a system and what its request settled with. *)
Definition settle (arrivals : list (string * Reply Item.t)) : Prog State unit :=
  for_each arrivals (fun arrival =>
    spawn (callback_resume (fst arrival) (snd arrival))).

Section WithEnvironment.
Variable rt : Js.Runtime.
Variable API_BASE_URL : string.
Variable server : Server Item.t.

(** [performSearch] up to the point where it returns: phases 1 and 2 are
    awaited; the callbacks of phase 3 are started and left in flight. *)
Definition performSearch_until_return (term system : string) (confidence : Q)
  : Prog State unit :=
  if String.eqb term "" || String.eqb (Js.trim rt term) ""
  then ret tt
  else
    (setIsSearching true ;;;
     setResults (fun _ => Some blank_results) ;;;
     try_finally
       (try_catch
          (s <- get ;;
           (* Phase 1: combined *)
           setLoadingProgress (fun prev => <["combined" := true]> prev) ;;;
           let combinedUrl := buildSearchUrl rt API_BASE_URL (searchStrategy s) term
                                "combined" in
           combinedData <- fetchData server combinedUrl ;;
           let mappingResults := toMappingResults combinedData in
           setResults (fun prev =>
             Some (<["mappingResults" := Mappings mappingResults]>
                    (<["combined" := Slot (or_empty combinedData)]>
                       (default ∅ prev)))) ;;;
           setLoadingProgress (fun prev => <["combined" := false]> prev) ;;;
           setHasSearched true ;;;
           (* Phase 2: ICD-11 *)
           setLoadingProgress (fun prev => <["icd11" := true]> prev) ;;;
           let icd11Url := buildSearchUrl rt API_BASE_URL (searchStrategy s) term
                             "icd11" in
           icd11Data <- fetchData server icd11Url ;;
           setResults (fun prev => spread_set prev "icd11" (Slot (or_empty icd11Data))) ;;;
           setLoadingProgress (fun prev => <["icd11" := false]> prev) ;;;
           (* Phase 3: the traditional systems *)
           for_each (traditionalSystems rt API_BASE_URL term) callback_start)%prog
          (fun error =>
             console_error "Search error:" ;;;
             setResults (fun _ => Some blank_results))%prog)
       (setIsSearching false))%prog.

End WithEnvironment.
End SearchInFlight.

Module DetailsInFlight.
Import Api Async InFlight.

(** What a call of [fetchPaginatedData] is left awaiting: nothing to ask
    for, a body found in the cache, or the answer to a request. *)
Inductive Awaited :=
| NoUrl
| Cached (data : Data Item.t)
| Requested (url : string).

(** The object [fetchPaginatedData] makes of a body. *)
Definition toPaged (data : Data Item.t) : Paged.t :=
  if truthy data
  then Paged.mk (default [] (get_results data)) (default 0 (get_count data))
         (get_next data) (get_previous data)
  else Paged.empty.

Section WithEnvironment.
Variable rt : Js.Runtime.
Variable API_BASE_URL : string.
Variable server : Server Item.t.
Variable random_id : string -> string.

(** [fetchPaginatedData] up to the first [await] that has to wait: the
    URL is built and the cache consulted; on a miss the request goes out. *)
Definition fetchPaginatedData_start (baseUrl searchTerm : string)
  (system : option string) (page pageSize : Z)
  : Prog MappingDetailsPage.State Awaited :=
  match MappingDetailsPage.pagedUrl rt baseUrl searchTerm system page pageSize with
  | None => ret NoUrl
  | Some url =>
      (s <- get ;;
       match MappingDetailsPage.apiCache s !! url with
       | Some cached => ret (Cached cached)
       | None =>
           send url ;;;
           ret (Requested url)
       end)%prog
  end.

(** [fetchData] from its [await fetch(url)] on. *)
Definition fetchData_resume (url : string) (reply : Reply Item.t)
  : Prog MappingDetailsPage.State (Data Item.t) :=
  try_catch
    (response <- arrive reply ;;
     if negb (ok response)
     then throw (Error ("HTTP error! status: " +:+ pretty (status response)))
     else
       data <- json response ;;
       MappingDetailsPage.setCache (fun c => <[url := data]> c) ;;;
       ret data)%prog
    (fun error =>
       console_error "Error fetching data:" ;;;
       ret DNull)%prog.

(** [fetchPaginatedData] from there on; [reply] is what the request
    settled with, when one was sent. *)
Definition fetchPaginatedData_resume (system : option string) (awaited : Awaited)
  (reply : Reply Item.t) : Prog MappingDetailsPage.State Paged.t :=
  match awaited with
  | NoUrl => ret Paged.empty
  | Cached data => ret (toPaged data)
  | Requested url =>
      try_catch
        (data <- fetchData_resume url reply ;;
         ret (toPaged data))%prog
        (fun error =>
           console_error ("Error fetching " +:+ default "null" system +:+ " data:") ;;;
           ret Paged.empty)%prog
  end.

(** A callback of the effect's [forEach] up to its [await]. *)
Definition callback_start (term system : string) : Prog DetailsPage.State Awaited :=
  (DetailsPage.setLoadingProgress (fun prev => <[system := true]> prev) ;;;
   DetailsPage.on_core
     (fetchPaginatedData_start API_BASE_URL term (Some system) 1 10))%prog.

(** The same callback from its [await] on. *)
Definition callback_resume (activeItem : option Carried.t) (system : string)
  (awaited : Awaited) (reply : Reply Item.t) : Prog DetailsPage.State unit :=
  (systemData <- DetailsPage.on_core
     (fetchPaginatedData_resume (Some system) awaited reply) ;;
   DetailsPage.setAllData (fun prev =>
     <[system := DetailsPage.loaded_source (random_id system) activeItem system
                   systemData]> prev) ;;;
   DetailsPage.setLoadingProgress (fun prev => <[system := false]> prev))%prog.

(** What the callback of a system was left awaiting. *)
Definition awaited_of (inFlight : list (string * Awaited)) (system : string)
  : option Awaited :=
  snd <$> List.find (fun entry => String.eqb (fst entry) system) inFlight.

(** The callbacks in flight resuming, one after the other: each arrival
    names a system and what its request settled with. *)
Definition settle (activeItem : option Carried.t)
  (inFlight : list (string * Awaited)) (arrivals : list (string * Reply Item.t))
  : Prog DetailsPage.State unit :=
  for_each arrivals (fun arrival =>
    match awaited_of inFlight (fst arrival) with
    | Some awaited =>
        spawn (callback_resume activeItem (fst arrival) awaited (snd arrival))
    | None => ret tt
    end).

(** The progressive-loading effect up to the point where its function
    returns: the combined page is awaited; the four callbacks are started
    and left in flight.  It hands back the active item and what each
    callback awaits. *)
Definition loadDataProgressively_until_return (searchTerm : option string)
  (mapping item : option Carried.t) (systemType : option string)
  : Prog DetailsPage.State (option Carried.t * list (string * Awaited)) :=
  match searchTerm with
  | None => ret (None, [])
  | Some term =>
      if String.eqb term "" then ret (None, [])
      else
        (s <- get ;;
         DetailsPage.on_core (MappingDetailsPage.setIsLoading true) ;;;
         DetailsPage.setLoadingProgress (fun prev => <["combined" := true]> prev) ;;;
         combinedData <- DetailsPage.on_core
           (MappingDetailsPage.fetchPaginatedData rt server API_BASE_URL term
              (Some "combined") 1 10) ;;
         DetailsPage.setAllData (fun prev =>
           <["combined" := DetailsPage.source_of combinedData 1]> prev) ;;;
         DetailsPage.setLoadingProgress (fun prev => <["combined" := false]> prev) ;;;
         let chosen :=
           DetailsPage.chooseActive mapping item systemType term combinedData
             (DetailsPage.selectedResult s) in
         match snd chosen with
         | Some selection => DetailsPage.setSelectedResult selection
         | None => ret tt
         end ;;;
         let activeItem := fst chosen in
         inFlight <- for_each_start ["ayurveda"; "unani"; "siddha"; "icd11"]
                       (callback_start term) ;;
         DetailsPage.on_core (MappingDetailsPage.setIsLoading false) ;;;
         ret (activeItem, inFlight))%prog
  end.

End WithEnvironment.
End DetailsInFlight.

(* ===================================================================== *)
(** * SearchPage.js: clicks on the strategy buttons and the effect they trigger *)
(* ===================================================================== *)

Module SearchEvents.
Import Api Async SearchPage.

(** What happens to the search page between two renders: a click on one
    of the two strategy buttons, or a run of the effect on
    [selectedSystem], [minConfidence] and [searchStrategy]. *)
Inductive Event :=
| Click (strategy : string)
| FiltersEffect.

Definition handle (rt : Js.Runtime) (API_BASE_URL : string) (server : Server Item.t)
  (event : Event) : Prog State unit :=
  match event with
  | Click strategy => SearchView.toggleSearchStrategy strategy
  | FiltersEffect => SearchView.searchEffect rt API_BASE_URL server
  end.

End SearchEvents.

(* ===================================================================== *)
(** * The five-button window in closed form *)
(* ===================================================================== *)

Module Window.

(** First page of a window of five buttons around [cur], shifted so that
    it stays within [1 .. total]. *)
Definition start (cur total : Z) : Z :=
  if total <=? 5 then 1
  else if cur <=? 3 then 1
  else if total - 2 <=? cur then total - 4
  else cur - 2.

End Window.

(* ===================================================================== *)
(** * Sample data for running the definitions *)
(* ===================================================================== *)

Module Examples.
Import Api Async.

(** A term of one system, with an [english_name]. *)
Definition term (id : Z) (name : string) : Item.t :=
  Item.mk (Some id) (Some ("T" +:+ pretty id)) None (Some name)
    None None None None None None None None.

(** An ICD-11 entry, with a [title] and no [english_name]. *)
Definition icd (id : Z) (name : string) : Item.t :=
  Item.mk (Some id) (Some ("I" +:+ pretty id)) (Some name) None
    None None None None None None None None.

(** Twenty-five terms, numbered from 1. *)
Definition terms25 : list Item.t := (fun i => term i "term") <$> seqZ 1 25.

(** Two hundred results, as one response of the combined endpoint. *)
Definition entries200 : list Item.t := (fun i => icd i "entry") <$> seqZ 1 200.

Definition results200 : Data Item.t :=
  DObject (mkResultSet (Some entries200) (Some 200) None None).

(** Three results for the term "Fever": the exact match comes last, after
    an unrelated term and a partial match. *)
Definition fever_results : Paged.t :=
  Paged.mk [term 1 "Jvara"; term 2 "Fever of unknown origin"; icd 3 "Fever"]
    3 None None.

(** A server that cannot be reached. *)
Definition offline {A} : Server A := fun _ _ => NetworkFailure.

(** A server with one fixed answer. *)
Definition always {A} (body : Data A) : Server A :=
  fun _ _ => HttpReply 200 (Some body).

(** A combined-search result mapped to Ayurveda and Unani, not to Siddha. *)
Definition fever_entry : Item.t :=
  Item.mk (Some 7) (Some "MG26") (Some "Fever") None
    (Some "Elevated body temperature") (Some "category") None
    (Some (Related.mk (Some 11) (Some "AY-1") (Some "Jvara") (Some "jvara-local")))
    None
    (Some (Related.mk (Some 31) (Some "UN-3") (Some "Humma") None))
    (Some (MappingInfo.mk (Some (9 # 10)))) (Some (1 # 2)).

Definition combined_response : Data Item.t :=
  DObject (mkResultSet (Some [fever_entry; icd 8 "Cough"]) (Some 2) None None).

(** A suggestion left on screen by an earlier keystroke. *)
Definition stale_suggestion : Suggestion.t :=
  Suggestion.mk (Some "Fever") "combined" (8 # 10) (Some 7) "icd11" None.

Definition search_page_with_suggestions : SearchPage.State :=
  SearchPage.mkState "feve" "all" (1 # 10) None false false
    [stale_suggestion] true [stale_suggestion]
    (SearchPage.mkStrategy true false) ∅.

Definition system_page_with_suggestions : SystemPage.State :=
  SystemPage.mkState "feve" [] false 1 1 false None true
    ["fever"; "feverfew"] true 2 false 1 ["fever"; "feverfew"] 0%nat.

(** The admin, signed in, while a CSV upload is running. *)
Definition root_user : SystemPage.User :=
  SystemPage.mkUser (Some "root") (Some "root@gmail.com").

Definition root_uploading : SystemPage.State :=
  SystemPage.mkState "" [] false 1 1 true (Some root_user) true
    [] false 0 false 1 [] 0%nat.

Definition root_idle : SystemPage.State :=
  SystemPage.mkState "" [] false 1 1 false (Some root_user) true
    [] false 0 false 1 [] 0%nat.

(** A page of [n] terms of server page [p]. *)
Definition page_of (p n : Z) : list Item.t :=
  (fun i => term (1000 * p + i) "term") <$> seqZ 0 n.

(** A server that ignores [page_size]: every page carries 51 terms and
    announces a further page. *)
Definition oversized : Server Item.t :=
  fun history _ =>
    HttpReply 200
      (Some (DObject (mkResultSet
                        (Some (page_of (Z.of_nat (length history)) 51))
                        (Some 1000) (Some "more") None))).

(** A server with endless full pages of fifty terms. *)
Definition endless : Server Item.t :=
  fun history _ =>
    HttpReply 200
      (Some (DObject (mkResultSet
                        (Some (page_of (Z.of_nat (length history)) 50))
                        (Some 1000) (Some "more") None))).

End Examples.

(** Sample states of the detail page. *)
Module DetailExamples.
Import Api Async.

(** The Ayurveda tab after its first page: one row of twelve, more to come. *)
Definition ayurveda_tab : Source.t :=
  Source.mk [Source.FromSearch (Examples.term 1 "Jvara")] 12
    (Some "http://api/terminologies/ayurveda/search/?q=fever&page=2") None 1.

Definition page_with_tab : DetailsPage.State :=
  DetailsPage.mkState MappingDetailsPage.initial
    (<["ayurveda" := ayurveda_tab]> (DetailsPage.allData DetailsPage.initial))
    false None (DetailsPage.loadingProgress DetailsPage.initial).

(** The combined result for "Fever", selected. *)
Definition selected_fever : Selected.t :=
  Selected.mk (Carried.of_item Examples.fever_entry) "Combined" "combined"
    (Some "Fever").

Definition page_with_selection : DetailsPage.State :=
  DetailsPage.mkState MappingDetailsPage.initial
    (DetailsPage.allData DetailsPage.initial) false (Some selected_fever)
    (DetailsPage.loadingProgress DetailsPage.initial).

Definition no_random : string -> string := fun _ => "0.5".

End DetailExamples.

(** Sample states of the per-system page. *)
Module SystemExamples.
Import Api Async.

(** Twenty-five suggestions, held by a page that shows the first ten. *)
Definition names25 : list string :=
  (fun i => "term " +:+ pretty i) <$> seqZ 0 25.

Definition paged_suggestions : SystemPage.State :=
  SystemPage.mkState "te" [] false 1 1 false None true (take 10 names25) true 25
    false 3 names25 0%nat.

(** A visitor who is logged in without being the administrator. *)
Definition guest : SystemPage.User :=
  SystemPage.mkUser (Some "guest") (Some "guest@example.org").

Definition guest_page : CsvUpload.State :=
  CsvUpload.mkState
    (SystemPage.mkState "" [] false 1 1 false (Some guest) true [] false 0 false 1
       [] 0%nat)
    None "terms.csv".

Definition root_page : CsvUpload.State :=
  CsvUpload.mkState Examples.root_idle None "terms.csv".

(** An upload endpoint that cannot be reached, and one that accepts. *)
Definition upload_down : CsvUpload.UploadServer := fun _ _ => CsvUpload.NetworkDown.

Definition upload_ok : CsvUpload.UploadServer :=
  fun _ _ =>
    CsvUpload.Json
      (Some (CsvUpload.mkJson None None (Some 12) (Some 3) None)).

End SystemExamples.

(** A search page on which "fever" has been searched. *)
Module SearchExamples.

Definition searched_page : SearchPage.State :=
  SearchPage.mkState "fever" "all" (1 # 10) None false true [] false []
    (SearchPage.mkStrategy true false) (SearchPage.loadingProgress SearchPage.initial).

End SearchExamples.

(* ===================================================================== *)
(** * Properties *)
(* ===================================================================== *)

Import Api Async.

(** ** Arithmetic of the built-ins *)

Section JsFacts.

(** [ceil_div a b] is the least integer [q] with [a <= q * b]. *)
Lemma ceil_div_bounds (a b : Z) :
  0 < b -> (Js.ceil_div a b - 1) * b < a <= Js.ceil_div a b * b.
Proof.
  intros Hb. unfold Js.ceil_div.
  pose proof (Z.div_mod (- a) b ltac:(lia)) as Hdm.
  pose proof (Z.mod_pos_bound (- a) b Hb) as Hmod.
  nia.
Qed.

Lemma ceil_div_unique (a b q : Z) :
  0 < b -> (q - 1) * b < a <= q * b -> Js.ceil_div a b = q.
Proof.
  intros Hb Hq. pose proof (ceil_div_bounds a b Hb) as Hc. nia.
Qed.

Lemma ceil_div_0 (b : Z) : Js.ceil_div 0 b = 0.
Proof. unfold Js.ceil_div. destruct b; reflexivity. Qed.

Lemma ceil_div_nonneg (a b : Z) : 0 <= a -> 0 < b -> 0 <= Js.ceil_div a b.
Proof.
  intros Ha Hb. pose proof (ceil_div_bounds a b Hb). nia.
Qed.

(** Length of a slice taken between two non-negative indices. *)
Lemma slice_length {A} (l : list A) (start end_ : Z) :
  0 <= start -> 0 <= end_ ->
  Z.of_nat (length (Js.slice l start end_)) =
  Z.max 0 (Z.min end_ (Z.of_nat (length l)) - Z.min start (Z.of_nat (length l))).
Proof.
  intros Hs He. unfold Js.slice.
  destruct (Z.ltb_spec start 0); [lia|].
  destruct (Z.ltb_spec end_ 0); [lia|].
  rewrite length_take, length_drop. lia.
Qed.

(** A slice between non-negative indices is that segment of the list. *)
Lemma slice_lookup {A} (l : list A) (start end_ : Z) (i : nat) :
  0 <= start -> 0 <= end_ ->
  Z.of_nat i < Z.min end_ (Z.of_nat (length l)) - start ->
  Js.slice l start end_ !! i = l !! (Z.to_nat start + i)%nat.
Proof.
  intros Hs He Hi. unfold Js.slice.
  destruct (Z.ltb_spec start 0); [lia|].
  destruct (Z.ltb_spec end_ 0); [lia|].
  rewrite lookup_take_lt by lia.
  rewrite lookup_drop. f_equal. lia.
Qed.

Lemma push_range_length (lo hi : Z) :
  Z.of_nat (length (Js.push_range lo hi)) = Z.max 0 (hi - lo + 1).
Proof. unfold Js.push_range. rewrite length_seqZ. lia. Qed.

Lemma array_from_succ (n : Z) :
  Js.array_from n (fun i => i + 1) = seqZ 1 n.
Proof.
  unfold Js.array_from.
  transitivity (Z.add 1 <$> seqZ 0 n).
  - apply list_fmap_ext. intros; lia.
  - apply (fmap_add_seqZ 1 0 n).
Qed.

(** A slice of a run of consecutive integers is again such a run. *)
Lemma slice_seqZ (m n a b : Z) :
  0 <= a -> 0 <= b -> 0 <= n ->
  Js.slice (seqZ m n) a b = seqZ (m + Z.min a n) (Z.min b n - Z.min a n).
Proof.
  intros Ha Hb Hn.
  apply list_eq. intros i.
  destruct (Z.lt_ge_cases (Z.of_nat i) (Z.min b n - Z.min a n)) as [Hi|Hi].
  - rewrite slice_lookup by (rewrite ?length_seqZ; lia).
    rewrite !lookup_seqZ_lt by lia. f_equal. lia.
  - rewrite lookup_seqZ_ge by lia.
    apply lookup_ge_None.
    pose proof (slice_length (seqZ m n) a b Ha Hb) as Hl.
    rewrite length_seqZ in Hl. lia.
Qed.

End JsFacts.

(** ** Pagination helper *)

Section Pagination.

(** Page [k] of a list cut into pages of [P] items. *)
Lemma page_slice_length {A} (l : list A) (P k : Z) :
  0 < P ->
  1 <= k <= Js.ceil_div (Z.of_nat (length l)) P ->
  Z.of_nat (length (Js.slice l ((k - 1) * P) ((k - 1) * P + P))) =
  Z.min P (Z.of_nat (length l) - (k - 1) * P).
Proof.
  intros HP Hk.
  pose proof (ceil_div_bounds (Z.of_nat (length l)) P HP) as Hc.
  rewrite slice_length by nia. nia.
Qed.

Lemma mapping_details_total_pages (P : Z) (d : Paged.t) :
  MappingDetailsPage.getTotalPages P (Some d) =
  Js.ceil_div (Z.of_nat (length (Paged.results d))) P.
Proof.
  unfold MappingDetailsPage.getTotalPages.
  destruct (Nat.eqb_spec (length (Paged.results d)) 0) as [E|]; [|reflexivity].
  rewrite E. simpl. now rewrite ceil_div_0.
Qed.

Lemma system_results_total_pages (P : Z) (d : Data Item.t) :
  SystemResultsPage.totalPages P d =
  Js.ceil_div (Z.of_nat (length (SystemResultsPage.results_of d))) P.
Proof.
  unfold SystemResultsPage.totalPages.
  destruct (Nat.eqb_spec (length (SystemResultsPage.results_of d)) 0) as [E|];
    [|reflexivity].
  rewrite E. simpl. now rewrite ceil_div_0.
Qed.

End Pagination.

(** C1. For a result array of length [N] and a page size [P > 0], each of
    the three pagination helpers (detail page, system-results page,
    per-system page) reports [ceil(N / P)] pages, the least [q] with
    [N <= q * P], and for every page number [k] with [1 <= k <= ceil(N / P)]
    the slice shown for page [k] has exactly [min(P, N - (k - 1) * P)]
    items. *)
Theorem C1_pagination_pages_and_page_size :
  forall (results : list Item.t) (P : Z)
         (count : Z) (count' : option Z) (next previous : option string),
    0 < P ->
    let N := Z.of_nat (length results) in
    let pages := Js.ceil_div N P in
    let paged := Some (Paged.mk results count next previous) in
    let data := DObject (mkResultSet (Some results) count' next previous) in
    (pages - 1) * P < N <= pages * P /\
    MappingDetailsPage.getTotalPages P paged = pages /\
    SystemResultsPage.totalPages P data = pages /\
    SystemPage.totalPages P results = pages /\
    forall k : Z,
      1 <= k <= pages ->
      Z.of_nat (length (MappingDetailsPage.getCurrentPageData k P paged)) =
        Z.min P (N - (k - 1) * P) /\
      Z.of_nat (length (SystemResultsPage.pageData k P data)) =
        Z.min P (N - (k - 1) * P) /\
      Z.of_nat (length (SystemPage.currentResults k P results)) =
        Z.min P (N - (k - 1) * P).
Proof.
  intros results P count count' next previous HP N pages paged data.
  split; [apply ceil_div_bounds; exact HP|].
  split; [apply mapping_details_total_pages|].
  split; [apply system_results_total_pages|].
  split; [reflexivity|].
  intros k Hk.
  assert (Hne : length results <> 0%nat).
  { intros E. subst pages N. rewrite E in Hk. simpl in Hk.
    rewrite ceil_div_0 in Hk. lia. }
  apply Nat.eqb_neq in Hne.
  unfold MappingDetailsPage.getCurrentPageData, SystemResultsPage.pageData,
    SystemPage.currentResults.
  subst paged data. unfold SystemResultsPage.results_of. simpl. rewrite Hne.
  repeat split.
  - apply page_slice_length; assumption.
  - apply page_slice_length; assumption.
  - replace (k * P) with ((k - 1) * P + P) by lia.
    apply page_slice_length; assumption.
Qed.

(** Twenty-five results in pages of ten: three pages, the third of five. *)
Lemma C1_pagination_witness :
  MappingDetailsPage.getTotalPages MappingDetailsPage.itemsPerPage
    (Some (Paged.mk Examples.terms25 25 None None)) = 3 /\
  Z.of_nat (length (MappingDetailsPage.getCurrentPageData 3
    MappingDetailsPage.itemsPerPage
    (Some (Paged.mk Examples.terms25 25 None None)))) = 5 /\
  Z.of_nat (length (SystemPage.currentResults 3 SystemPage.resultsPerPage
    Examples.terms25)) = 5.
Proof.
  destruct (C1_pagination_pages_and_page_size Examples.terms25 10 25 (Some 25)
              None None ltac:(lia)) as (_ & Htotal & _ & _ & Hpage).
  destruct (Hpage 3 ltac:(vm_compute; split; discriminate)) as (H1 & _ & H3).
  split; [exact Htotal|]. split; [exact H1 | exact H3].
Defined.

(** ** Page-number window *)

Section PageWindow.

Lemma mapping_details_window (cur total : Z) :
  1 <= cur <= total ->
  MappingDetailsPage.pageNumbers cur total =
  seqZ (Window.start cur total) (Z.min 5 total).
Proof.
  intros Hc.
  unfold MappingDetailsPage.pageNumbers, Js.push_range, Js.floor_div,
    MappingDetailsPage.maxVisiblePages, Window.start.
  change (5 / 2) with 2.
  repeat match goal with
         | |- context [?a <=? ?b] => destruct (Z.leb_spec a b)
         | |- context [?a <? ?b] => destruct (Z.ltb_spec a b)
         end; f_equal; lia.
Qed.

Lemma system_page_window (cur total : Z) :
  SystemPage.pageNumbers cur total =
  seqZ (Window.start cur total) (Z.min 5 total).
Proof.
  unfold SystemPage.pageNumbers, Js.array_from.
  transitivity (Z.add (Window.start cur total) <$> seqZ 0 (Z.min 5 total)).
  2: { rewrite fmap_add_seqZ. f_equal. lia. }
  unfold Window.start.
  apply list_fmap_ext. intros _ i _.
  repeat match goal with
         | |- context [?a <=? ?b] => destruct (Z.leb_spec a b)
         end; lia.
Qed.

Lemma system_results_window (cur total : Z) :
  1 <= cur <= total ->
  SystemResultsPage.pageNumbers cur total =
  seqZ (Z.max 1 (cur - 2)) (Z.min total (cur + 2) - Z.max 1 (cur - 2) + 1).
Proof.
  intros Hc. unfold SystemResultsPage.pageNumbers.
  rewrite array_from_succ, slice_seqZ by lia.
  f_equal; lia.
Qed.

Lemma window_start_bounds (cur total : Z) :
  1 <= cur <= total ->
  Window.start cur total = Z.max 1 (Z.min (cur - 2) (total - 4)) /\
  1 <= Window.start cur total <= cur /\
  cur < Window.start cur total + Z.min 5 total <= total + 1.
Proof.
  intros Hc. unfold Window.start.
  repeat match goal with
         | |- context [?a <=? ?b] => destruct (Z.leb_spec a b)
         end; lia.
Qed.

End PageWindow.

(** C5, as stated, fails on the system-results page: with ten pages and
    the first page current it renders three numbered buttons, not five. *)
Lemma C5_counterexample_system_results_window :
  SystemResultsPage.totalPages SystemResultsPage.itemsPerPage Examples.results200 = 10 /\
  SystemResultsPage.renderPagination 1 SystemResultsPage.itemsPerPage
    Examples.results200 = Some [1; 2; 3] /\
  Z.of_nat (length (SystemResultsPage.pageNumbers 1 10)) <> Z.min 5 10.
Proof. vm_compute. repeat split; discriminate. Qed.

(** C5, amended. For a result list with more than one page and a current
    page [cur] in [1 .. total], every component renders a run of
    consecutive page numbers that lies within [1 .. total] and contains
    [cur].  On the detail page and on the per-system page the run has
    exactly [min(5, total)] buttons and starts at [cur - 2], moved down to
    [total - 4] near the last page and up to [1] near the first.  On the
    system-results page the run is [max(1, cur - 2) .. min(total, cur + 2)]:
    at most five buttons, cut off at the ends of the range rather than
    shifted. *)
Theorem C5_page_window :
  forall (results : list Item.t) (P cur : Z)
         (count : Z) (count' : option Z) (next previous : option string),
    0 < P ->
    let total := Js.ceil_div (Z.of_nat (length results)) P in
    1 < total ->
    1 <= cur <= total ->
    let paged := Some (Paged.mk results count next previous) in
    let data := DObject (mkResultSet (Some results) count' next previous) in
    (exists start : Z,
        MappingDetailsPage.renderPagination cur P paged =
          Some (seqZ start (Z.min 5 total)) /\
        SystemPage.renderPagination cur P results =
          Some (seqZ start (Z.min 5 total)) /\
        start = Z.max 1 (Z.min (cur - 2) (total - 4)) /\
        1 <= start <= cur /\
        cur < start + Z.min 5 total <= total + 1) /\
    (exists start len : Z,
        SystemResultsPage.renderPagination cur P data = Some (seqZ start len) /\
        start = Z.max 1 (cur - 2) /\
        start + len - 1 = Z.min total (cur + 2) /\
        1 <= start <= cur /\
        cur < start + len <= total + 1 /\
        len <= 5).
Proof.
  intros results P cur count count' next previous HP total Ht Hc paged data.
  split.
  - exists (Window.start cur total).
    split; [|split; [|apply window_start_bounds; exact Hc]].
    + unfold MappingDetailsPage.renderPagination. subst paged.
      rewrite mapping_details_total_pages. cbn [Paged.results]. fold total.
      destruct (Z.leb_spec total 1); [lia|].
      f_equal. apply mapping_details_window. exact Hc.
    + unfold SystemPage.renderPagination, SystemPage.totalPages. fold total.
      pose proof (page_slice_length results P cur HP Hc) as Hlen.
      unfold SystemPage.currentResults.
      replace (cur * P) with ((cur - 1) * P + P) by lia.
      pose proof (ceil_div_bounds (Z.of_nat (length results)) P HP) as Hb.
      fold total in Hb.
      destruct (Nat.ltb_spec 0 (length (Js.slice results ((cur - 1) * P)
                                          ((cur - 1) * P + P)))); [|nia].
      destruct (Z.ltb_spec 1 total); [|lia].
      cbn [andb]. f_equal. apply system_page_window.
  - exists (Z.max 1 (cur - 2)), (Z.min total (cur + 2) - Z.max 1 (cur - 2) + 1).
    split; [|lia].
    unfold SystemResultsPage.renderPagination. subst data.
    rewrite system_results_total_pages.
    unfold SystemResultsPage.results_of, get_results, Api.results, default,
      from_option, id.
    fold total.
    destruct (Z.ltb_spec 1 total); [|lia].
    f_equal. apply system_results_window. exact Hc.
Qed.

(** Two hundred results in pages of twenty, page 9 of 10 current. *)
Lemma C5_page_window_witness :
  (exists start : Z,
      MappingDetailsPage.renderPagination 9 20
        (Some (Paged.mk Examples.entries200 200 None None)) =
        Some (seqZ start 5) /\
      SystemPage.renderPagination 9 20 Examples.entries200 = Some (seqZ start 5) /\
      start = 6) /\
  (exists start len : Z,
      SystemResultsPage.renderPagination 9 20 Examples.results200 =
        Some (seqZ start len) /\
      start = 7 /\ len = 4).
Proof.
  destruct (C5_page_window Examples.entries200 20 9 200 (Some 200) None None
              ltac:(lia) ltac:(vm_compute; reflexivity)
              ltac:(vm_compute; split; discriminate))
    as ((start & Hmd & Hsp & Hstart0 & _) & (start' & len & Hsr & Hstart & Hend & _)).
  change (Js.ceil_div (Z.of_nat (length Examples.entries200)) 20) with 10 in *.
  split.
  - exists start. split; [exact Hmd|]. split; [exact Hsp|]. lia.
  - exists start', len. split; [exact Hsr|]. lia.
Defined.

Example page_window_near_end :
  MappingDetailsPage.pageNumbers 9 10 = [6; 7; 8; 9; 10] /\
  SystemPage.pageNumbers 9 10 = [6; 7; 8; 9; 10] /\
  SystemResultsPage.pageNumbers 9 10 = [7; 8; 9; 10].
Proof. repeat split; reflexivity. Qed.

(** ** Best-match selection *)

Section BestMatch.

(** [Array.prototype.find] returns the first element that satisfies the
    predicate. *)
Lemma find_first {A} (f : A -> bool) (l : list A) (m : A) :
  List.find f l = Some m ->
  exists i : nat,
    l !! i = Some m /\ f m = true /\
    forall (j : nat) (r : A), (j < i)%nat -> l !! j = Some r -> f r = false.
Proof.
  induction l as [|x l IH]; simpl; [discriminate|].
  destruct (f x) eqn:Hx.
  - intros [= <-]. exists 0%nat. repeat split; [assumption|]. intros; lia.
  - intros Hfind. destruct (IH Hfind) as (i & Hi & Hm & Hbefore).
    exists (S i). repeat split; [assumption..|].
    intros [|j] r Hj; simpl.
    + intros [= <-]. assumption.
    + apply Hbefore. lia.
Qed.

Lemma find_is_some {A} (f : A -> bool) (l : list A) (x : A) :
  x ∈ l -> f x = true -> exists m, List.find f l = Some m.
Proof.
  intros Hin Hx. destruct (List.find f l) as [m|] eqn:Hfind; [eauto|].
  apply list_elem_of_In in Hin.
  pose proof (List.find_none f l Hfind x Hin). congruence.
Qed.

End BestMatch.

(** The name [findBestMatch] compares is the result's [english_name], its
    [title] when that is absent or empty, and the empty string when both
    are. *)
Lemma resultName_fields (rt : Js.Runtime) (r : Item.t) :
  MappingDetailsPage.resultName rt r =
  Js.toLowerCase rt
    (match Item.english_name r, Item.title r with
     | Some n, Some t => if String.eqb n "" then t else n
     | Some n, None => n
     | None, Some t => t
     | None, None => ""
     end).
Proof.
  unfold MappingDetailsPage.resultName, Js.or_str, Js.truthy_str.
  destruct (Item.english_name r) as [n|], (Item.title r) as [t|]; cbn.
  - destruct (String.eqb n "") eqn:Hn; cbn.
    + destruct (String.eqb t "") eqn:Ht; cbn; [|reflexivity].
      apply String.eqb_eq in Ht. subst t. reflexivity.
    + rewrite Hn. reflexivity.
  - destruct (String.eqb n "") eqn:Hn; cbn; [|rewrite Hn; reflexivity].
    apply String.eqb_eq in Hn. subst n. reflexivity.
  - destruct (String.eqb t "") eqn:Ht; cbn; [|reflexivity].
    apply String.eqb_eq in Ht. subst t. reflexivity.
  - reflexivity.
Qed.

(** C2. For a non-empty result list and a term name, whenever some result
    goes by the term name (its [english_name], or its [title] when
    [english_name] is absent or empty, compared with the term after
    lower-casing both sides), the best-match selection returns such a
    result: the first one in the list, whatever its position and whatever
    partial matches precede it. *)
Theorem C2_best_match_prefers_exact_name :
  forall (rt : Js.Runtime) (data : Paged.t) (termName : string),
    let name (r : Item.t) : string :=
      match Item.english_name r, Item.title r with
      | Some n, Some t => if String.eqb n "" then t else n
      | Some n, None => n
      | None, Some t => t
      | None, None => ""
      end in
    let exact (r : Item.t) : Prop :=
      Js.toLowerCase rt (name r) = Js.toLowerCase rt termName in
    Paged.results data <> [] ->
    (exists r : Item.t, r ∈ Paged.results data /\ exact r) ->
    exists (m : Item.t) (i : nat),
      MappingDetailsPage.findBestMatch rt (Some data) termName = Some m /\
      Paged.results data !! i = Some m /\
      exact m /\
      forall (j : nat) (r : Item.t),
        (j < i)%nat -> Paged.results data !! j = Some r -> ~ exact r.
Proof.
  intros rt data termName name exact Hne (r & Hin & Hr).
  assert (Hname : forall x : Item.t,
             MappingDetailsPage.resultName rt x = Js.toLowerCase rt (name x))
    by apply resultName_fields.
  unfold MappingDetailsPage.findBestMatch.
  destruct (Nat.eqb_spec (length (Paged.results data)) 0) as [E|_].
  { destruct (Paged.results data); [congruence | discriminate]. }
  destruct (find_is_some
              (fun result => String.eqb (MappingDetailsPage.resultName rt result)
                               (Js.toLowerCase rt termName))
              (Paged.results data) r Hin) as (m & Hfind).
  { apply String.eqb_eq. rewrite Hname. exact Hr. }
  cbv zeta. rewrite Hfind.
  destruct (find_first _ _ _ Hfind) as (i & Hi & Hm & Hbefore).
  exists m, i. repeat split; [assumption| |].
  - unfold exact. rewrite <- Hname. apply String.eqb_eq. exact Hm.
  - intros j r' Hj Hr' Hexact. unfold exact in Hexact. rewrite <- Hname in Hexact.
    apply String.eqb_eq in Hexact. rewrite (Hbefore j r' Hj Hr') in Hexact.
    discriminate.
Qed.

(** The exact match "Fever" (a [title]; the entry has no [english_name]) is
    found for the term "FEVER" although it is third in the list, behind a
    partial match. *)
Lemma C2_best_match_witness :
  let name (r : Item.t) : string :=
    match Item.english_name r, Item.title r with
    | Some n, Some t => if String.eqb n "" then t else n
    | Some n, None => n
    | None, Some t => t
    | None, None => ""
    end in
  let exact (r : Item.t) : Prop :=
    Js.toLowerCase Js.ascii_runtime (name r) = Js.toLowerCase Js.ascii_runtime "FEVER" in
  exists (m : Item.t) (i : nat),
    MappingDetailsPage.findBestMatch Js.ascii_runtime (Some Examples.fever_results)
      "FEVER" = Some m /\
    Paged.results Examples.fever_results !! i = Some m /\
    exact m /\
    forall (j : nat) (r : Item.t),
      (j < i)%nat -> Paged.results Examples.fever_results !! j = Some r -> ~ exact r.
Proof.
  apply (C2_best_match_prefers_exact_name Js.ascii_runtime Examples.fever_results "FEVER").
  - discriminate.
  - exists (Examples.icd 3 "Fever"). split; [|reflexivity].
    simpl. rewrite !elem_of_cons. auto.
Defined.

Example best_match_fever :
  MappingDetailsPage.findBestMatch Js.ascii_runtime (Some Examples.fever_results) "FEVER"
  = Some (Examples.icd 3 "Fever").
Proof. reflexivity. Qed.

(** Without an exact match the first partial match is taken, and failing
    that the first result. *)
Example best_match_partial :
  MappingDetailsPage.findBestMatch Js.ascii_runtime (Some Examples.fever_results)
    "unknown" = Some (Examples.term 2 "Fever of unknown origin") /\
  MappingDetailsPage.findBestMatch Js.ascii_runtime (Some Examples.fever_results)
    "cough" = Some (Examples.term 1 "Jvara").
Proof. split; reflexivity. Qed.

(** ** Failed requests *)

Lemma reply_data_failed {A} (r : Reply A) :
  failed r = true -> reply_data r = DNull.
Proof.
  unfold failed, reply_data.
  destruct r as [|status [d|]]; try reflexivity.
  destruct ((200 <=? status) && (status <=? 299)); [discriminate | reflexivity].
Qed.

Lemma failed_not_ok {A} (status : Z) (d : Data A) :
  failed (HttpReply status (Some d)) = true ->
  (200 <=? status) && (status <=? 299) = false.
Proof.
  unfold failed. destruct ((200 <=? status) && (status <=? 299)); [discriminate | reflexivity].
Qed.

(** ** The search page: fetch helper and mapping records *)

(** Unfolds the monad and the setters of the search page. *)
Ltac search_page_step :=
  unfold try_finally, try_catch, bind, SearchPage.setIsSearching,
    SearchPage.setResults, SearchPage.setLoadingProgress,
    SearchPage.setHasSearched, SearchPage.setSuggestions,
    SearchPage.setRecommendations, SearchPage.setShowSuggestions,
    console_error, modify, get, SearchPage.traditionalSystems, for_each, spawn,
    bind, ret;
  cbn [fst snd SearchPage.searchStrategy SearchPage.results
       SearchPage.loadingProgress SearchPage.searchTerm
       SearchPage.selectedSystem SearchPage.minConfidence
       SearchPage.isSearching SearchPage.hasSearched SearchPage.suggestions
       SearchPage.recommendations SearchPage.showSuggestions].

Section SearchPageFacts.
Variable rt : Js.Runtime.
Variable API_BASE_URL : string.
Variable server : Server Item.t.

Local Abbreviation fetchData := (SearchPage.fetchData server).
Local Abbreviation performSearch := (SearchPage.performSearch rt API_BASE_URL server).
Local Abbreviation fetchSuggestions := (SearchPage.fetchSuggestions rt API_BASE_URL server).

(** [fetchData] never throws: it sends one request and returns the parsed
    body, or logs the failure and returns [null]. *)
Lemma search_fetchData_run (url : string) (w : World) (s : SearchPage.State) :
  fetchData url (w, s) =
  (Return (reply_data (server (requests w) url)),
   (after_fetch server "Error fetching data:" w url, s)).
Proof.
  unfold SearchPage.fetchData, after_fetch, try_catch, bind, fetch, failed,
    reply_data. simpl.
  destruct (server (requests w) url) as [|status [d|]]; simpl; try reflexivity;
    destruct ((200 <=? status) && (status <=? 299)); reflexivity.
Qed.



Lemma requests_after_fetch {A} (srv : Server A) (msg : string) (w : World)
  (url : string) :
  requests (after_fetch srv msg w url) = (requests w ++ [url])%list.
Proof. unfold after_fetch. destruct (failed _); reflexivity. Qed.

Lemma alerts_after_fetch {A} (srv : Server A) (msg : string) (w : World)
  (url : string) :
  alerts (after_fetch srv msg w url) = alerts w.
Proof. unfold after_fetch. destruct (failed _); reflexivity. Qed.

(** Updates of two different keys of a state object commute: the order in
    which the un-awaited callbacks of phase 3 finish does not matter. *)
Lemma spread_set_commute {V} (prev : option (gmap string V))
  (k1 k2 : string) (v1 v2 : V) :
  k1 <> k2 ->
  SearchPage.spread_set (SearchPage.spread_set prev k1 v1) k2 v2 =
  SearchPage.spread_set (SearchPage.spread_set prev k2 v2) k1 v1.
Proof.
  intros Hne. unfold SearchPage.spread_set. cbn. f_equal.
  apply insert_insert_ne. congruence.
Qed.

(** A search for a non-blank term, whatever the server does: five requests
    are sent in order, nothing is thrown, and every key of [results] holds
    what its own request produced. *)
Lemma performSearch_run (term system : string) (confidence : Q)
  (w : World) (s : SearchPage.State) :
  String.eqb term "" || String.eqb (Js.trim rt term) "" = false ->
  let msg := "Error fetching data:" in
  let strategy := SearchPage.searchStrategy s in
  let u1 := SearchPage.buildSearchUrl rt API_BASE_URL strategy term "combined" in
  let u2 := SearchPage.buildSearchUrl rt API_BASE_URL strategy term "icd11" in
  let u3 := SearchPage.systemUrl rt API_BASE_URL "ayurveda" term in
  let u4 := SearchPage.systemUrl rt API_BASE_URL "unani" term in
  let u5 := SearchPage.systemUrl rt API_BASE_URL "siddha" term in
  let w1 := after_fetch server msg w u1 in
  let w2 := after_fetch server msg w1 u2 in
  let w3 := after_fetch server msg w2 u3 in
  let w4 := after_fetch server msg w3 u4 in
  let w5 := after_fetch server msg w4 u5 in
  let d1 := reply_data (server (requests w) u1) in
  let d2 := reply_data (server (requests w1) u2) in
  let d3 := reply_data (server (requests w2) u3) in
  let d4 := reply_data (server (requests w3) u4) in
  let d5 := reply_data (server (requests w4) u5) in
  performSearch term system confidence (w, s) =
  (Return tt,
   (w5,
    SearchPage.mkState (SearchPage.searchTerm s) (SearchPage.selectedSystem s)
      (SearchPage.minConfidence s)
      (Some (<["siddha" := SearchPage.Slot (SearchPage.or_empty d5)]>
              (<["unani" := SearchPage.Slot (SearchPage.or_empty d4)]>
                (<["ayurveda" := SearchPage.Slot (SearchPage.or_empty d3)]>
                  (<["icd11" := SearchPage.Slot (SearchPage.or_empty d2)]>
                    (<["mappingResults" :=
                         SearchPage.Mappings (SearchPage.toMappingResults d1)]>
                      (<["combined" := SearchPage.Slot (SearchPage.or_empty d1)]>
                        SearchPage.blank_results)))))))
      false true (SearchPage.suggestions s) (SearchPage.showSuggestions s)
      (SearchPage.recommendations s) (SearchPage.searchStrategy s)
      (<["siddha" := false]> (<["siddha" := true]>
        (<["unani" := false]> (<["unani" := true]>
          (<["ayurveda" := false]> (<["ayurveda" := true]>
            (<["icd11" := false]> (<["icd11" := true]>
              (<["combined" := false]> (<["combined" := true]>
                (SearchPage.loadingProgress s))))))))))))).
Proof.
  intros Hb. cbv zeta. unfold SearchPage.performSearch. rewrite Hb.
  search_page_step.
  repeat (rewrite search_fetchData_run; search_page_step).
  reflexivity.
Qed.

(** A blank term sends nothing and changes nothing. *)
Lemma performSearch_blank (term system : string) (confidence : Q)
  (w : World) (s : SearchPage.State) :
  String.eqb term "" || String.eqb (Js.trim rt term) "" = true ->
  performSearch term system confidence (w, s) = (Return tt, (w, s)).
Proof.
  intros Hb. unfold SearchPage.performSearch. rewrite Hb. reflexivity.
Qed.

(** No exception escapes [performSearch], nor the submit handler. *)
Lemma performSearch_returns (term system : string) (confidence : Q)
  (w : World) (s : SearchPage.State) :
  outcome (run (performSearch term system confidence) w s) = Return tt.
Proof.
  unfold run.
  destruct (String.eqb term "" || String.eqb (Js.trim rt term) "") eqn:Hb.
  - rewrite performSearch_blank by exact Hb. reflexivity.
  - rewrite performSearch_run by exact Hb. reflexivity.
Qed.

Lemma handleSearch_returns (w : World) (s : SearchPage.State) :
  outcome (run (SearchPage.handleSearch rt API_BASE_URL server) w s) = Return tt.
Proof.
  unfold run, SearchPage.handleSearch. search_page_step.
  match goal with
  | |- outcome (SearchPage.performSearch _ _ _ ?t ?sy ?c (?w', ?s')) = _ =>
      exact (performSearch_returns t sy c w' s')
  end.
Qed.

End SearchPageFacts.

(** C3. After a search for a non-blank term, [mappingResults] holds one
    record per item of the combined response, in order; for each of the
    three systems the [namaste_terms] slot of the record is [null] when the
    item's [related_*] field is absent or [null], and otherwise holds the
    [code], [english_name] and [local_name] of that related term. *)
Theorem C3_mapping_record_slots :
  forall (rt : Js.Runtime) (API_BASE_URL : string) (server : Server Item.t)
         (term system : string) (confidence : Q)
         (w : World) (s : SearchPage.State),
    String.eqb term "" || String.eqb (Js.trim rt term) "" = false ->
    let combinedData :=
      reply_data (server (requests w)
        (SearchPage.buildSearchUrl rt API_BASE_URL (SearchPage.searchStrategy s)
           term "combined")) in
    let final :=
      state_of (run (SearchPage.performSearch rt API_BASE_URL server term system
                       confidence) w s) in
    exists mappingResults : list Mapping.t,
      SearchPage.results_at final "mappingResults" =
        Some (SearchPage.Mappings mappingResults) /\
      forall items : list Item.t,
        get_results combinedData = Some items ->
        length mappingResults = length items /\
        forall (i : nat) (item : Item.t),
          items !! i = Some item ->
          exists m : Mapping.t,
            mappingResults !! i = Some m /\
            let slots := Mapping.namaste_terms m in
            (Item.related_ayurveda item = None -> NamasteTerms.ayurveda slots = None) /\
            (Item.related_siddha item = None -> NamasteTerms.siddha slots = None) /\
            (Item.related_unani item = None -> NamasteTerms.unani slots = None) /\
            (forall r, Item.related_ayurveda item = Some r ->
               NamasteTerms.ayurveda slots =
               Some (NamasteTerm.mk (Related.code r) (Related.english_name r)
                       (Related.local_name r))) /\
            (forall r, Item.related_siddha item = Some r ->
               NamasteTerms.siddha slots =
               Some (NamasteTerm.mk (Related.code r) (Related.english_name r)
                       (Related.local_name r))) /\
            (forall r, Item.related_unani item = Some r ->
               NamasteTerms.unani slots =
               Some (NamasteTerm.mk (Related.code r) (Related.english_name r)
                       (Related.local_name r))).
Proof.
  intros rt API_BASE_URL server term system confidence w s Hb combinedData final.
  exists (SearchPage.toMappingResults combinedData).
  split.
  - subst final. unfold run. rewrite performSearch_run by exact Hb.
    unfold state_of, SearchPage.results_at. cbn.
    now rewrite !lookup_insert_ne, lookup_insert_eq by discriminate.
  - intros items Hitems. unfold SearchPage.toMappingResults. rewrite Hitems.
    split; [apply length_fmap|].
    intros i item Hi. exists (SearchPage.toMapping item).
    split; [rewrite list_lookup_fmap, Hi; reflexivity|].
    cbn. repeat split.
    1-3: intros ->; reflexivity.
    all: intros r ->; reflexivity.
Qed.

(** The search for "fever" against a server that answers with
    [Examples.combined_response]. *)
Lemma C3_mapping_record_slots_witness :
  let combinedData :=
    reply_data (Examples.always Examples.combined_response (requests world0)
      (SearchPage.buildSearchUrl Js.ascii_runtime "http://localhost:8000"
         (SearchPage.searchStrategy SearchPage.initial) "fever" "combined")) in
  let final :=
    state_of (run (SearchPage.performSearch Js.ascii_runtime "http://localhost:8000"
                     (Examples.always Examples.combined_response) "fever" "all"
                     (1 # 10)) world0 SearchPage.initial) in
  exists mappingResults : list Mapping.t,
    SearchPage.results_at final "mappingResults" =
      Some (SearchPage.Mappings mappingResults) /\
    forall items : list Item.t,
      get_results combinedData = Some items ->
      length mappingResults = length items /\
      forall (i : nat) (item : Item.t),
        items !! i = Some item ->
        exists m : Mapping.t,
          mappingResults !! i = Some m /\
          let slots := Mapping.namaste_terms m in
          (Item.related_ayurveda item = None -> NamasteTerms.ayurveda slots = None) /\
          (Item.related_siddha item = None -> NamasteTerms.siddha slots = None) /\
          (Item.related_unani item = None -> NamasteTerms.unani slots = None) /\
          (forall r, Item.related_ayurveda item = Some r ->
             NamasteTerms.ayurveda slots =
             Some (NamasteTerm.mk (Related.code r) (Related.english_name r)
                     (Related.local_name r))) /\
          (forall r, Item.related_siddha item = Some r ->
             NamasteTerms.siddha slots =
             Some (NamasteTerm.mk (Related.code r) (Related.english_name r)
                     (Related.local_name r))) /\
          (forall r, Item.related_unani item = Some r ->
             NamasteTerms.unani slots =
             Some (NamasteTerm.mk (Related.code r) (Related.english_name r)
                     (Related.local_name r))).
Proof.
  apply (C3_mapping_record_slots Js.ascii_runtime "http://localhost:8000"
           (Examples.always Examples.combined_response) "fever" "all" (1 # 10)
           world0 SearchPage.initial).
  reflexivity.
Defined.

Example mapping_record_of_fever_entry :
  Mapping.namaste_terms (SearchPage.toMapping Examples.fever_entry) =
  NamasteTerms.mk
    (Some (NamasteTerm.mk (Some "AY-1") (Some "Jvara") (Some "jvara-local")))
    None
    (Some (NamasteTerm.mk (Some "UN-3") (Some "Humma") None)).
Proof. reflexivity. Qed.

(** C7. When the combined-search request of a search fails (no network, a
    status outside 2xx, or a body that is not JSON), the search handler
    returns normally, [mappingResults] is the empty array, nothing is shown
    in an [alert], and the four per-system requests are still sent, in
    order, each filling its own key of [results] with what it received. *)
Theorem C7_combined_failure_is_contained :
  forall (rt : Js.Runtime) (API_BASE_URL : string) (server : Server Item.t)
         (term system : string) (confidence : Q)
         (w : World) (s : SearchPage.State),
    String.eqb term "" || String.eqb (Js.trim rt term) "" = false ->
    let strategy := SearchPage.searchStrategy s in
    let u1 := SearchPage.buildSearchUrl rt API_BASE_URL strategy term "combined" in
    let u2 := SearchPage.buildSearchUrl rt API_BASE_URL strategy term "icd11" in
    let u3 := SearchPage.systemUrl rt API_BASE_URL "ayurveda" term in
    let u4 := SearchPage.systemUrl rt API_BASE_URL "unani" term in
    let u5 := SearchPage.systemUrl rt API_BASE_URL "siddha" term in
    failed (server (requests w) u1) = true ->
    let r := run (SearchPage.performSearch rt API_BASE_URL server term system
                    confidence) w s in
    let h := requests w in
    outcome r = Return tt /\
    SearchPage.results_at (state_of r) "mappingResults" = Some (SearchPage.Mappings []) /\
    SearchPage.results_at (state_of r) "combined" = Some (SearchPage.Slot empty_results) /\
    requests (world_of r) = (h ++ [u1; u2; u3; u4; u5])%list /\
    alerts (world_of r) = alerts w /\
    SearchPage.results_at (state_of r) "icd11" =
      Some (SearchPage.Slot (SearchPage.or_empty
              (reply_data (server (h ++ [u1])%list u2)))) /\
    SearchPage.results_at (state_of r) "ayurveda" =
      Some (SearchPage.Slot (SearchPage.or_empty
              (reply_data (server (h ++ [u1; u2])%list u3)))) /\
    SearchPage.results_at (state_of r) "unani" =
      Some (SearchPage.Slot (SearchPage.or_empty
              (reply_data (server (h ++ [u1; u2; u3])%list u4)))) /\
    SearchPage.results_at (state_of r) "siddha" =
      Some (SearchPage.Slot (SearchPage.or_empty
              (reply_data (server (h ++ [u1; u2; u3; u4])%list u5)))).
Proof.
  intros rt API_BASE_URL server term system confidence w s Hb
    strategy u1 u2 u3 u4 u5 Hfail r h.
  subst r. unfold run. rewrite performSearch_run by exact Hb.
  fold strategy u1 u2 u3 u4 u5.
  assert (Hd1 : reply_data (server (requests w) u1) = DNull).
  { unfold failed, reply_data in *.
    destruct (server (requests w) u1) as [|status [d|]]; try reflexivity.
    destruct ((200 <=? status) && (status <=? 299)); [discriminate | reflexivity]. }
  unfold outcome, state_of, world_of, SearchPage.results_at. cbn.
  rewrite Hd1.
  rewrite !requests_after_fetch, !alerts_after_fetch, <- !app_assoc. cbn.
  repeat split;
    repeat first [ rewrite lookup_insert_eq; reflexivity
                 | rewrite lookup_insert_ne by discriminate ].
Qed.

(** A search for "fever" while the server is unreachable. *)
Lemma C7_combined_failure_witness :
  let r := run (SearchPage.performSearch Js.ascii_runtime "http://localhost:8000"
                  Examples.offline "fever" "all" (1 # 10)) world0 SearchPage.initial in
  outcome r = Return tt /\
  SearchPage.results_at (state_of r) "mappingResults" = Some (SearchPage.Mappings []) /\
  length (requests (world_of r)) = 5%nat.
Proof.
  destruct (C7_combined_failure_is_contained Js.ascii_runtime "http://localhost:8000"
              Examples.offline "fever" "all" (1 # 10) world0 SearchPage.initial
              eq_refl eq_refl) as (Hret & Hmap & _ & Hreq & _).
  split; [exact Hret|]. split; [exact Hmap|].
  rewrite Hreq. reflexivity.
Defined.

Example search_while_offline :
  requests (world_of (run (SearchPage.performSearch Js.ascii_runtime "http://api"
                             Examples.offline "fever" "all" (1 # 10))
                        world0 SearchPage.initial)) =
  [ "http://api/terminologies/search/combined/?q=fever&fuzzy=true&threshold=0.3&page_size=20";
    "http://api/terminologies/search/icd11/?q=fever&fuzzy=true&threshold=0.3&page_size=15";
    "http://api/terminologies/ayurveda/search/?q=fever&threshold=0.2&page_size=12";
    "http://api/terminologies/unani/search/?q=fever&threshold=0.2&page_size=12";
    "http://api/terminologies/siddha/search/?q=fever&threshold=0.2&page_size=12" ].
Proof. reflexivity. Qed.

(** ** Suggestion fetchers *)

(** Unfolds the monad and the setters of the per-system page. *)
Ltac system_page_step :=
  unfold try_finally, try_catch, bind, SystemPage.setResults,
    SystemPage.setIsSearching, SystemPage.setCurrentPage, SystemPage.setSuggPage,
    SystemPage.setSuggestions, SystemPage.setShowSuggestions,
    SystemPage.setSuggTotal, SystemPage.setSuggLoading,
    SystemPage.setSuggTotalPages, SystemPage.setAllSuggestions,
    SystemPage.updateDisplayedSuggestions, SystemPage.clickFileInput,
    console_error, alert, modify, get, spawn, bind, ret;
  cbn [fst snd SystemPage.searchTerm SystemPage.results SystemPage.isSearching
       SystemPage.currentPage SystemPage.suggPage SystemPage.uploading
       SystemPage.currentUser SystemPage.userChecked SystemPage.suggestions
       SystemPage.showSuggestions SystemPage.suggTotal SystemPage.suggLoading
       SystemPage.suggTotalPages SystemPage.allSuggestions
       SystemPage.fileInputClicks].

Section SuggestionFacts.
Variable rt : Js.Runtime.
Variable API_BASE_URL : string.
Variable server : Server Item.t.
Variable auto_server : Server string.

Local Abbreviation fetchSuggestions :=
  (SearchPage.fetchSuggestions rt API_BASE_URL server).
Local Abbreviation fetchAllSuggestions :=
  (SystemPage.fetchAllSuggestions rt auto_server).

(** Search page, input shorter than two characters. *)
Lemma fetchSuggestions_short (term : string) (w : World) (s : SearchPage.State) :
  (String.length term < 2)%nat ->
  fetchSuggestions term (w, s) =
  (Return tt,
   (w, SearchPage.mkState (SearchPage.searchTerm s) (SearchPage.selectedSystem s)
         (SearchPage.minConfidence s) (SearchPage.results s)
         (SearchPage.isSearching s) (SearchPage.hasSearched s) []
         (SearchPage.showSuggestions s) [] (SearchPage.searchStrategy s)
         (SearchPage.loadingProgress s))).
Proof.
  intros Hlen. unfold SearchPage.fetchSuggestions.
  apply Nat.ltb_lt in Hlen. rewrite Hlen, orb_true_r.
  reflexivity.
Qed.

(** Search page, input of two characters or more: one request; the lists
    are replaced only when the response carries a [results] array. *)
Lemma fetchSuggestions_long (term : string) (w : World) (s : SearchPage.State) :
  (2 <= String.length term)%nat ->
  let url := SearchPage.suggestionsUrl rt API_BASE_URL term in
  let data := reply_data (server (requests w) url) in
  let shown :=
    match get_results data with
    | Some rs => SearchPage.toSuggestion <$> rs
    | None => SearchPage.suggestions s
    end in
  let recommended :=
    match get_results data with
    | Some rs => Js.slice (SearchPage.toSuggestion <$> rs) 0 3
    | None => SearchPage.recommendations s
    end in
  fetchSuggestions term (w, s) =
  (Return tt,
   (after_fetch server "Error fetching data:" w url,
    SearchPage.mkState (SearchPage.searchTerm s) (SearchPage.selectedSystem s)
      (SearchPage.minConfidence s) (SearchPage.results s)
      (SearchPage.isSearching s) (SearchPage.hasSearched s) shown
      (SearchPage.showSuggestions s) recommended (SearchPage.searchStrategy s)
      (<["suggestions" := false]> (<["suggestions" := true]>
         (SearchPage.loadingProgress s))))).
Proof.
  intros Hlen. cbv zeta. unfold SearchPage.fetchSuggestions.
  assert (Hne : String.eqb term "" = false).
  { destruct term; [simpl in Hlen; lia | reflexivity]. }
  assert (Hlt : (String.length term <? 2)%nat = false) by (apply Nat.ltb_ge; lia).
  rewrite Hne, Hlt. cbn [orb].
  search_page_step. rewrite search_fetchData_run. search_page_step.
  destruct (reply_data _) as [|items|rs]; cbn; try reflexivity.
  destruct (results rs); reflexivity.
Qed.


(** The fetch helper of the per-system page never throws either. *)
Lemma system_fetchData_run {A} (srv : Server A) (url : string)
  (w : World) (s : SystemPage.State) :
  SystemPage.fetchData srv url (w, s) =
  (Return (reply_data (srv (requests w) url)),
   (after_fetch srv "fetch error" w url, s)).
Proof.
  unfold SystemPage.fetchData, after_fetch, try_catch, bind, fetch, failed,
    reply_data, json. simpl.
  destruct (srv (requests w) url) as [|status [d|]]; simpl; try reflexivity;
    destruct ((200 <=? status) && (status <=? 299)); reflexivity.
Qed.

(** Per-system page, input shorter than two characters. *)
Lemma fetchAllSuggestions_short (system : SystemPage.SystemConfig) (term : string)
  (w : World) (s : SystemPage.State) :
  (String.length term < 2)%nat ->
  fetchAllSuggestions system term (w, s) =
  (Return tt,
   (w, SystemPage.mkState (SystemPage.searchTerm s) (SystemPage.results s)
         (SystemPage.isSearching s) (SystemPage.currentPage s)
         (SystemPage.suggPage s) (SystemPage.uploading s)
         (SystemPage.currentUser s) (SystemPage.userChecked s) []
         (SystemPage.showSuggestions s) 0 (SystemPage.suggLoading s) 1 []
         (SystemPage.fileInputClicks s))).
Proof.
  intros Hlen. unfold SystemPage.fetchAllSuggestions.
  apply Nat.ltb_lt in Hlen. rewrite Hlen, orb_true_r.
  reflexivity.
Qed.

(** Per-system page, input of two characters or more: one request, and the
    lists are replaced by what the response carries, which is nothing when
    the request failed. *)
Lemma fetchAllSuggestions_long (system : SystemPage.SystemConfig) (term : string)
  (w : World) (s : SystemPage.State) :
  (2 <= String.length term)%nat ->
  let url := SystemPage.autocompleteUrl rt system term in
  let allData :=
    match reply_data (auto_server (requests w) url) with
    | DObject rs => default [] (results rs)
    | DArray items => items
    | DNull => []
    end in
  fetchAllSuggestions system term (w, s) =
  (Return tt,
   (after_fetch auto_server "fetch error" w url,
    SystemPage.mkState (SystemPage.searchTerm s) (SystemPage.results s)
      (SystemPage.isSearching s) (SystemPage.currentPage s)
      (SystemPage.suggPage s) (SystemPage.uploading s)
      (SystemPage.currentUser s) (SystemPage.userChecked s)
      (Js.slice allData 0 10)
      (SystemPage.showSuggestions s) (Z.of_nat (length allData)) false
      (Js.ceil_div (Z.of_nat (length allData)) 10) allData
      (SystemPage.fileInputClicks s))).
Proof.
  intros Hlen. cbv zeta. unfold SystemPage.fetchAllSuggestions.
  assert (Hne : String.eqb term "" = false).
  { destruct term; [simpl in Hlen; lia | reflexivity]. }
  assert (Hlt : (String.length term <? 2)%nat = false) by (apply Nat.ltb_ge; lia).
  rewrite Hne, Hlt. cbn [orb].
  system_page_step. rewrite system_fetchData_run. system_page_step.
  reflexivity.
Qed.

End SuggestionFacts.

(** C8. For an input shorter than two characters, the empty string
    included, the suggestion fetcher of the search page and that of the
    per-system page return without touching the outside world (no request,
    no console line, no dialog) and leave the suggestion lists empty; so do
    the debounced effects that call them when [searchTerm] is that short. *)
Theorem C8_short_input_sends_no_request :
  forall (rt : Js.Runtime) (API_BASE_URL : string)
         (server : Server Item.t) (auto_server : Server string)
         (system : SystemPage.SystemConfig) (term : string)
         (w : World) (s : SearchPage.State) (s' : SystemPage.State),
    (String.length term < 2)%nat ->
    let r := run (SearchPage.fetchSuggestions rt API_BASE_URL server term) w s in
    let r' := run (SystemPage.fetchAllSuggestions rt auto_server system term) w s' in
    (outcome r = Return tt /\
     requests (world_of r) = requests w /\
     world_of r = w /\
     SearchPage.suggestions (state_of r) = [] /\
     SearchPage.recommendations (state_of r) = []) /\
    (outcome r' = Return tt /\
     requests (world_of r') = requests w /\
     world_of r' = w /\
     SystemPage.suggestions (state_of r') = [] /\
     SystemPage.allSuggestions (state_of r') = [] /\
     SystemPage.suggTotal (state_of r') = 0) /\
    (SearchPage.searchTerm s = term ->
     let e := run (SearchPage.suggestionsEffect rt API_BASE_URL server) w s in
     outcome e = Return tt /\
     world_of e = w /\
     SearchPage.suggestions (state_of e) = [] /\
     SearchPage.recommendations (state_of e) = []) /\
    (SystemPage.searchTerm s' = term ->
     let e' := run (SystemPage.suggestionsEffect rt auto_server system) w s' in
     outcome e' = Return tt /\
     world_of e' = w /\
     SystemPage.suggestions (state_of e') = [] /\
     SystemPage.allSuggestions (state_of e') = []).
Proof.
  intros rt API_BASE_URL server auto_server system term w s s' Hlen r r'.
  subst r r'. unfold run.
  rewrite fetchSuggestions_short, fetchAllSuggestions_short by exact Hlen.
  refine (conj _ (conj _ (conj _ _))).
  - repeat split.
  - repeat split.
  - intros Hterm. unfold run, SearchPage.suggestionsEffect.
    search_page_step. rewrite Hterm.
    assert (Hge : (2 <=? String.length term)%nat = false) by (apply Nat.leb_gt; lia).
    rewrite Hge. repeat split.
  - intros Hterm. unfold run, SystemPage.suggestionsEffect.
    system_page_step. rewrite Hterm.
    rewrite fetchAllSuggestions_short by exact Hlen. repeat split.
Qed.

(** One character typed: nothing is sent, the lists are emptied. *)
Lemma C8_short_input_witness :
  let r := run (SearchPage.fetchSuggestions Js.ascii_runtime "http://api"
                  (Examples.always Examples.combined_response) "f")
             world0 Examples.search_page_with_suggestions in
  let r' := run (SystemPage.fetchAllSuggestions Js.ascii_runtime
                   (Examples.always (DArray ["fever"]))
                   (SystemPage.systemData "http://api" SystemPage.ayurveda) "f")
              world0 Examples.system_page_with_suggestions in
  requests (world_of r) = [] /\ SearchPage.suggestions (state_of r) = [] /\
  requests (world_of r') = [] /\ SystemPage.suggestions (state_of r') = [].
Proof.
  destruct (C8_short_input_sends_no_request Js.ascii_runtime "http://api"
              (Examples.always Examples.combined_response)
              (Examples.always (DArray ["fever"]))
              (SystemPage.systemData "http://api" SystemPage.ayurveda) "f"
              world0 Examples.search_page_with_suggestions
              Examples.system_page_with_suggestions ltac:(simpl; lia))
    as ((_ & Hreq & _ & Hsugg & _) & (_ & Hreq' & _ & Hsugg' & _) & _).
  repeat split; assumption.
Defined.

(** ** The detail aggregator: cache, pages and the background loop *)

Section DetailFacts.
Variable rt : Js.Runtime.
Variable server : Server Item.t.

Local Abbreviation fetchData := (MappingDetailsPage.fetchData server).
Local Abbreviation fetchPaginatedData :=
  (MappingDetailsPage.fetchPaginatedData rt server).
Local Abbreviation fetchAllPages_while :=
  (MappingDetailsPage.fetchAllPages_while rt server).
Local Abbreviation bounded_effect := (MappingDetailsPage.bounded_effect server).

Lemma bounded_effect_refl (n : nat) (w : World) (s : MappingDetailsPage.State) :
  bounded_effect n w s w s.
Proof.
  repeat split; [|auto].
  exists []. rewrite app_nil_r. split; [reflexivity | simpl; lia].
Qed.

Lemma bounded_effect_trans (n m : nat) (w1 w2 w3 : World)
  (s1 s2 s3 : MappingDetailsPage.State) :
  bounded_effect n w1 s1 w2 s2 ->
  bounded_effect m w2 s2 w3 s3 ->
  bounded_effect (n + m) w1 s1 w3 s3.
Proof.
  intros ((sent1 & Hr1 & Hl1) & Ha1 & Hd1 & Hc1) ((sent2 & Hr2 & Hl2) & Ha2 & Hd2 & Hc2).
  unfold MappingDetailsPage.bounded_effect.
  repeat split; [| congruence | congruence | auto].
  exists (sent1 ++ sent2)%list. rewrite Hr2, Hr1, app_assoc, length_app.
  split; [reflexivity | lia].
Qed.

Lemma bounded_effect_weaken (n m : nat) (w w' : World)
  (s s' : MappingDetailsPage.State) :
  (n <= m)%nat -> bounded_effect n w s w' s' -> bounded_effect m w s w' s'.
Proof.
  intros Hnm ((sent & Hr & Hl) & Ha & Hd & Hc).
  repeat split; [| assumption..].
  exists sent. split; [assumption | lia].
Qed.

(** [fetchData] with the cache on: never throws, sends at most one
    request, and what it returns carries no more results than the server
    or the cache allow. *)
Lemma details_fetchData_post (url : string) (w : World) (s : MappingDetailsPage.State) :
  exists (data : Data Item.t) (w' : World) (s' : MappingDetailsPage.State),
    fetchData url true (w, s) = (Return data, (w', s')) /\
    bounded_effect 1 w s w' s' /\
    forall bound : nat,
      honours_page_size server bound ->
      MappingDetailsPage.cache_within (MappingDetailsPage.apiCache s) bound ->
      (results_length data <= bound)%nat.
Proof.
  unfold MappingDetailsPage.fetchData, bind, get. cbn [snd fst].
  destruct (MappingDetailsPage.apiCache s !! url) as [cached|] eqn:Hcache.
  - exists cached, w, s. split; [reflexivity|].
    split; [apply bounded_effect_refl|].
    intros bound _ Hwithin. exact (Hwithin url cached Hcache).
  - unfold try_catch, bind, fetch, json, MappingDetailsPage.setCache, modify,
      console_error, ret, throw. cbn [fst snd].
    destruct (server (requests w) url) as [|status [d|]] eqn:Hreply; cbn.
    + eexists _, _, _. split; [reflexivity|]. split.
      * repeat split; [|auto]. exists [url]. split; [reflexivity | simpl; lia].
      * intros; unfold results_length; simpl; lia.
    + destruct ((200 <=? status) && (status <=? 299)); cbn.
      * eexists _, _, _. split; [reflexivity|]. split.
        -- repeat split.
           ++ exists [url]. split; [reflexivity | simpl; lia].
           ++ intros bound Hhon Hwithin url' d'. cbn.
              destruct (decide (url = url')) as [->|Hne].
              ** rewrite lookup_insert_eq. intros [= <-].
                 exact (Hhon _ _ _ _ Hreply).
              ** rewrite lookup_insert_ne by exact Hne. apply Hwithin.
        -- intros bound Hhon _. exact (Hhon _ _ _ _ Hreply).
      * eexists _, _, _. split; [reflexivity|]. split.
        -- repeat split; [|auto]. exists [url]. split; [reflexivity | simpl; lia].
        -- intros; unfold results_length; simpl; lia.
    + destruct ((200 <=? status) && (status <=? 299)); cbn.
      * eexists _, _, _. split; [reflexivity|]. split.
        -- repeat split; [|auto]. exists [url]. split; [reflexivity | simpl; lia].
        -- intros; unfold results_length; simpl; lia.
      * eexists _, _, _. split; [reflexivity|]. split.
        -- repeat split; [|auto]. exists [url]. split; [reflexivity | simpl; lia].
        -- intros; unfold results_length; simpl; lia.
Qed.

(** [fetchPaginatedData]: the same, for the page it hands back. *)
Lemma fetchPaginatedData_post (baseUrl searchTerm : string) (system : option string)
  (page pageSize : Z) (w : World) (s : MappingDetailsPage.State) :
  exists (data : Paged.t) (w' : World) (s' : MappingDetailsPage.State),
    fetchPaginatedData baseUrl searchTerm system page pageSize (w, s) =
      (Return data, (w', s')) /\
    bounded_effect 1 w s w' s' /\
    forall bound : nat,
      honours_page_size server bound ->
      MappingDetailsPage.cache_within (MappingDetailsPage.apiCache s) bound ->
      (length (Paged.results data) <= bound)%nat.
Proof.
  unfold MappingDetailsPage.fetchPaginatedData.
  destruct (MappingDetailsPage.pagedUrl rt baseUrl searchTerm system page pageSize)
    as [url|].
  - destruct (details_fetchData_post url w s) as (data & w' & s' & Hrun & Heff & Hlen).
    unfold try_catch, bind. rewrite Hrun.
    destruct (truthy data) eqn:Htruthy; cbn.
    + eexists _, _, _. split; [reflexivity|]. split; [exact Heff|]. exact Hlen.
    + eexists _, _, _. split; [reflexivity|]. split; [exact Heff|].
      intros; simpl; lia.
  - exists Paged.empty, w, s. split; [reflexivity|].
    split; [apply bounded_effect_refl|]. intros; simpl; lia.
Qed.

(** The loop, unfolded once. *)
Lemma fetchAllPages_while_unfold (baseUrl searchTerm : string)
  (system : option string) (maxPages pageSize : Z) (l : MappingDetailsPage.Loop) :
  fetchAllPages_while baseUrl searchTerm system maxPages pageSize l =
  if MappingDetailsPage.loop_cond maxPages l
  then bind (fetchPaginatedData baseUrl searchTerm system
               (MappingDetailsPage.page l) pageSize)
         (fun data =>
            fetchAllPages_while baseUrl searchTerm system maxPages pageSize
              (MappingDetailsPage.loop_body l data))
  else ret l.
Proof.
  rewrite MappingDetailsPage.fetchAllPages_while_equation_1.
  destruct (inspect (MappingDetailsPage.loop_cond maxPages l)) as [[] H];
    simpl; rewrite H; reflexivity.
Qed.

(** The loop returns, after at most [pages_left] requests, with at most
    one page-size worth of results for each. *)
Lemma fetchAllPages_while_post (baseUrl searchTerm : string)
  (system : option string) (maxPages pageSize : Z) :
  forall (n : nat) (l : MappingDetailsPage.Loop),
    (MappingDetailsPage.loop_variant maxPages l <= n)%nat ->
    forall (w : World) (s : MappingDetailsPage.State),
    exists (l' : MappingDetailsPage.Loop) (w' : World) (s' : MappingDetailsPage.State),
      fetchAllPages_while baseUrl searchTerm system maxPages pageSize l (w, s) =
        (Return l', (w', s')) /\
      bounded_effect (MappingDetailsPage.pages_left maxPages l) w s w' s' /\
      forall bound : nat,
        honours_page_size server bound ->
        MappingDetailsPage.cache_within (MappingDetailsPage.apiCache s) bound ->
        (length (MappingDetailsPage.allResults l') <=
         length (MappingDetailsPage.allResults l) +
         MappingDetailsPage.pages_left maxPages l * bound)%nat.
Proof.
  induction n as [|n IH]; intros l Hvar w s;
    rewrite fetchAllPages_while_unfold;
    unfold MappingDetailsPage.loop_cond;
    unfold MappingDetailsPage.loop_variant in Hvar;
    destruct (MappingDetailsPage.hasMore l) eqn:Hmore; try lia; cbn [andb].
  1, 3: exists l, w, s; split; [reflexivity|];
        split; [apply bounded_effect_refl | intros; lia].
  destruct (Z.leb_spec (MappingDetailsPage.page l) maxPages) as [Hpage|Hpage].
  2: { exists l, w, s. split; [reflexivity|].
       split; [apply bounded_effect_refl | intros; lia]. }
  destruct (fetchPaginatedData_post baseUrl searchTerm system
              (MappingDetailsPage.page l) pageSize w s)
    as (data & w1 & s1 & Hrun & Heff1 & Hlen1).
  unfold bind. rewrite Hrun.
  assert (Hleft : (MappingDetailsPage.pages_left maxPages
                     (MappingDetailsPage.loop_body l data) + 1 <=
                   MappingDetailsPage.pages_left maxPages l)%nat).
  { unfold MappingDetailsPage.pages_left, MappingDetailsPage.loop_body.
    rewrite Hmore.
    destruct (negb _); cbn; [destruct (Js.truthy_str _)|]; lia. }
  destruct (IH (MappingDetailsPage.loop_body l data)) with (w := w1) (s := s1)
    as (l' & w' & s' & Hrun' & Heff' & Hlen').
  { unfold MappingDetailsPage.loop_variant, MappingDetailsPage.loop_body.
    destruct (negb _); cbn; [destruct (Js.truthy_str _)|]; lia. }
  exists l', w', s'. split; [exact Hrun'|]. split.
  - eapply bounded_effect_weaken; [|eapply bounded_effect_trans; eassumption]. lia.
  - intros bound Hhon Hwithin.
    specialize (Hlen1 bound Hhon Hwithin).
    destruct Heff1 as (_ & _ & _ & Hcache1).
    specialize (Hlen' bound Hhon (Hcache1 bound Hhon Hwithin)).
    assert (Hbody : (length (MappingDetailsPage.allResults
                               (MappingDetailsPage.loop_body l data)) <=
                     length (MappingDetailsPage.allResults l) + bound)%nat).
    { unfold MappingDetailsPage.loop_body.
      destruct (negb _); cbn; [rewrite length_app|]; lia. }
    nia.
Qed.


(** One source: the loop from page 1, packed with its count. *)
Lemma fetchAllPagesForSystem_post (baseUrl searchTerm : string)
  (system : option string) (maxPages : Z) (w : World) (s : MappingDetailsPage.State) :
  exists (c : Collected.t) (w' : World) (s' : MappingDetailsPage.State),
    MappingDetailsPage.fetchAllPagesForSystem rt server baseUrl searchTerm system
      maxPages (w, s) = (Return c, (w', s')) /\
    bounded_effect (Z.to_nat maxPages) w s w' s' /\
    Collected.count c = Z.of_nat (length (Collected.results c)) /\
    forall bound : nat,
      honours_page_size server bound ->
      MappingDetailsPage.cache_within (MappingDetailsPage.apiCache s) bound ->
      (length (Collected.results c) <= Z.to_nat maxPages * bound)%nat.
Proof.
  unfold MappingDetailsPage.fetchAllPagesForSystem, bind.
  destruct (fetchAllPages_while_post baseUrl searchTerm system maxPages
              MappingDetailsPage.detailPageSize _
              (MappingDetailsPage.mkLoop [] 1 true) (Nat.le_refl _) w s)
    as (l' & w' & s' & Hrun & Heff & Hlen).
  rewrite Hrun. eexists _, w', s'. split; [reflexivity|].
  unfold MappingDetailsPage.pages_left in *. cbn in Heff, Hlen.
  replace (maxPages + 1 - 1) with maxPages in * by lia.
  split; [exact Heff|]. split; [reflexivity|].
  intros bound Hhon Hwithin. cbn. exact (Hlen bound Hhon Hwithin).
Qed.

(** The background task over all sources: it returns normally once
    [detailedData] is set, and sends at most three requests per source. *)
Lemma fetchAdditionalPages_post (API_BASE_URL termName : string)
  (systems : list (string * Paged.t)) :
  forall (w : World) (s : MappingDetailsPage.State),
    is_Some (MappingDetailsPage.detailedData s) ->
    exists (w' : World) (s' : MappingDetailsPage.State),
      MappingDetailsPage.fetchAdditionalPages rt API_BASE_URL server termName systems
        (w, s) = (Return tt, (w', s')) /\
      (exists sent : list string,
          requests w' = (requests w ++ sent)%list /\
          (length sent <= 3 * length systems)%nat) /\
      alerts w' = alerts w /\
      is_Some (MappingDetailsPage.detailedData s').
Proof.
  unfold MappingDetailsPage.fetchAdditionalPages.
  induction systems as [|system systems IH]; intros w s Hset; cbn [for_each].
  - exists w, s. split; [reflexivity|]. split; [|split; [reflexivity | exact Hset]].
    exists []. rewrite app_nil_r. split; [reflexivity | simpl; lia].
  - unfold bind at 1.
    destruct (Js.truthy_str (Paged.next system.2)).
    + destruct (fetchAllPagesForSystem_post API_BASE_URL termName (Some system.1)
                  MappingDetailsPage.defaultMaxPages w s)
        as (c & w1 & s1 & Hrun & ((sent1 & Hreq1 & Hlen1) & Halert1 & Hdd1 & _) & _).
      unfold bind at 1. rewrite Hrun.
      unfold bind, get. cbn [fst snd].
      destruct Hset as [prev Hprev]. rewrite Hdd1, Hprev.
      unfold MappingDetailsPage.setDetailedData, modify. cbn [fst snd].
      match goal with
      | |- context [for_each systems ?f (?w2, ?s2)] =>
          destruct (IH w2 s2 ltac:(eexists; reflexivity))
            as (w' & s' & Hrun' & (sent2 & Hreq2 & Hlen2) & Halert2 & Hset')
      end.
      exists w', s'. split; [exact Hrun'|].
      split; [|split; [congruence | exact Hset']].
      exists (sent1 ++ sent2)%list. rewrite Hreq2, Hreq1, app_assoc, length_app.
      split; [reflexivity|].
      change (Z.to_nat MappingDetailsPage.defaultMaxPages) with 3%nat in Hlen1.
      simpl length. lia.
    + unfold ret. cbn [fst snd].
      destruct (IH w s Hset) as (w' & s' & Hrun' & (sent & Hreq & Hlen) & Halert & Hset').
      exists w', s'. split; [exact Hrun'|].
      split; [|split; assumption].
      exists sent. split; [exact Hreq|]. simpl length. lia.
Qed.

End DetailFacts.

(** C9, as stated, fails when the server sends more results on a page than
    the [page_size] asked for: three pages of 51 results are collected
    whole, 153 items where the claim allows [3 * 50]. *)
Lemma C9_counterexample_oversized_pages :
  let r := run (MappingDetailsPage.fetchAllPagesForSystem Js.ascii_runtime
                  Examples.oversized "http://api" "fever" (Some "ayurveda")
                  MappingDetailsPage.defaultMaxPages)
             world0 MappingDetailsPage.initial in
  length (requests (world_of r)) = 3%nat /\
  (Collected.count <$> returned (outcome r)) = Some 153 /\
  ~ (153 <= MappingDetailsPage.defaultMaxPages * MappingDetailsPage.detailPageSize).
Proof.
  cbv zeta. split; [vm_compute; reflexivity|]. split; [vm_compute; reflexivity|].
  unfold MappingDetailsPage.defaultMaxPages, MappingDetailsPage.detailPageSize. lia.
Qed.

(** C9, amended. For every term, system and page limit, whatever the
    server answers and however many pages it announces through [next], the
    page-fetching loop of the detail aggregator returns normally after at
    most [maxPages] requests (three by default).  The list it returns has
    at most [maxPages * pageSize] items provided that no page the server
    sends, and no page already in the cache, carries more than [pageSize]
    results: the client keeps every page whole. *)
Theorem C9_page_loop_is_bounded :
  forall (rt : Js.Runtime) (server : Server Item.t)
         (baseUrl searchTerm : string) (system : option string) (maxPages : Z)
         (w : World) (s : MappingDetailsPage.State),
  exists (c : Collected.t) (w' : World) (s' : MappingDetailsPage.State),
    run (MappingDetailsPage.fetchAllPagesForSystem rt server baseUrl searchTerm
           system maxPages) w s = (Return c, (w', s')) /\
    (exists sent : list string,
        requests w' = (requests w ++ sent)%list /\
        (length sent <= Z.to_nat maxPages)%nat) /\
    Collected.count c = Z.of_nat (length (Collected.results c)) /\
    forall pageSize : nat,
      honours_page_size server pageSize ->
      MappingDetailsPage.cache_within (MappingDetailsPage.apiCache s) pageSize ->
      (length (Collected.results c) <= Z.to_nat maxPages * pageSize)%nat.
Proof.
  intros rt server baseUrl searchTerm system maxPages w s.
  destruct (fetchAllPagesForSystem_post rt server baseUrl searchTerm system maxPages w s)
    as (c & w' & s' & Hrun & ((sent & Hreq & Hsent) & _) & Hcount & Hlen).
  exists c, w', s'. split; [exact Hrun|].
  split; [exists sent; split; assumption|].
  split; [exact Hcount | exact Hlen].
Qed.

(** Against a server with endless full pages of fifty, the default limit
    stops the loop after three requests and 150 items. *)
Lemma C9_page_loop_witness :
  exists (c : Collected.t) (w' : World) (s' : MappingDetailsPage.State),
    run (MappingDetailsPage.fetchAllPagesForSystem Js.ascii_runtime Examples.endless
           "http://api" "fever" (Some "ayurveda") MappingDetailsPage.defaultMaxPages)
      world0 MappingDetailsPage.initial = (Return c, (w', s')) /\
    (length (requests w') <= 3)%nat /\
    (length (Collected.results c) <= 150)%nat.
Proof.
  destruct (C9_page_loop_is_bounded Js.ascii_runtime Examples.endless
              "http://api" "fever" (Some "ayurveda") MappingDetailsPage.defaultMaxPages
              world0 MappingDetailsPage.initial)
    as (c & w' & s' & Hrun & (sent & Hreq & Hsent) & _ & Hlen).
  exists c, w', s'. split; [exact Hrun|]. split.
  - rewrite Hreq. simpl. exact Hsent.
  - apply (Hlen 50%nat).
    + intros history url status d [= _ <-].
      unfold results_length, Examples.page_of, get_results, results, default,
        from_option, id.
      rewrite length_fmap, length_seqZ. reflexivity.
    + intros url d Hd.
      cbn [MappingDetailsPage.apiCache MappingDetailsPage.initial] in Hd.
      rewrite lookup_empty in Hd. discriminate.
Defined.

Example page_loop_endless :
  let r := run (MappingDetailsPage.fetchAllPagesForSystem Js.ascii_runtime
                  Examples.endless "http://api" "fever" (Some "ayurveda")
                  MappingDetailsPage.defaultMaxPages)
             world0 MappingDetailsPage.initial in
  requests (world_of r) =
  [ "http://api/terminologies/ayurveda/search/?q=fever&threshold=0.2&page=1&page_size=50";
    "http://api/terminologies/ayurveda/search/?q=fever&threshold=0.2&page=2&page_size=50";
    "http://api/terminologies/ayurveda/search/?q=fever&threshold=0.2&page=3&page_size=50" ] /\
  (Collected.count <$> returned (outcome r)) = Some 150.
Proof. vm_compute. split; reflexivity. Qed.

(** ** Failed suggestion requests *)

Section FailedSuggestions.
Variable rt : Js.Runtime.
Variable API_BASE_URL : string.
Variable server : Server Item.t.
Variable auto_server : Server string.

(** Search page: a failed suggestion request shows no dialog and leaves
    both lists as they were. *)
Lemma search_page_failed_suggestions (term : string) (w : World)
  (s : SearchPage.State) :
  (2 <= String.length term)%nat ->
  failed (server (requests w) (SearchPage.suggestionsUrl rt API_BASE_URL term)) = true ->
  let r := run (SearchPage.fetchSuggestions rt API_BASE_URL server term) w s in
  outcome r = Return tt /\
  alerts (world_of r) = alerts w /\
  SearchPage.suggestions (state_of r) = SearchPage.suggestions s /\
  SearchPage.recommendations (state_of r) = SearchPage.recommendations s.
Proof.
  intros Hlen Hfail. cbv zeta. unfold run.
  rewrite fetchSuggestions_long by exact Hlen.
  rewrite (reply_data_failed _ Hfail).
  unfold outcome, world_of, state_of. cbn.
  rewrite alerts_after_fetch. repeat split.
Qed.

(** Per-system page: a failed suggestion request shows no dialog and
    empties the lists. *)
Lemma system_page_failed_suggestions (system : SystemPage.SystemConfig)
  (term : string) (w : World) (s : SystemPage.State) :
  (2 <= String.length term)%nat ->
  failed (auto_server (requests w) (SystemPage.autocompleteUrl rt system term)) = true ->
  let r := run (SystemPage.fetchAllSuggestions rt auto_server system term) w s in
  outcome r = Return tt /\
  alerts (world_of r) = alerts w /\
  SystemPage.suggestions (state_of r) = [] /\
  SystemPage.allSuggestions (state_of r) = [] /\
  SystemPage.suggTotal (state_of r) = 0.
Proof.
  intros Hlen Hfail. cbv zeta. unfold run.
  rewrite fetchAllSuggestions_long by exact Hlen.
  rewrite (reply_data_failed _ Hfail).
  unfold outcome, world_of, state_of. cbn.
  rewrite alerts_after_fetch. repeat split.
Qed.

End FailedSuggestions.

(** C10, at the failing input. With one suggestion on screen and the
    server unreachable, fetching suggestions for "fever" on the search page
    returns normally and shows no dialog, but the stale suggestion is still
    in the list: the [catch] block that would empty it is never entered,
    because [fetchData] has already turned the failure into [null].  The
    per-system page, in the same situation, does empty its list. *)
Theorem C10_search_page_keeps_stale_suggestions :
  let r := run (SearchPage.fetchSuggestions Js.ascii_runtime "http://api"
                  Examples.offline "fever")
             world0 Examples.search_page_with_suggestions in
  let r' := run (SystemPage.fetchAllSuggestions Js.ascii_runtime Examples.offline
                   (SystemPage.systemData "http://api" SystemPage.ayurveda) "fever")
              world0 Examples.system_page_with_suggestions in
  outcome r = Return tt /\
  alerts (world_of r) = [] /\
  requests (world_of r) =
    ["http://api/terminologies/search/combined/?q=fever&fuzzy=true&threshold=0.4&page_size=8"] /\
  SearchPage.suggestions (state_of r) = [Examples.stale_suggestion] /\
  SearchPage.suggestions (state_of r) <> [] /\
  SystemPage.suggestions (state_of r') = [].
Proof.
  cbv zeta.
  destruct (search_page_failed_suggestions Js.ascii_runtime "http://api"
              Examples.offline "fever" world0 Examples.search_page_with_suggestions
              ltac:(simpl; lia) eq_refl) as (Hret & Halert & Hsugg & _).
  destruct (system_page_failed_suggestions Js.ascii_runtime Examples.offline
              (SystemPage.systemData "http://api" SystemPage.ayurveda) "fever" world0
              Examples.system_page_with_suggestions ltac:(simpl; lia) eq_refl)
    as (_ & _ & Hsugg' & _).
  split; [exact Hret|]. split; [exact Halert|]. split; [reflexivity|].
  split; [exact Hsugg|]. split; [rewrite Hsugg; discriminate | exact Hsugg'].
Qed.

(** ** Failed list requests, component by component *)

Section FailedLists.
Variable rt : Js.Runtime.
Variable API_BASE : string.
Variable server : Server Item.t.

(** System-results page: the effect's [get] never throws; a failure puts
    [{ results: [], count: 0 }] into [data]. *)
Lemma system_results_get_run (system searchTerm : string) (w : World)
  (s : SystemResultsPage.State) :
  let url := SystemResultsPage.searchUrl rt API_BASE system searchTerm in
  let reply := server (requests w) url in
  SystemResultsPage.get_ rt API_BASE server system searchTerm (w, s) =
  (Return tt,
   (after_fetch server "e" w url,
    SystemResultsPage.mkState
      (if failed reply then empty_results_count0 else reply_data reply)
      false (SystemResultsPage.currentPage s))).
Proof.
  cbv zeta.
  unfold SystemResultsPage.get_, SystemResultsPage.setIsLoading,
    SystemResultsPage.setData, after_fetch, try_finally, try_catch, bind, fetch,
    json, modify, console_error, throw, ret, failed, reply_data.
  cbn [fst snd SystemResultsPage.data SystemResultsPage.isLoading
       SystemResultsPage.currentPage requests console alerts].
  destruct (server (requests w) _) as [|status [d|]]; cbn; try reflexivity;
    destruct ((200 <=? status) && (status <=? 299)); reflexivity.
Qed.

(** Per-system page: [handleSearch] never throws; a failure leaves the
    empty array in [results]. *)
Lemma system_page_handleSearch_run (system : SystemPage.SystemConfig)
  (w : World) (s : SystemPage.State) :
  String.eqb (Js.trim rt (SystemPage.searchTerm s)) "" = false ->
  let url := SystemPage.searchEp system +:+
             Js.encodeURIComponent rt (SystemPage.searchTerm s) in
  let res :=
    match reply_data (server (requests w) url) with
    | DObject rs => default [] (results rs)
    | DArray items => items
    | DNull => []
    end in
  SystemPage.handleSearch rt server system (w, s) =
  (Return tt,
   (after_fetch server "fetch error" w url,
    SystemPage.mkState (SystemPage.searchTerm s) res false 1
      (SystemPage.suggPage s) (SystemPage.uploading s)
      (SystemPage.currentUser s) (SystemPage.userChecked s)
      (SystemPage.suggestions s) false (SystemPage.suggTotal s)
      (SystemPage.suggLoading s) (SystemPage.suggTotalPages s)
      (SystemPage.allSuggestions s) (SystemPage.fileInputClicks s))).
Proof.
  intros Hb. cbv zeta. unfold SystemPage.handleSearch.
  system_page_step. rewrite Hb.
  system_page_step. rewrite system_fetchData_run. system_page_step.
  reflexivity.
Qed.

(** Detail page: a failed request for a page that is not cached yields the
    empty page [{ results: [], count: 0, next: null, previous: null }]. *)
Lemma fetchPaginatedData_failed (baseUrl searchTerm : string)
  (system : option string) (page pageSize : Z) (url : string)
  (w : World) (s : MappingDetailsPage.State) :
  MappingDetailsPage.pagedUrl rt baseUrl searchTerm system page pageSize = Some url ->
  MappingDetailsPage.apiCache s !! url = None ->
  failed (server (requests w) url) = true ->
  MappingDetailsPage.fetchPaginatedData rt server baseUrl searchTerm system page
    pageSize (w, s) =
  (Return Paged.empty, (after_fetch server "Error fetching data:" w url, s)).
Proof.
  intros Hurl Hcache Hfail.
  unfold MappingDetailsPage.fetchPaginatedData. rewrite Hurl.
  unfold after_fetch. rewrite Hfail.
  unfold MappingDetailsPage.fetchData, try_catch, bind, get, fetch, json,
    MappingDetailsPage.setCache, modify, console_error, throw, ret.
  cbn [fst snd]. rewrite Hcache. cbv beta iota zeta. cbn [fst snd].
  destruct (server (requests w) url) as [|status [d|]] eqn:Hreply; cbn.
  - reflexivity.
  - rewrite (failed_not_ok _ _ Hfail). reflexivity.
  - destruct ((200 <=? status) && (status <=? 299)); reflexivity.
Qed.

End FailedLists.





(** ** Upload gate *)

Section UploadGate.

(** [isAdmin] holds exactly for the one fixed identity. *)
Lemma isAdmin_iff (currentUser : option SystemPage.User) :
  SystemPage.isAdmin currentUser = true <->
  currentUser ≫= SystemPage.displayName = Some "root" /\
  currentUser ≫= SystemPage.email = Some "root@gmail.com".
Proof.
  unfold SystemPage.isAdmin.
  destruct (currentUser ≫= SystemPage.displayName) as [n|];
    destruct (currentUser ≫= SystemPage.email) as [e|].
  - rewrite andb_true_iff, !String.eqb_eq.
    split; intros [Hn He]; split; congruence.
  - rewrite andb_false_r. split; [discriminate | intros [_ [=]]].
  - cbn. split; [discriminate | intros [[=] _]].
  - cbn. split; [discriminate | intros [[=] _]].
Qed.

(** The admin is logged in. *)
Lemma isAdmin_isLoggedIn (currentUser : option SystemPage.User) :
  SystemPage.isAdmin currentUser = true -> SystemPage.isLoggedIn currentUser = true.
Proof.
  destruct currentUser; [reflexivity|]. unfold SystemPage.isAdmin. cbn. discriminate.
Qed.

(** The three classes of the icon, by state. *)
Lemma upload_icon_class (s : SystemPage.State) :
  SystemPage.getUploadIconClass s =
  if negb (SystemPage.userChecked s) || SystemPage.uploading s
  then "upload-icon checking"
  else if SystemPage.isAdmin (SystemPage.currentUser s)
       then "upload-icon"
       else "upload-icon disabled".
Proof.
  unfold SystemPage.getUploadIconClass.
  destruct (negb (SystemPage.userChecked s) || SystemPage.uploading s); [reflexivity|].
  destruct (SystemPage.isAdmin (SystemPage.currentUser s)) eqn:Hadmin.
  - rewrite (isAdmin_isLoggedIn _ Hadmin). reflexivity.
  - rewrite orb_true_r. reflexivity.
Qed.

End UploadGate.

(** C6, as stated, fails while an upload is running: the admin is signed
    in, yet the control carries the class ["upload-icon checking"], not the
    enabled ["upload-icon"]. *)
Lemma C6_counterexample_admin_while_uploading :
  let s := Examples.root_uploading in
  SystemPage.currentUser s ≫= SystemPage.displayName = Some "root" /\
  SystemPage.currentUser s ≫= SystemPage.email = Some "root@gmail.com" /\
  SystemPage.renderUpload (SystemPage.systemData "http://api" SystemPage.ayurveda) s =
    Some (SystemPage.mkControl "upload-icon checking" "Upload CSV to update database") /\
  SystemPage.getUploadIconClass s <> "upload-icon".
Proof. cbv zeta. repeat split; discriminate. Qed.

(** C6, amended. On a page whose system has a CSV endpoint (Ayurveda,
    Siddha and Unani have one), once the authentication state is known and
    while no upload is running, the upload control is rendered enabled if
    and only if the current user's display name is ["root"] and the email
    is ["root@gmail.com"]; for every other user, signed in or not, it is
    rendered disabled with a tooltip that says why.  While the
    authentication state is still being checked, or an upload is running,
    the control is rendered in a third state, ["upload-icon checking"], for
    every user.  Whatever the state, the enabled class is shown only to
    that user, and a click opens the file picker if and only if the
    authentication state is known and the user is that user; otherwise the
    click shows a dialog and opens nothing. *)
Theorem C6_upload_gate :
  forall (API_BASE : string) (systemName : SystemPage.SystemName)
         (w : World) (s : SystemPage.State),
    let system := SystemPage.systemData API_BASE systemName in
    let root :=
      SystemPage.currentUser s ≫= SystemPage.displayName = Some "root" /\
      SystemPage.currentUser s ≫= SystemPage.email = Some "root@gmail.com" in
    let click := run SystemPage.handleFilePick w s in
    (SystemPage.csvEp system <> None ->
     SystemPage.userChecked s = true ->
     SystemPage.uploading s = false ->
     exists control : SystemPage.UploadControl,
       SystemPage.renderUpload system s = Some control /\
       (SystemPage.className control = "upload-icon" <-> root) /\
       (~ root ->
        SystemPage.className control = "upload-icon disabled" /\
        (SystemPage.tooltip control = "Please log in to upload files" \/
         SystemPage.tooltip control = "Only admin can upload files"))) /\
    (SystemPage.getUploadIconClass s = "upload-icon" -> root) /\
    (SystemPage.fileInputClicks (state_of click) = S (SystemPage.fileInputClicks s) <->
     SystemPage.userChecked s = true /\ root) /\
    (~ (SystemPage.userChecked s = true /\ root) ->
     SystemPage.fileInputClicks (state_of click) = SystemPage.fileInputClicks s /\
     exists msg : string, alerts (world_of click) = (alerts w ++ [msg])%list) /\
    (SystemPage.csvEp system <> None ->
     SystemPage.userChecked s = false \/ SystemPage.uploading s = true ->
     exists control : SystemPage.UploadControl,
       SystemPage.renderUpload system s = Some control /\
       SystemPage.className control = "upload-icon checking") /\
    (SystemPage.csvEp system <> None <->
     systemName = SystemPage.ayurveda \/ systemName = SystemPage.siddha \/
     systemName = SystemPage.unani) /\
    (SystemPage.csvEp system = None -> SystemPage.renderUpload system s = None).
Proof.
  intros API_BASE systemName w s system root click.
  assert (Hroot : SystemPage.isAdmin (SystemPage.currentUser s) = true <-> root)
    by apply isAdmin_iff.
  refine (conj _ (conj _ (conj _ (conj _ (conj _ (conj _ _)))))).
  - intros Hcsv Hchecked Hidle.
    unfold SystemPage.renderUpload.
    destruct (SystemPage.csvEp system); [|congruence].
    eexists. split; [reflexivity|]. cbn [SystemPage.className SystemPage.tooltip].
    rewrite upload_icon_class. unfold SystemPage.getUploadIconTitle.
    rewrite Hchecked, Hidle. cbn [negb orb].
    destruct (SystemPage.isAdmin (SystemPage.currentUser s)) eqn:Hadmin.
    + split; [split; [intros _; apply Hroot; reflexivity | reflexivity]|].
      intros Hnot. exfalso. apply Hnot, Hroot. reflexivity.
    + split.
      * split; [discriminate|]. intros Hr. apply Hroot in Hr. discriminate.
      * intros _. split; [reflexivity|].
        destruct (SystemPage.isLoggedIn (SystemPage.currentUser s)); cbn; auto.
  - rewrite upload_icon_class.
    destruct (negb _ || _); [discriminate|].
    destruct (SystemPage.isAdmin (SystemPage.currentUser s)); [|discriminate].
    intros _. apply Hroot. reflexivity.
  - subst click. unfold run, SystemPage.handleFilePick. system_page_step.
    destruct (SystemPage.userChecked s); cbn [negb].
    2: { cbn. split; [lia | intros [? _]; discriminate]. }
    destruct (SystemPage.isAdmin (SystemPage.currentUser s)) eqn:Hadmin.
    + rewrite (isAdmin_isLoggedIn _ Hadmin). cbn.
      split; [intros _; split; [reflexivity | apply Hroot; reflexivity] | reflexivity].
    + destruct (SystemPage.isLoggedIn (SystemPage.currentUser s)); cbn;
        (split; [lia | intros [_ Hr]; apply Hroot in Hr; discriminate]).
  - intros Hnot. subst click. unfold run, SystemPage.handleFilePick. system_page_step.
    destruct (SystemPage.userChecked s); cbn [negb].
    2: { cbn. split; [reflexivity | eexists; reflexivity]. }
    destruct (SystemPage.isAdmin (SystemPage.currentUser s)) eqn:Hadmin.
    + exfalso. apply Hnot. split; [reflexivity | apply Hroot; reflexivity].
    + destruct (SystemPage.isLoggedIn (SystemPage.currentUser s)); cbn;
        (split; [reflexivity | eexists; reflexivity]).
  - intros Hcsv Hbusy. unfold SystemPage.renderUpload.
    destruct (SystemPage.csvEp system); [|congruence].
    eexists. split; [reflexivity|]. cbn [SystemPage.className].
    unfold SystemPage.getUploadIconClass.
    destruct Hbusy as [-> | ->]; [reflexivity|].
    rewrite orb_true_r. reflexivity.
  - subst system. destruct systemName; cbn [SystemPage.systemData SystemPage.csvEp];
      split; try (intros _; auto; fail); try discriminate; try congruence;
      intros [H | [H | H]]; discriminate.
  - intros Hnone. unfold SystemPage.renderUpload. rewrite Hnone. reflexivity.
Qed.

(** The admin, signed in and idle, on the Ayurveda page: the control is
    enabled and a click opens the file picker. *)
Lemma C6_upload_gate_witness :
  (exists control : SystemPage.UploadControl,
      SystemPage.renderUpload (SystemPage.systemData "http://api" SystemPage.ayurveda)
        Examples.root_idle = Some control /\
      SystemPage.className control = "upload-icon") /\
  SystemPage.fileInputClicks
    (state_of (run SystemPage.handleFilePick world0 Examples.root_idle)) = 1%nat.
Proof.
  destruct (C6_upload_gate "http://api" SystemPage.ayurveda world0 Examples.root_idle)
    as (Hrender & _ & Hclick & _).
  split.
  - destruct (Hrender ltac:(discriminate) eq_refl eq_refl)
      as (control & Hctl & Hclass & _).
    exists control. split; [exact Hctl|]. apply Hclass. split; reflexivity.
  - apply Hclick. repeat split.
Defined.
Example upload_gate_for_a_visitor :
  SystemPage.renderUpload (SystemPage.systemData "http://api" SystemPage.unani)
    Examples.system_page_with_suggestions =
  Some (SystemPage.mkControl "upload-icon disabled" "Please log in to upload files") /\
  SystemPage.renderUpload (SystemPage.systemData "http://api" SystemPage.icd11)
    Examples.root_idle = None.
Proof. split; reflexivity. Qed.

(* ===================================================================== *)
(** * Further properties of the search page *)
(* ===================================================================== *)

Section SearchViewFacts.

Lemma toggled_keeps_exclusive (strategy : string) (prev : SearchPage.Strategy) :
  SearchPage.fuzzy prev && SearchPage.fullText prev = false ->
  SearchPage.fuzzy (SearchView.toggled strategy prev) &&
  SearchPage.fullText (SearchView.toggled strategy prev) = false.
Proof.
  unfold SearchView.toggled.
  destruct prev as [[] []]; cbn; try discriminate;
    destruct (String.eqb strategy "fuzzy"); cbn; try reflexivity;
    destruct (String.eqb strategy "fullText"); reflexivity.
Qed.

Lemma toggles_run (clicks : list string) :
  forall (w : World) (s : SearchPage.State),
    run (for_each clicks SearchView.toggleSearchStrategy) w s =
    (Return tt,
     (w, SearchPage.mkState (SearchPage.searchTerm s) (SearchPage.selectedSystem s)
           (SearchPage.minConfidence s) (SearchPage.results s)
           (SearchPage.isSearching s) (SearchPage.hasSearched s)
           (SearchPage.suggestions s) (SearchPage.showSuggestions s)
           (SearchPage.recommendations s)
           (fold_left (fun st click => SearchView.toggled click st) clicks
              (SearchPage.searchStrategy s))
           (SearchPage.loadingProgress s))).
Proof.
  unfold run. induction clicks as [|click clicks IH]; intros w s; cbn [for_each fold_left].
  - destruct s; reflexivity.
  - unfold bind at 1. unfold SearchView.toggleSearchStrategy at 1, modify.
    cbn [fst snd]. rewrite IH. reflexivity.
Qed.

Lemma fold_toggled_exclusive (clicks : list string) :
  forall st : SearchPage.Strategy,
    SearchPage.fuzzy st && SearchPage.fullText st = false ->
    let final := fold_left (fun st click => SearchView.toggled click st) clicks st in
    SearchPage.fuzzy final && SearchPage.fullText final = false.
Proof.
  induction clicks as [|click clicks IH]; intros st Hst; cbn; [exact Hst|].
  apply IH, toggled_keeps_exclusive, Hst.
Qed.

End SearchViewFacts.

Section SearchEventFacts.
Variable rt : Js.Runtime.
Variable API_BASE_URL : string.
Variable server : Server Item.t.

(** The filters effect never throws and leaves the strategies alone. *)
Lemma searchEffect_keeps_strategy (w : World) (s : SearchPage.State) :
  exists (w' : World) (s' : SearchPage.State),
    SearchView.searchEffect rt API_BASE_URL server (w, s) = (Return tt, (w', s')) /\
    SearchPage.searchStrategy s' = SearchPage.searchStrategy s.
Proof.
  unfold SearchView.searchEffect. unfold bind at 1, get. cbn [fst snd].
  destruct (SearchPage.hasSearched s); cbn [negb]; [|exists w, s; split; reflexivity].
  destruct (String.eqb (SearchPage.searchTerm s) "" ||
            String.eqb (Js.trim rt (SearchPage.searchTerm s)) "") eqn:Hblank;
    [exists w, s; split; reflexivity|].
  unfold spawn.
  rewrite (performSearch_run rt API_BASE_URL server _ _ _ w s Hblank).
  eexists _, _. split; reflexivity.
Qed.

(** Clicks and effect runs, in any order. *)
Lemma events_keep_exclusive (events : list SearchEvents.Event) :
  forall (w : World) (s : SearchPage.State),
    SearchPage.fuzzy (SearchPage.searchStrategy s) &&
    SearchPage.fullText (SearchPage.searchStrategy s) = false ->
    exists (w' : World) (s' : SearchPage.State),
      for_each events (SearchEvents.handle rt API_BASE_URL server) (w, s) =
        (Return tt, (w', s')) /\
      SearchPage.fuzzy (SearchPage.searchStrategy s') &&
      SearchPage.fullText (SearchPage.searchStrategy s') = false.
Proof.
  induction events as [|event events IH]; intros w s Hs; cbn [for_each].
  - exists w, s. split; [reflexivity | exact Hs].
  - unfold bind at 1. destruct event as [strategy|]; cbn [SearchEvents.handle].
    + unfold SearchView.toggleSearchStrategy at 1, modify at 1. cbn [fst snd].
      apply IH. cbn [SearchPage.searchStrategy].
      apply toggled_keeps_exclusive, Hs.
    + destruct (searchEffect_keeps_strategy w s) as (w1 & s1 & Hrun & Hsame).
      rewrite Hrun. apply IH. rewrite Hsame. exact Hs.
Qed.

End SearchEventFacts.

(** X1. The two search strategies are never on together: from a state in
    which at most one is on (the initial state has only fuzzy on), any
    sequence of clicks on the strategy buttons, interleaved in any way with
    runs of the filters effect that those clicks trigger (and which runs the
    search again once a search has been made), leaves at most one on.  The
    click handler on its own changes [searchStrategy] and nothing else, and
    sends nothing; and a click that switches one strategy on always leaves
    the other off. *)
Theorem X1_strategies_stay_exclusive :
  forall (rt : Js.Runtime) (API_BASE_URL : string) (server : Server Item.t)
         (events : list SearchEvents.Event) (w : World) (s : SearchPage.State),
    SearchPage.fuzzy (SearchPage.searchStrategy s) &&
    SearchPage.fullText (SearchPage.searchStrategy s) = false ->
    let r := run (for_each events (SearchEvents.handle rt API_BASE_URL server)) w s in
    let final := SearchPage.searchStrategy (state_of r) in
    outcome r = Return tt /\
    SearchPage.fuzzy final && SearchPage.fullText final = false /\
    (forall strategy : string,
        run (SearchView.toggleSearchStrategy strategy) w s =
        (Return tt,
         (w, SearchPage.mkState (SearchPage.searchTerm s) (SearchPage.selectedSystem s)
               (SearchPage.minConfidence s) (SearchPage.results s)
               (SearchPage.isSearching s) (SearchPage.hasSearched s)
               (SearchPage.suggestions s) (SearchPage.showSuggestions s)
               (SearchPage.recommendations s)
               (SearchView.toggled strategy (SearchPage.searchStrategy s))
               (SearchPage.loadingProgress s)))) /\
    (forall prev : SearchPage.Strategy,
        (SearchPage.fuzzy (SearchView.toggled "fuzzy" prev) = true ->
         SearchPage.fuzzy prev = false /\
         SearchPage.fullText (SearchView.toggled "fuzzy" prev) = false) /\
        (SearchPage.fullText (SearchView.toggled "fullText" prev) = true ->
         SearchPage.fullText prev = false /\
         SearchPage.fuzzy (SearchView.toggled "fullText" prev) = false)).
Proof.
  intros rt API_BASE_URL server events w s Hs r final. subst final r. unfold run.
  destruct (events_keep_exclusive rt API_BASE_URL server events w s Hs)
    as (w' & s' & Hrun & Hfinal).
  rewrite Hrun. unfold outcome, state_of. cbn [fst snd].
  split; [reflexivity|]. split; [exact Hfinal|]. split; [reflexivity|].
  intros prev. split.
  - destruct prev as [[] []]; cbn; intros H; split; congruence.
  - destruct prev as [[] []]; cbn; intros H; split; congruence.
Qed.

(** Both buttons clicked in turn, with the effect running in between, on a
    page that has searched. *)
Lemma X1_strategies_witness :
  let r := run (for_each
                  [SearchEvents.Click "fullText"; SearchEvents.FiltersEffect;
                   SearchEvents.Click "fuzzy"; SearchEvents.Click "fuzzy"]
                  (SearchEvents.handle Js.ascii_runtime "http://api" Examples.offline))
             world0 SearchExamples.searched_page in
  let final := SearchPage.searchStrategy (state_of r) in
  outcome r = Return tt /\
  SearchPage.fuzzy final && SearchPage.fullText final = false.
Proof.
  destruct (X1_strategies_stay_exclusive Js.ascii_runtime "http://api"
              Examples.offline
              [SearchEvents.Click "fullText"; SearchEvents.FiltersEffect;
               SearchEvents.Click "fuzzy"; SearchEvents.Click "fuzzy"]
              world0 SearchExamples.searched_page eq_refl)
    as (Hret & Hfinal & _).
  split; [exact Hret | exact Hfinal].
Defined.

(** X2. The sources of a search do not influence one another: if two
    servers answer the request of one source alike, that source's part of
    [results] is the same in both searches, whatever the two servers do
    with the other four requests. *)
Theorem X2_search_sources_are_independent :
  forall (rt : Js.Runtime) (API_BASE_URL : string)
         (server1 server2 : Server Item.t)
         (term system : string) (confidence : Q)
         (w : World) (s : SearchPage.State),
    String.eqb term "" || String.eqb (Js.trim rt term) "" = false ->
    let strategy := SearchPage.searchStrategy s in
    let u1 := SearchPage.buildSearchUrl rt API_BASE_URL strategy term "combined" in
    let u2 := SearchPage.buildSearchUrl rt API_BASE_URL strategy term "icd11" in
    let u3 := SearchPage.systemUrl rt API_BASE_URL "ayurveda" term in
    let u4 := SearchPage.systemUrl rt API_BASE_URL "unani" term in
    let u5 := SearchPage.systemUrl rt API_BASE_URL "siddha" term in
    let h := requests w in
    let r1 := run (SearchPage.performSearch rt API_BASE_URL server1 term system
                     confidence) w s in
    let r2 := run (SearchPage.performSearch rt API_BASE_URL server2 term system
                     confidence) w s in
    requests (world_of r1) = requests (world_of r2) /\
    (server1 h u1 = server2 h u1 ->
     SearchPage.results_at (state_of r1) "combined" =
       SearchPage.results_at (state_of r2) "combined" /\
     SearchPage.results_at (state_of r1) "mappingResults" =
       SearchPage.results_at (state_of r2) "mappingResults") /\
    (server1 (h ++ [u1])%list u2 = server2 (h ++ [u1])%list u2 ->
     SearchPage.results_at (state_of r1) "icd11" =
       SearchPage.results_at (state_of r2) "icd11") /\
    (server1 (h ++ [u1; u2])%list u3 = server2 (h ++ [u1; u2])%list u3 ->
     SearchPage.results_at (state_of r1) "ayurveda" =
       SearchPage.results_at (state_of r2) "ayurveda") /\
    (server1 (h ++ [u1; u2; u3])%list u4 = server2 (h ++ [u1; u2; u3])%list u4 ->
     SearchPage.results_at (state_of r1) "unani" =
       SearchPage.results_at (state_of r2) "unani") /\
    (server1 (h ++ [u1; u2; u3; u4])%list u5 = server2 (h ++ [u1; u2; u3; u4])%list u5 ->
     SearchPage.results_at (state_of r1) "siddha" =
       SearchPage.results_at (state_of r2) "siddha").
Proof.
  intros rt API_BASE_URL server1 server2 term system confidence w s Hb
    strategy u1 u2 u3 u4 u5 h r1 r2.
  subst r1 r2. unfold run. rewrite !performSearch_run by exact Hb.
  fold strategy u1 u2 u3 u4 u5.
  unfold state_of, world_of, SearchPage.results_at. cbn.
  rewrite !requests_after_fetch, <- !app_assoc. cbn. fold h.
  refine (conj eq_refl (conj _ (conj _ (conj _ (conj _ _))))); intros Heq;
    rewrite ?Heq;
    repeat first [ rewrite lookup_insert_eq | rewrite lookup_insert_ne by discriminate ];
    auto.
Qed.

(** Against an unreachable server and against one that always answers, the
    request lists agree. *)
Lemma X2_sources_witness :
  requests (world_of (run (SearchPage.performSearch Js.ascii_runtime "http://api"
                             Examples.offline "fever" "all" (1 # 10))
                        world0 SearchPage.initial)) =
  requests (world_of (run (SearchPage.performSearch Js.ascii_runtime "http://api"
                             (Examples.always Examples.combined_response) "fever"
                             "all" (1 # 10))
                        world0 SearchPage.initial)).
Proof.
  apply (X2_search_sources_are_independent Js.ascii_runtime "http://api"
           Examples.offline (Examples.always Examples.combined_response)
           "fever" "all" (1 # 10) world0 SearchPage.initial eq_refl).
Defined.

(** ** SearchPage.js: the loading flags while requests are in flight *)

Section SearchInFlightFacts.
Variable rt : Js.Runtime.
Variable API_BASE_URL : string.
Variable server : Server Item.t.

(** A callback of phase 3 up to its await. *)
Lemma callback_start_run (system : string * string) (w : World)
  (s : SearchPage.State) :
  SearchInFlight.callback_start system (w, s) =
  (Return tt,
   (sent w (snd system),
    SearchPage.mkState (SearchPage.searchTerm s) (SearchPage.selectedSystem s)
      (SearchPage.minConfidence s) (SearchPage.results s)
      (SearchPage.isSearching s) (SearchPage.hasSearched s)
      (SearchPage.suggestions s) (SearchPage.showSuggestions s)
      (SearchPage.recommendations s) (SearchPage.searchStrategy s)
      (<[fst system := true]> (SearchPage.loadingProgress s)))).
Proof. reflexivity. Qed.

(** The three callbacks started one after the other. *)
Lemma callbacks_start_run (term : string) (w : World) (s : SearchPage.State) :
  for_each (SearchPage.traditionalSystems rt API_BASE_URL term)
    SearchInFlight.callback_start (w, s) =
  (Return tt,
   (sent (sent (sent w (SearchPage.systemUrl rt API_BASE_URL "ayurveda" term))
            (SearchPage.systemUrl rt API_BASE_URL "unani" term))
      (SearchPage.systemUrl rt API_BASE_URL "siddha" term),
    SearchPage.mkState (SearchPage.searchTerm s) (SearchPage.selectedSystem s)
      (SearchPage.minConfidence s) (SearchPage.results s)
      (SearchPage.isSearching s) (SearchPage.hasSearched s)
      (SearchPage.suggestions s) (SearchPage.showSuggestions s)
      (SearchPage.recommendations s) (SearchPage.searchStrategy s)
      (<["siddha" := true]> (<["unani" := true]> (<["ayurveda" := true]>
         (SearchPage.loadingProgress s)))))).
Proof. reflexivity. Qed.

(** [performSearch] for a non-blank term, up to its return. *)
Lemma performSearch_until_return_run (term system : string) (confidence : Q)
  (w : World) (s : SearchPage.State) :
  String.eqb term "" || String.eqb (Js.trim rt term) "" = false ->
  let msg := "Error fetching data:" in
  let strategy := SearchPage.searchStrategy s in
  let u1 := SearchPage.buildSearchUrl rt API_BASE_URL strategy term "combined" in
  let u2 := SearchPage.buildSearchUrl rt API_BASE_URL strategy term "icd11" in
  let u3 := SearchPage.systemUrl rt API_BASE_URL "ayurveda" term in
  let u4 := SearchPage.systemUrl rt API_BASE_URL "unani" term in
  let u5 := SearchPage.systemUrl rt API_BASE_URL "siddha" term in
  let w1 := after_fetch server msg w u1 in
  let w2 := after_fetch server msg w1 u2 in
  let d1 := reply_data (server (requests w) u1) in
  let d2 := reply_data (server (requests w1) u2) in
  SearchInFlight.performSearch_until_return rt API_BASE_URL server term system
    confidence (w, s) =
  (Return tt,
   (sent (sent (sent w2 u3) u4) u5,
    SearchPage.mkState (SearchPage.searchTerm s) (SearchPage.selectedSystem s)
      (SearchPage.minConfidence s)
      (Some (<["icd11" := SearchPage.Slot (SearchPage.or_empty d2)]>
              (<["mappingResults" :=
                   SearchPage.Mappings (SearchPage.toMappingResults d1)]>
                (<["combined" := SearchPage.Slot (SearchPage.or_empty d1)]>
                  SearchPage.blank_results))))
      false true (SearchPage.suggestions s) (SearchPage.showSuggestions s)
      (SearchPage.recommendations s) (SearchPage.searchStrategy s)
      (<["siddha" := true]> (<["unani" := true]> (<["ayurveda" := true]>
        (<["icd11" := false]> (<["icd11" := true]>
          (<["combined" := false]> (<["combined" := true]>
            (SearchPage.loadingProgress s)))))))))).
Proof.
  intros Hb. cbv zeta. unfold SearchInFlight.performSearch_until_return. rewrite Hb.
  remember (for_each (SearchPage.traditionalSystems rt API_BASE_URL term)
              SearchInFlight.callback_start) as phase3 eqn:Hphase3.
  search_page_step.
  repeat (rewrite search_fetchData_run; search_page_step).
  subst phase3. rewrite callbacks_start_run.
  reflexivity.
Qed.


(** One callback resuming: it sends nothing, stores what arrived under its
    own key and switches its own flag off. *)
Lemma callback_resume_run (key : string) (reply : Reply Item.t) (w : World)
  (s : SearchPage.State) :
  SearchInFlight.callback_resume key reply (w, s) =
  (Return tt,
   ((if failed reply then logged w "Error fetching data:" else w),
    SearchPage.mkState (SearchPage.searchTerm s) (SearchPage.selectedSystem s)
      (SearchPage.minConfidence s)
      (SearchPage.spread_set (SearchPage.results s) key
         (SearchPage.Slot (SearchPage.or_empty (reply_data reply))))
      (SearchPage.isSearching s) (SearchPage.hasSearched s)
      (SearchPage.suggestions s) (SearchPage.showSuggestions s)
      (SearchPage.recommendations s) (SearchPage.searchStrategy s)
      (<[key := false]> (SearchPage.loadingProgress s)))).
Proof.
  unfold SearchInFlight.callback_resume, SearchInFlight.fetchData_resume,
    InFlight.arrive, failed, reply_data, json, throw.
  destruct reply as [|status [d|]]; search_page_step; try reflexivity;
    destruct ((200 <=? status) && (status <=? 299)); reflexivity.
Qed.

(** The requests in flight settling in any order: nothing is sent, and the
    flag of every system that has settled is off; the other flags are as
    they were. *)
Lemma settle_post (arrivals : list (string * Reply Item.t)) :
  forall (w : World) (s : SearchPage.State),
  exists (w' : World) (s' : SearchPage.State),
    SearchInFlight.settle arrivals (w, s) = (Return tt, (w', s')) /\
    requests w' = requests w /\
    alerts w' = alerts w /\
    SearchPage.isSearching s' = SearchPage.isSearching s /\
    SearchPage.hasSearched s' = SearchPage.hasSearched s /\
    SearchPage.searchStrategy s' = SearchPage.searchStrategy s /\
    (forall key : string,
        SearchPage.loadingProgress s' !! key =
        if bool_decide (key ∈ arrivals.*1) then Some false
        else SearchPage.loadingProgress s !! key) /\
    (forall key : string,
        key ∉ arrivals.*1 ->
        SearchPage.results_at s' key = SearchPage.results_at s key).
Proof.
  unfold SearchInFlight.settle.
  induction arrivals as [|[key reply] arrivals IH]; intros w s; cbn [for_each].
  - exists w, s. repeat split.
  - unfold bind at 1, spawn at 1. cbn [fst snd].
    rewrite callback_resume_run.
    match goal with
    | |- context [for_each _ _ (?w1, ?s1)] =>
        destruct (IH w1 s1)
          as (w' & s' & Hrun & Hreq & Hal & Hsearching & Hsearched & Hstrategy &
              Hflags & Hresults)
    end.
    rewrite Hrun. exists w', s'. split; [reflexivity|].
    cbn [SearchPage.isSearching SearchPage.hasSearched SearchPage.searchStrategy
         SearchPage.loadingProgress] in *.
    split; [rewrite Hreq; destruct (failed reply); reflexivity|].
    split; [rewrite Hal; destruct (failed reply); reflexivity|].
    split; [exact Hsearching|]. split; [exact Hsearched|]. split; [exact Hstrategy|].
    split.
    + intros k. rewrite Hflags. cbn [fmap list_fmap fst].
      destruct (bool_decide_reflect (k ∈ arrivals.*1)) as [Hin|Hout].
      * rewrite bool_decide_eq_true_2 by (apply elem_of_cons; right; exact Hin).
        reflexivity.
      * destruct (decide (k = key)) as [->|Hne].
        -- rewrite bool_decide_eq_true_2 by apply list_elem_of_here.
           apply lookup_insert_eq.
        -- rewrite bool_decide_eq_false_2
             by (intros Hk; apply elem_of_cons in Hk as [?|?]; contradiction).
           apply lookup_insert_ne. congruence.
    + intros k Hk. cbn [fmap list_fmap fst] in Hk.
      apply not_elem_of_cons in Hk as [Hne Hk].
      rewrite (Hresults k Hk). unfold SearchPage.results_at, SearchPage.spread_set.
      cbn [SearchPage.results mbind option_bind].
      rewrite lookup_insert_ne by congruence.
      destruct (SearchPage.results s); [reflexivity|].
      cbn. rewrite lookup_empty. reflexivity.
Qed.

(** The two embeddings of [performSearch] agree on the settled state: when
    the three requests in flight settle in array order with the server's
    answers, the world and the state are those that [SearchPage.performSearch]
    computes by running each callback to its end. *)
Lemma performSearch_settled (term system : string) (confidence : Q)
  (w : World) (s : SearchPage.State) :
  String.eqb term "" || String.eqb (Js.trim rt term) "" = false ->
  let strategy := SearchPage.searchStrategy s in
  let u1 := SearchPage.buildSearchUrl rt API_BASE_URL strategy term "combined" in
  let u2 := SearchPage.buildSearchUrl rt API_BASE_URL strategy term "icd11" in
  let u3 := SearchPage.systemUrl rt API_BASE_URL "ayurveda" term in
  let u4 := SearchPage.systemUrl rt API_BASE_URL "unani" term in
  let u5 := SearchPage.systemUrl rt API_BASE_URL "siddha" term in
  let h := (requests w ++ [u1; u2])%list in
  SearchPage.performSearch rt API_BASE_URL server term system confidence (w, s) =
  (SearchInFlight.performSearch_until_return rt API_BASE_URL server term system
     confidence ;;;
   SearchInFlight.settle
     [("ayurveda", server h u3);
      ("unani", server (h ++ [u3])%list u4);
      ("siddha", server (h ++ [u3; u4])%list u5)])%prog (w, s).
Proof.
  intros Hb. cbv zeta.
  rewrite (performSearch_run rt API_BASE_URL server term system confidence w s Hb).
  unfold bind at 1.
  rewrite (performSearch_until_return_run term system confidence w s Hb).
  cbv zeta. unfold SearchInFlight.settle. cbn [for_each fst snd].
  (unfold bind at 1, spawn at 1; rewrite callback_resume_run;
  cbn [fst snd SearchPage.searchStrategy SearchPage.results
       SearchPage.loadingProgress SearchPage.searchTerm
       SearchPage.selectedSystem SearchPage.minConfidence
       SearchPage.isSearching SearchPage.hasSearched SearchPage.suggestions
       SearchPage.recommendations SearchPage.showSuggestions]).
  (unfold bind at 1, spawn at 1; rewrite callback_resume_run;
  cbn [fst snd SearchPage.searchStrategy SearchPage.results
       SearchPage.loadingProgress SearchPage.searchTerm
       SearchPage.selectedSystem SearchPage.minConfidence
       SearchPage.isSearching SearchPage.hasSearched SearchPage.suggestions
       SearchPage.recommendations SearchPage.showSuggestions]).
  (unfold bind at 1, spawn at 1; rewrite callback_resume_run;
  cbn [fst snd SearchPage.searchStrategy SearchPage.results
       SearchPage.loadingProgress SearchPage.searchTerm
       SearchPage.selectedSystem SearchPage.minConfidence
       SearchPage.isSearching SearchPage.hasSearched SearchPage.suggestions
       SearchPage.recommendations SearchPage.showSuggestions]).
  unfold ret.
  set (u3 := SearchPage.systemUrl rt API_BASE_URL "ayurveda" term).
  set (u4 := SearchPage.systemUrl rt API_BASE_URL "unani" term).
  set (u5 := SearchPage.systemUrl rt API_BASE_URL "siddha" term).
  set (w2 := after_fetch server "Error fetching data:"
               (after_fetch server "Error fetching data:" w _) _).
  assert (Hh : (requests w ++
                [SearchPage.buildSearchUrl rt API_BASE_URL (SearchPage.searchStrategy s)
                   term "combined";
                 SearchPage.buildSearchUrl rt API_BASE_URL (SearchPage.searchStrategy s)
                   term "icd11"])%list = requests w2).
  { subst w2. rewrite !requests_after_fetch, <- app_assoc. reflexivity. }
  rewrite Hh. clearbody w2 u3 u4 u5. clear Hh.
  (rewrite !requests_after_fetch, <- !app_assoc). cbn [app].
  set (r3 := server (requests w2) u3).
  set (r4 := server (requests w2 ++ [u3])%list u4).
  set (r5 := server (requests w2 ++ [u3; u4])%list u5).
  assert (Hw : after_fetch server "Error fetching data:"
                 (after_fetch server "Error fetching data:"
                    (after_fetch server "Error fetching data:" w2 u3) u4) u5 =
               (if failed r5
                then logged
                       (if failed r4
                        then logged
                               (if failed r3
                                then logged (sent (sent (sent w2 u3) u4) u5)
                                       "Error fetching data:"
                                else sent (sent (sent w2 u3) u4) u5)
                               "Error fetching data:"
                        else if failed r3
                             then logged (sent (sent (sent w2 u3) u4) u5)
                                    "Error fetching data:"
                             else sent (sent (sent w2 u3) u4) u5)
                       "Error fetching data:"
                else if failed r4
                     then logged
                            (if failed r3
                             then logged (sent (sent (sent w2 u3) u4) u5)
                                    "Error fetching data:"
                             else sent (sent (sent w2 u3) u4) u5)
                            "Error fetching data:"
                     else if failed r3
                          then logged (sent (sent (sent w2 u3) u4) u5)
                                 "Error fetching data:"
                          else sent (sent (sent w2 u3) u4) u5)).
  { unfold after_fetch at 3. fold r3.
    destruct (failed r3); unfold after_fetch at 2;
      cbn [requests logged sent]; fold r4;
      destruct (failed r4); unfold after_fetch;
      cbn [requests logged sent]; rewrite <- ?app_assoc; cbn [app]; fold r5;
      destruct (failed r5); reflexivity. }
  rewrite Hw. clear Hw.
  f_equal. f_equal. unfold SearchPage.spread_set. cbn [default from_option].
  f_equal.
  apply map_eq. intros key.
  destruct (decide (key = "siddha")) as [->|Hs]; [by simplify_map_eq|].
  destruct (decide (key = "unani")) as [->|Hu]; [by simplify_map_eq|].
  destruct (decide (key = "ayurveda")) as [->|Ha]; [by simplify_map_eq|].
  repeat match goal with
         | |- context [(<[?k := ?v]> ?m) !! key] =>
             rewrite (lookup_insert_ne m k key v) by congruence
         end.
  reflexivity.
Qed.

End SearchInFlightFacts.

(** X3. The loading flags follow the requests.  When [performSearch]
    returns for a non-blank term (its combined and ICD-11 requests have
    settled, with bodies of the documented shape), all five requests have
    been sent, [isSearching] is off, [hasSearched] is on and the flags of
    combined and icd11 are off; the flags of ayurveda, unani and siddha are
    still on and their results still empty, their requests being in flight.
    From then on, as those requests settle, in any order and however each
    of them ends, nothing more is sent, and the flag of a system is off
    once its request has settled and on for as long as it has not: a
    request that never settles leaves its flag on for good. *)
Theorem X3_loading_flags_follow_the_requests :
  forall (rt : Js.Runtime) (API_BASE_URL : string) (server : Server Item.t)
         (term system : string) (confidence : Q)
         (w : World) (s : SearchPage.State)
         (arrivals : list (string * Reply Item.t)),
    String.eqb term "" || String.eqb (Js.trim rt term) "" = false ->
    let strategy := SearchPage.searchStrategy s in
    let u1 := SearchPage.buildSearchUrl rt API_BASE_URL strategy term "combined" in
    let u2 := SearchPage.buildSearchUrl rt API_BASE_URL strategy term "icd11" in
    let u3 := SearchPage.systemUrl rt API_BASE_URL "ayurveda" term in
    let u4 := SearchPage.systemUrl rt API_BASE_URL "unani" term in
    let u5 := SearchPage.systemUrl rt API_BASE_URL "siddha" term in
    let returned :=
      run (SearchInFlight.performSearch_until_return rt API_BASE_URL server term
             system confidence) w s in
    let later :=
      run (SearchInFlight.settle arrivals) (world_of returned) (state_of returned) in
    (* when [performSearch] returns *)
    (outcome returned = Return tt /\
     requests (world_of returned) = (requests w ++ [u1; u2; u3; u4; u5])%list /\
     SearchPage.isSearching (state_of returned) = false /\
     SearchPage.hasSearched (state_of returned) = true /\
     (forall key : string,
         key ∈ ["combined"; "icd11"] ->
         SearchPage.loadingProgress (state_of returned) !! key = Some false) /\
     (forall key : string,
         key ∈ ["ayurveda"; "unani"; "siddha"] ->
         SearchPage.loadingProgress (state_of returned) !! key = Some true /\
         SearchPage.results_at (state_of returned) key =
           Some (SearchPage.Slot (DObject (mkResultSet (Some []) None None None))))) /\
    (* after the requests of [arrivals] have settled *)
    (outcome later = Return tt /\
     requests (world_of later) = requests (world_of returned) /\
     SearchPage.isSearching (state_of later) = false /\
     (forall key : string,
         key ∈ ["combined"; "icd11"] ->
         SearchPage.loadingProgress (state_of later) !! key = Some false) /\
     (forall key : string,
         key ∈ ["ayurveda"; "unani"; "siddha"] ->
         SearchPage.loadingProgress (state_of later) !! key =
           Some (negb (bool_decide (key ∈ arrivals.*1))))).
Proof.
  intros rt API_BASE_URL server term system confidence w s arrivals Hterm
    strategy u1 u2 u3 u4 u5 returned later.
  subst later returned. unfold run.
  rewrite (performSearch_until_return_run rt API_BASE_URL server term system
             confidence w s Hterm).
  cbv zeta. fold strategy. fold u1 u2 u3 u4 u5.
  unfold outcome, world_of, state_of. cbn [fst snd].
  match goal with
  | |- context [SearchInFlight.settle arrivals (?w1, ?s1)] =>
      set (w_ret := w1); set (s_ret := s1)
  end.
  assert (Hflags_ret :
            (forall key : string,
                key ∈ ["combined"; "icd11"] ->
                SearchPage.loadingProgress s_ret !! key = Some false) /\
            (forall key : string,
                key ∈ ["ayurveda"; "unani"; "siddha"] ->
                SearchPage.loadingProgress s_ret !! key = Some true /\
                SearchPage.results_at s_ret key =
                  Some (SearchPage.Slot
                          (DObject (mkResultSet (Some []) None None None))))).
  { subst s_ret. unfold SearchPage.results_at.
    cbn [SearchPage.loadingProgress SearchPage.results mbind option_bind].
    split; intros key Hkey;
      repeat (apply elem_of_cons in Hkey as [->|Hkey]);
      try (apply elem_of_nil in Hkey; contradiction);
      try split;
      repeat (rewrite lookup_insert_ne by discriminate);
      try (rewrite lookup_insert_eq; reflexivity);
      reflexivity. }
  destruct Hflags_ret as [Hdone Hflying].
  split.
  - split; [reflexivity|]. split.
    { subst w_ret. cbn [requests sent].
      rewrite !requests_after_fetch, <- !app_assoc. reflexivity. }
    split; [reflexivity|]. split; [reflexivity|]. split; assumption.
  - destruct (settle_post arrivals w_ret s_ret)
      as (w' & s' & Hrun & Hreq & _ & Hsearching & _ & _ & Hflags & _).
    rewrite Hrun. cbn [fst snd].
    split; [reflexivity|]. split; [exact Hreq|]. split; [exact Hsearching|].
    split.
    + intros key Hkey. rewrite Hflags, (Hdone key Hkey).
      destruct (bool_decide _); reflexivity.
    + intros key Hkey. rewrite Hflags. destruct (Hflying key Hkey) as [-> _].
      destruct (bool_decide _); reflexivity.
Qed.

(** Offline: ayurveda has failed, unani and siddha have not answered yet. *)
Lemma X3_loading_flags_witness :
  let returned :=
    run (SearchInFlight.performSearch_until_return Js.ascii_runtime "http://api"
           Examples.offline "fever" "all" (1 # 10)) world0 SearchPage.initial in
  let later :=
    run (SearchInFlight.settle [("ayurveda", NetworkFailure)])
      (world_of returned) (state_of returned) in
  SearchPage.isSearching (state_of returned) = false /\
  SearchPage.loadingProgress (state_of returned) !! "ayurveda" = Some true /\
  SearchPage.loadingProgress (state_of later) !! "ayurveda" = Some false /\
  SearchPage.loadingProgress (state_of later) !! "siddha" = Some true.
Proof.
  destruct (X3_loading_flags_follow_the_requests Js.ascii_runtime "http://api"
              Examples.offline "fever" "all" (1 # 10) world0 SearchPage.initial
              [("ayurveda", NetworkFailure)] eq_refl)
    as ((_ & _ & Hsearching & _ & _ & Hflying) & (_ & _ & _ & _ & Hlater)).
  split; [exact Hsearching|].
  split; [apply (Hflying "ayurveda"), list_elem_of_here|].
  split.
  - rewrite (Hlater "ayurveda") by apply list_elem_of_here. reflexivity.
  - rewrite (Hlater "siddha")
      by (do 2 apply list_elem_of_further; apply list_elem_of_here).
    reflexivity.
Defined.

(** X4. When every request of a search fails, all five counts of the
    overview are zero, so is their total, and the results area shows the
    "No results found" message. *)
Theorem X4_failed_search_shows_no_results :
  forall (rt : Js.Runtime) (API_BASE_URL : string) (server : Server Item.t)
         (term system : string) (confidence : Q)
         (w : World) (s : SearchPage.State),
    String.eqb term "" || String.eqb (Js.trim rt term) "" = false ->
    (forall (history : list string) (url : string),
        failed (server history url) = true) ->
    let final :=
      state_of (run (SearchPage.performSearch rt API_BASE_URL server term system
                       confidence) w s) in
    SearchView.getResultCounts (SearchPage.results final) =
      SearchView.mkCounts 0 0 0 0 0 /\
    SearchView.totalResults (SearchView.getResultCounts (SearchPage.results final)) = 0 /\
    SearchView.resultsView final = SearchView.NoResultsMessage.
Proof.
  intros rt API_BASE_URL server term system confidence w s Hb Hdown final.
  subst final. unfold run. rewrite performSearch_run by exact Hb.
  unfold state_of. cbn [snd fst].
  rewrite !(reply_data_failed _ (Hdown _ _)).
  unfold SearchView.resultsView. cbn [SearchPage.results SearchPage.hasSearched
    SearchPage.isSearching].
  split; [vm_compute; reflexivity|]. split; vm_compute; reflexivity.
Qed.

Lemma X4_failed_search_witness :
  SearchView.resultsView
    (state_of (run (SearchPage.performSearch Js.ascii_runtime "http://api"
                      Examples.offline "fever" "all" (1 # 10))
                 world0 SearchPage.initial)) = SearchView.NoResultsMessage.
Proof.
  apply (X4_failed_search_shows_no_results Js.ascii_runtime "http://api"
           Examples.offline "fever" "all" (1 # 10) world0 SearchPage.initial eq_refl).
  intros history url. reflexivity.
Defined.

(** X5. After a search, whatever the combined endpoint answered, the
    "combined" count of the overview equals the number of rows of the
    mapping table. *)
Theorem X5_combined_count_is_mapping_rows :
  forall (rt : Js.Runtime) (API_BASE_URL : string) (server : Server Item.t)
         (term system : string) (confidence : Q)
         (w : World) (s : SearchPage.State),
    String.eqb term "" || String.eqb (Js.trim rt term) "" = false ->
    let final :=
      state_of (run (SearchPage.performSearch rt API_BASE_URL server term system
                       confidence) w s) in
    SearchView.mappingCount final =
    Some (SearchView.combined (SearchView.getResultCounts (SearchPage.results final))).
Proof.
  intros rt API_BASE_URL server term system confidence w s Hb final.
  subst final. unfold run. rewrite performSearch_run by exact Hb.
  unfold state_of, SearchView.mappingCount, SearchPage.results_at,
    SearchView.getResultCounts. cbn [snd fst SearchPage.results SearchView.combined].
  cbn [mbind option_bind].
  repeat first [ rewrite lookup_insert_eq | rewrite lookup_insert_ne by discriminate ].
  unfold SearchView.slot_results, SearchPage.toMappingResults, SearchPage.or_empty.
  destruct (reply_data _) as [|items|[[l|] c n p]]; cbn; try reflexivity.
  rewrite length_fmap. f_equal.
  destruct (Z.eqb_spec (Z.of_nat (length l)) 0) as [E|]; [rewrite E|]; reflexivity.
Qed.

Lemma X5_combined_count_witness :
  SearchView.mappingCount
    (state_of (run (SearchPage.performSearch Js.ascii_runtime "http://api"
                      (Examples.always Examples.combined_response) "fever" "all"
                      (1 # 10))
                 world0 SearchPage.initial)) = Some 2.
Proof.
  rewrite (X5_combined_count_is_mapping_rows Js.ascii_runtime "http://api"
             (Examples.always Examples.combined_response) "fever" "all" (1 # 10)
             world0 SearchPage.initial eq_refl).
  reflexivity.
Defined.

(** X6. The recommendations are always the first three suggestions: the
    relation holds initially and is kept by the suggestion fetcher (on
    every path: short input, success, failure), by the debounced suggestion
    effect and by a search.  While it holds there are at most three
    recommendations and the dropdown never shows its "Top Recommendations"
    list. *)
Theorem X6_recommendations_are_first_three :
  forall (rt : Js.Runtime) (API_BASE_URL : string) (server : Server Item.t)
         (term system : string) (confidence : Q)
         (w : World) (s : SearchPage.State),
    SearchPage.recommendations s = Js.slice (SearchPage.suggestions s) 0 3 ->
    let kept (s' : SearchPage.State) :=
      SearchPage.recommendations s' = Js.slice (SearchPage.suggestions s') 0 3 in
    kept (state_of (run (SearchPage.fetchSuggestions rt API_BASE_URL server term) w s)) /\
    kept (state_of (run (SearchPage.suggestionsEffect rt API_BASE_URL server) w s)) /\
    kept (state_of (run (SearchPage.performSearch rt API_BASE_URL server term system
                           confidence) w s)) /\
    (length (SearchPage.recommendations s) <= 3)%nat /\
    (forall shown : list Suggestion.t,
        SearchView.dropdown s <> SearchView.TopRecommendations shown).
Proof.
  intros rt API_BASE_URL server term system confidence w s Hkept kept.
  assert (Hfetch : forall t w0,
             kept (state_of (run (SearchPage.fetchSuggestions rt API_BASE_URL server t)
                               w0 s))).
  { intros t w0. subst kept. unfold run.
    destruct (Nat.lt_ge_cases (String.length t) 2) as [Hlen|Hlen].
    - rewrite fetchSuggestions_short by exact Hlen. reflexivity.
    - rewrite fetchSuggestions_long by exact Hlen.
      unfold state_of. cbn [snd SearchPage.suggestions SearchPage.recommendations].
      destruct (get_results _); [reflexivity | exact Hkept]. }
  refine (conj (Hfetch term w) (conj _ (conj _ (conj _ _)))).
  - subst kept. unfold run, SearchPage.suggestionsEffect. search_page_step.
    destruct (2 <=? String.length (SearchPage.searchTerm s))%nat.
    + specialize (Hfetch (SearchPage.searchTerm s) w). unfold run, state_of in Hfetch.
      destruct (SearchPage.fetchSuggestions _ _ _ _ _) as [o [w' s']].
      exact Hfetch.
    + reflexivity.
  - subst kept. unfold run.
    destruct (String.eqb term "" || String.eqb (Js.trim rt term) "") eqn:Hb.
    + rewrite performSearch_blank by exact Hb. exact Hkept.
    + rewrite performSearch_run by exact Hb. exact Hkept.
  - rewrite Hkept.
    assert (Hlen := slice_length (SearchPage.suggestions s) 0 3 ltac:(lia) ltac:(lia)).
    lia.
  - intros shown. unfold SearchView.dropdown.
    destruct (SearchPage.showSuggestions s && _); [|discriminate].
    destruct (default false _); [discriminate|].
    destruct (Nat.ltb_spec 0 (length (SearchPage.suggestions s))) as [|Hempty];
      [discriminate|].
    rewrite Hkept.
    destruct (SearchPage.suggestions s); [discriminate | simpl in Hempty; lia].
Qed.

Lemma X6_recommendations_witness :
  let s' := state_of (run (SearchPage.fetchSuggestions Js.ascii_runtime "http://api"
                             (Examples.always Examples.combined_response) "fever")
                        world0 SearchPage.initial) in
  SearchPage.recommendations s' = Js.slice (SearchPage.suggestions s') 0 3.
Proof.
  apply (X6_recommendations_are_first_three Js.ascii_runtime "http://api"
           (Examples.always Examples.combined_response) "fever" "all" (1 # 10)
           world0 SearchPage.initial eq_refl).
Defined.

(* ===================================================================== *)
(** * Further properties of the detail page *)
(* ===================================================================== *)

Section CacheFacts.
Variable server : Server Item.t.

(** A cached URL is answered from the cache. *)
Lemma details_fetchData_hit (url : string) (cached : Data Item.t)
  (w : World) (s : MappingDetailsPage.State) :
  MappingDetailsPage.apiCache s !! url = Some cached ->
  MappingDetailsPage.fetchData server url true (w, s) = (Return cached, (w, s)).
Proof.
  intros Hhit. unfold MappingDetailsPage.fetchData, bind, get. cbn [fst snd].
  rewrite Hhit. reflexivity.
Qed.

(** A URL that is not cached is requested; the body is cached when the
    request succeeds and the state is left alone when it fails. *)
Lemma details_fetchData_miss (url : string) (w : World) (s : MappingDetailsPage.State) :
  MappingDetailsPage.apiCache s !! url = None ->
  let reply := server (requests w) url in
  MappingDetailsPage.fetchData server url true (w, s) =
  (Return (reply_data reply),
   (after_fetch server "Error fetching data:" w url,
    if failed reply then s
    else MappingDetailsPage.mkState
           (<[url := reply_data reply]> (MappingDetailsPage.apiCache s))
           (MappingDetailsPage.detailedData s) (MappingDetailsPage.isLoading s)
           (MappingDetailsPage.loadedTerms s))).
Proof.
  intros Hmiss. cbv zeta.
  unfold MappingDetailsPage.fetchData, bind at 1, get. cbn [fst snd].
  rewrite Hmiss. unfold after_fetch, failed, reply_data.
  unfold try_catch, bind, fetch, json, MappingDetailsPage.setCache, modify,
    console_error, throw, ret. cbn [fst snd].
  destruct (server (requests w) url) as [|status [d|]]; cbn; try reflexivity;
    destruct ((200 <=? status) && (status <=? 299)); reflexivity.
Qed.

End CacheFacts.

(** X7. A body fetched once is served from the cache afterwards: after a
    successful [fetchData] of a URL that was not cached, any later
    [fetchData] of that URL returns the same body without sending a request
    and without changing the state, whatever the server would answer by
    then. *)
Theorem X7_fetched_body_is_served_from_cache :
  forall (server server' : Server Item.t) (url : string)
         (w w' : World) (s : MappingDetailsPage.State),
    MappingDetailsPage.apiCache s !! url = None ->
    failed (server (requests w) url) = false ->
    let first := run (MappingDetailsPage.fetchData server url true) w s in
    let again := run (MappingDetailsPage.fetchData server' url true) w' (state_of first) in
    requests (world_of first) = (requests w ++ [url])%list /\
    outcome first = Return (reply_data (server (requests w) url)) /\
    outcome again = outcome first /\
    world_of again = w' /\
    state_of again = state_of first.
Proof.
  intros server server' url w w' s Hmiss Hok first again.
  subst again first. unfold run.
  rewrite (details_fetchData_miss server url w s Hmiss). rewrite Hok.
  unfold state_of, outcome, world_of. cbn [fst snd].
  rewrite requests_after_fetch.
  erewrite details_fetchData_hit; [repeat split|].
  cbn. apply lookup_insert_eq.
Qed.

Lemma X7_cache_witness :
  let first := run (MappingDetailsPage.fetchData
                      (Examples.always Examples.combined_response) "http://api/x" true)
                 world0 MappingDetailsPage.initial in
  let again := run (MappingDetailsPage.fetchData Examples.offline "http://api/x" true)
                 world0 (state_of first) in
  outcome again = Return Examples.combined_response /\ requests (world_of again) = [].
Proof.
  destruct (X7_fetched_body_is_served_from_cache
              (Examples.always Examples.combined_response) Examples.offline
              "http://api/x" world0 world0 MappingDetailsPage.initial
              eq_refl eq_refl) as (_ & Hfirst & Hagain & Hworld & _).
  split; [rewrite Hagain, Hfirst; reflexivity | rewrite Hworld; reflexivity].
Defined.

(** X8. A failure is not cached: after a failed [fetchData] of a URL that
    was not cached the state is unchanged, and fetching the URL again sends
    a second request and returns what the server answers to that one. *)
Theorem X8_failure_is_not_cached :
  forall (server : Server Item.t) (url : string)
         (w : World) (s : MappingDetailsPage.State),
    MappingDetailsPage.apiCache s !! url = None ->
    failed (server (requests w) url) = true ->
    let first := run (MappingDetailsPage.fetchData server url true) w s in
    let again := run (MappingDetailsPage.fetchData server url true)
                   (world_of first) (state_of first) in
    outcome first = Return DNull /\
    state_of first = s /\
    requests (world_of again) = (requests w ++ [url; url])%list /\
    outcome again = Return (reply_data (server (requests w ++ [url])%list url)).
Proof.
  intros server url w s Hmiss Hfail first again.
  subst again first. unfold run.
  rewrite (details_fetchData_miss server url w s Hmiss). rewrite Hfail.
  unfold state_of, outcome, world_of. cbn [fst snd].
  rewrite (details_fetchData_miss server url _ s Hmiss). cbn [fst snd].
  rewrite !requests_after_fetch, <- app_assoc.
  rewrite (reply_data_failed _ Hfail). repeat split.
Qed.

Lemma X8_failure_witness :
  let first := run (MappingDetailsPage.fetchData Examples.offline "http://api/x" true)
                 world0 MappingDetailsPage.initial in
  let again := run (MappingDetailsPage.fetchData Examples.offline "http://api/x" true)
                 (world_of first) (state_of first) in
  requests (world_of again) = ["http://api/x"; "http://api/x"].
Proof.
  destruct (X8_failure_is_not_cached Examples.offline "http://api/x" world0
              MappingDetailsPage.initial eq_refl eq_refl) as (_ & _ & Hreq & _).
  exact Hreq.
Defined.

Section DetailFrame.
Variable rt : Js.Runtime.
Variable server : Server Item.t.

Lemma frame_refl (s : MappingDetailsPage.State) : DetailsPage.frame s s.
Proof. repeat split. Qed.

Lemma frame_trans (s1 s2 s3 : MappingDetailsPage.State) :
  DetailsPage.frame s1 s2 -> DetailsPage.frame s2 s3 -> DetailsPage.frame s1 s3.
Proof. intros (? & ? & ?) (? & ? & ?). repeat split; congruence. Qed.

(** The fetch helpers change nothing in the state but the cache. *)
Lemma details_fetchData_frame (url : string) (w : World) (s : MappingDetailsPage.State) :
  DetailsPage.frame s (state_of (run (MappingDetailsPage.fetchData server url true) w s)).
Proof.
  unfold run.
  destruct (MappingDetailsPage.apiCache s !! url) as [cached|] eqn:Hcache.
  - rewrite (details_fetchData_hit server url cached w s Hcache). apply frame_refl.
  - rewrite (details_fetchData_miss server url w s Hcache).
    unfold state_of. cbn [snd]. destruct (failed _); repeat split.
Qed.

Lemma fetchPaginatedData_frame (baseUrl searchTerm : string) (system : option string)
  (page pageSize : Z) (w : World) (s : MappingDetailsPage.State) :
  DetailsPage.frame s
    (state_of (run (MappingDetailsPage.fetchPaginatedData rt server baseUrl searchTerm
                      system page pageSize) w s)).
Proof.
  unfold run, MappingDetailsPage.fetchPaginatedData.
  destruct (MappingDetailsPage.pagedUrl rt baseUrl searchTerm system page pageSize)
    as [url|]; [|apply frame_refl].
  pose proof (details_fetchData_frame url w s) as Hframe. unfold run in Hframe.
  destruct (details_fetchData_post server url w s) as (data & w' & s' & Hrun & _).
  unfold try_catch, bind. rewrite Hrun in *.
  destruct (truthy data); exact Hframe.
Qed.

Lemma fetchAllPages_while_frame (baseUrl searchTerm : string)
  (system : option string) (maxPages pageSize : Z) :
  forall (n : nat) (l : MappingDetailsPage.Loop),
    (MappingDetailsPage.loop_variant maxPages l <= n)%nat ->
    forall (w : World) (s : MappingDetailsPage.State),
      DetailsPage.frame s
        (state_of (run (MappingDetailsPage.fetchAllPages_while rt server baseUrl
                          searchTerm system maxPages pageSize l) w s)).
Proof.
  unfold run.
  induction n as [|n IH]; intros l Hvar w s;
    rewrite fetchAllPages_while_unfold;
    unfold MappingDetailsPage.loop_cond;
    unfold MappingDetailsPage.loop_variant in Hvar;
    destruct (MappingDetailsPage.hasMore l) eqn:Hmore; try lia; cbn [andb];
    try apply frame_refl.
  destruct (Z.leb_spec (MappingDetailsPage.page l) maxPages) as [Hpage|Hpage];
    [|apply frame_refl].
  pose proof (fetchPaginatedData_frame baseUrl searchTerm system
                (MappingDetailsPage.page l) pageSize w s) as Hframe1.
  destruct (fetchPaginatedData_post rt server baseUrl searchTerm system
              (MappingDetailsPage.page l) pageSize w s)
    as (data & w1 & s1 & Hrun & _).
  unfold run in Hframe1. unfold bind. rewrite Hrun in *.
  eapply frame_trans; [exact Hframe1|].
  apply IH.
  unfold MappingDetailsPage.loop_variant, MappingDetailsPage.loop_body.
  destruct (negb _); cbn; [destruct (Js.truthy_str _)|]; lia.
Qed.

Lemma fetchAllPagesForSystem_frame (baseUrl searchTerm : string)
  (system : option string) (maxPages : Z) (w : World) (s : MappingDetailsPage.State) :
  DetailsPage.frame s
    (state_of (run (MappingDetailsPage.fetchAllPagesForSystem rt server baseUrl
                      searchTerm system maxPages) w s)).
Proof.
  pose proof (fetchAllPages_while_frame baseUrl searchTerm system maxPages
                MappingDetailsPage.detailPageSize _
                (MappingDetailsPage.mkLoop [] 1 true) (Nat.le_refl _) w s) as Hframe.
  unfold run in *. unfold MappingDetailsPage.fetchAllPagesForSystem, bind.
  destruct (fetchAllPages_while_post rt server baseUrl searchTerm system maxPages
              MappingDetailsPage.detailPageSize _
              (MappingDetailsPage.mkLoop [] 1 true) (Nat.le_refl _) w s)
    as (l' & w' & s' & Hrun & _).
  rewrite Hrun in *. exact Hframe.
Qed.

(** The background task changes [detailedData] and the cache only. *)
Lemma fetchAdditionalPages_frame (API_BASE_URL termName : string)
  (systems : list (string * Paged.t)) :
  forall (w : World) (s : MappingDetailsPage.State),
    is_Some (MappingDetailsPage.detailedData s) ->
    forall s' : MappingDetailsPage.State,
      s' = state_of (run (MappingDetailsPage.fetchAdditionalPages rt API_BASE_URL
                            server termName systems) w s) ->
      MappingDetailsPage.isLoading s' = MappingDetailsPage.isLoading s /\
      MappingDetailsPage.loadedTerms s' = MappingDetailsPage.loadedTerms s.
Proof.
  unfold run, MappingDetailsPage.fetchAdditionalPages.
  induction systems as [|system systems IH]; intros w s Hset s' Hs';
    cbn [for_each] in Hs'.
  - subst s'. split; reflexivity.
  - unfold bind at 1 in Hs'.
    destruct (Js.truthy_str (Paged.next system.2)).
    + pose proof (fetchAllPagesForSystem_frame API_BASE_URL termName (Some system.1)
                    MappingDetailsPage.defaultMaxPages w s) as (Hdd & Hload & Hterms).
      destruct (fetchAllPagesForSystem_post rt server API_BASE_URL termName
                  (Some system.1) MappingDetailsPage.defaultMaxPages w s)
        as (c & w1 & s1 & Hrun & _).
      unfold run in *. unfold bind at 1 in Hs'. rewrite Hrun in *.
      unfold state_of in Hdd, Hload, Hterms. cbn [snd] in Hdd, Hload, Hterms.
      unfold bind at 1 in Hs'. unfold get in Hs'. cbn [fst snd] in Hs'.
      destruct Hset as [prev Hprev]. rewrite Hdd, Hprev in Hs'.
      unfold MappingDetailsPage.setDetailedData, modify in Hs'. cbn [fst snd] in Hs'.
      match type of Hs' with
      | context [for_each systems ?f (?w2, ?s2)] =>
          destruct (IH w2 s2 ltac:(eexists; reflexivity) s' Hs') as (Hload' & Hterms')
      end.
      split; [rewrite Hload' | rewrite Hterms']; cbn; assumption.
    + unfold ret in Hs'. cbn [fst snd] in Hs'. exact (IH w s Hset s' Hs').
Qed.

End DetailFrame.

Section DetailFetch.
Variable rt : Js.Runtime.
Variable API_BASE_URL : string.
Variable server : Server Item.t.

(** One page fetch: its result, what it may send, and what it leaves alone. *)
Lemma fetchPaginatedData_full (baseUrl searchTerm : string) (system : option string)
  (page pageSize : Z) (w : World) (s : MappingDetailsPage.State) :
  exists (data : Paged.t) (w' : World) (s' : MappingDetailsPage.State),
    MappingDetailsPage.fetchPaginatedData rt server baseUrl searchTerm system page
      pageSize (w, s) = (Return data, (w', s')) /\
    (exists sent : list string,
        requests w' = (requests w ++ sent)%list /\ (length sent <= 1)%nat) /\
    alerts w' = alerts w /\
    DetailsPage.frame s s'.
Proof.
  pose proof (fetchPaginatedData_frame rt server baseUrl searchTerm system page
                pageSize w s) as Hframe.
  destruct (fetchPaginatedData_post rt server baseUrl searchTerm system page
              pageSize w s) as (data & w' & s' & Hrun & (Hsent & Halerts & _) & _).
  unfold run in Hframe. rewrite Hrun in Hframe.
  exists data, w', s'. split; [exact Hrun|]. split; [exact Hsent|].
  split; [exact Halerts | exact Hframe].
Qed.

(** Nothing happens for a missing or empty term, or one fetched before. *)
Lemma fetchDetailedData_skips (termName : option string) (w : World)
  (s : MappingDetailsPage.State) :
  match termName with
  | Some t => t = "" \/ t ∈ MappingDetailsPage.loadedTerms s
  | None => True
  end ->
  MappingDetailsPage.fetchDetailedData rt API_BASE_URL server termName (w, s) =
  (Return tt, (w, s)).
Proof.
  intros Hskip. unfold MappingDetailsPage.fetchDetailedData, bind, get. cbn [fst snd].
  destruct termName as [t|]; [|reflexivity].
  destruct Hskip as [->|Hin]; [reflexivity|].
  rewrite (bool_decide_eq_true_2 _ Hin), orb_true_r. reflexivity.
Qed.

(** A first fetch of a term: it returns normally, after at most twenty
    requests, with [detailedData] set, [isLoading] off and the term
    remembered. *)
Lemma fetchDetailedData_fetches (termName : string) (w : World)
  (s : MappingDetailsPage.State) :
  termName <> "" ->
  termName ∉ MappingDetailsPage.loadedTerms s ->
  exists (w' : World) (s' : MappingDetailsPage.State),
    MappingDetailsPage.fetchDetailedData rt API_BASE_URL server (Some termName) (w, s) =
      (Return tt, (w', s')) /\
    (exists sent : list string,
        requests w' = (requests w ++ sent)%list /\ (length sent <= 20)%nat) /\
    alerts w' = alerts w /\
    MappingDetailsPage.isLoading s' = false /\
    is_Some (MappingDetailsPage.detailedData s') /\
    MappingDetailsPage.loadedTerms s' = {[termName]} ∪ MappingDetailsPage.loadedTerms s.
Proof.
  intros Hne Hnew.
  unfold MappingDetailsPage.fetchDetailedData. unfold bind at 1, get. cbn [fst snd].
  apply String.eqb_neq in Hne. rewrite Hne, (bool_decide_eq_false_2 _ Hnew). cbn [orb].
  unfold bind at 1, MappingDetailsPage.setIsLoading at 1, modify at 1. cbn [fst snd].
  unfold bind at 1, MappingDetailsPage.addLoadedTerm, modify at 1. cbn [fst snd].
  unfold try_finally, try_catch.
  set (s0 := MappingDetailsPage.mkState _ _ _ _).
  assert (Hs0 : MappingDetailsPage.loadedTerms s0 =
                {[termName]} ∪ MappingDetailsPage.loadedTerms s) by reflexivity.
  clearbody s0.
  unfold bind at 1.
  destruct (fetchPaginatedData_full API_BASE_URL termName (Some "combined") 1 10 w s0)
    as (d1 & w1 & s1 & Hrun1 & (sent1 & Hreq1 & Hlen1) & Hal1 & (_ & _ & Ht1)).
  rewrite Hrun1. unfold bind at 1.
  destruct (fetchPaginatedData_full API_BASE_URL termName (Some "ayurveda") 1 10 w1 s1)
    as (d2 & w2 & s2 & Hrun2 & (sent2 & Hreq2 & Hlen2) & Hal2 & (_ & _ & Ht2)).
  rewrite Hrun2. unfold bind at 1.
  destruct (fetchPaginatedData_full API_BASE_URL termName (Some "unani") 1 10 w2 s2)
    as (d3 & w3 & s3 & Hrun3 & (sent3 & Hreq3 & Hlen3) & Hal3 & (_ & _ & Ht3)).
  rewrite Hrun3. unfold bind at 1.
  destruct (fetchPaginatedData_full API_BASE_URL termName (Some "siddha") 1 10 w3 s3)
    as (d4 & w4 & s4 & Hrun4 & (sent4 & Hreq4 & Hlen4) & Hal4 & (_ & _ & Ht4)).
  rewrite Hrun4. unfold bind at 1.
  destruct (fetchPaginatedData_full API_BASE_URL termName (Some "icd11") 1 10 w4 s4)
    as (d5 & w5 & s5 & Hrun5 & (sent5 & Hreq5 & Hlen5) & Hal5 & (_ & _ & Ht5)).
  rewrite Hrun5.
  unfold bind at 1, MappingDetailsPage.setDetailedData at 1, modify at 1. cbn [fst snd].
  unfold spawn.
  match goal with
  | |- context [MappingDetailsPage.fetchAdditionalPages _ _ _ _ ?systems (?w6, ?s6)] =>
      destruct (fetchAdditionalPages_post rt server API_BASE_URL termName systems
                  w6 s6 ltac:(eexists; reflexivity))
        as (w7 & s7 & Hrun7 & (sent7 & Hreq7 & Hlen7) & Hal7 & Hset7);
      destruct (fetchAdditionalPages_frame rt server API_BASE_URL termName systems
                  w6 s6 ltac:(eexists; reflexivity) s7) as (_ & Ht7);
      [unfold run; rewrite Hrun7; reflexivity|]
  end.
  rewrite Hrun7.
  unfold MappingDetailsPage.setIsLoading, modify. cbn [fst snd].
  eexists _, _. split; [reflexivity|].
  cbn [MappingDetailsPage.isLoading MappingDetailsPage.detailedData
       MappingDetailsPage.loadedTerms].
  split; [|split; [congruence|split; [reflexivity|split; [exact Hset7|]]]].
  - exists (sent1 ++ sent2 ++ sent3 ++ sent4 ++ sent5 ++ sent7)%list.
    rewrite Hreq7, Hreq5, Hreq4, Hreq3, Hreq2, Hreq1, <- !app_assoc.
    split; [reflexivity|]. rewrite !length_app. simpl in Hlen7. lia.
  - rewrite Ht7. cbn. congruence.
Qed.

End DetailFetch.

(** X9. Opening the detailed view of a term that has not been opened
    before never throws and never shows a dialog: after at most twenty
    requests (five first pages, then up to three pages for each source that
    has more) [detailedData] is set, [isLoading] is off and the term is
    remembered as loaded, whatever the server answers. *)
Theorem X9_detail_fetch_is_bounded :
  forall (rt : Js.Runtime) (API_BASE_URL : string) (server : Server Item.t)
         (termName : string) (w : World) (s : MappingDetailsPage.State),
    termName <> "" ->
    termName ∉ MappingDetailsPage.loadedTerms s ->
    let r := run (MappingDetailsPage.fetchDetailedData rt API_BASE_URL server
                    (Some termName)) w s in
    outcome r = Return tt /\
    (exists sent : list string,
        requests (world_of r) = (requests w ++ sent)%list /\
        (length sent <= 20)%nat) /\
    alerts (world_of r) = alerts w /\
    MappingDetailsPage.isLoading (state_of r) = false /\
    is_Some (MappingDetailsPage.detailedData (state_of r)) /\
    MappingDetailsPage.loadedTerms (state_of r) =
      {[termName]} ∪ MappingDetailsPage.loadedTerms s.
Proof.
  intros rt API_BASE_URL server termName w s Hne Hnew r. subst r. unfold run.
  destruct (fetchDetailedData_fetches rt API_BASE_URL server termName w s Hne Hnew)
    as (w' & s' & Hrun & Hrest).
  rewrite Hrun. split; [reflexivity | exact Hrest].
Qed.

Lemma X9_detail_fetch_witness :
  let r := run (MappingDetailsPage.fetchDetailedData Js.ascii_runtime "http://api"
                  Examples.endless (Some "fever")) world0 MappingDetailsPage.initial in
  outcome r = Return tt /\
  (length (requests (world_of r)) <= 20)%nat /\
  MappingDetailsPage.isLoading (state_of r) = false.
Proof.
  destruct (X9_detail_fetch_is_bounded Js.ascii_runtime "http://api" Examples.endless
              "fever" world0 MappingDetailsPage.initial ltac:(discriminate)
              ltac:(apply not_elem_of_empty))
    as (Hret & (sent & Hreq & Hlen) & _ & Hloading & _).
  split; [exact Hret|]. split; [|exact Hloading].
  rewrite Hreq. simpl. exact Hlen.
Defined.

(** X10. A term is fetched at most once: after [fetchDetailedData] has run
    for a term, running it again for the same term sends no request and
    changes nothing, whatever the first run received (even if every request
    of the first run failed) and whatever the server would answer now. *)
Theorem X10_detail_fetch_runs_once_per_term :
  forall (rt : Js.Runtime) (API_BASE_URL : string) (server server' : Server Item.t)
         (termName : option string) (w w' : World) (s : MappingDetailsPage.State),
    let first := run (MappingDetailsPage.fetchDetailedData rt API_BASE_URL server
                        termName) w s in
    run (MappingDetailsPage.fetchDetailedData rt API_BASE_URL server' termName)
      w' (state_of first) = (Return tt, (w', state_of first)).
Proof.
  intros rt API_BASE_URL server server' termName w w' s first. subst first.
  unfold run.
  destruct termName as [t|]; [|apply fetchDetailedData_skips; exact I].
  destruct (String.eqb_spec t "") as [->|Hne];
    [apply fetchDetailedData_skips; left; reflexivity|].
  destruct (decide (t ∈ MappingDetailsPage.loadedTerms s)) as [Hin|Hnew].
  - rewrite (fetchDetailedData_skips rt API_BASE_URL server (Some t) w s) by (right; exact Hin).
    apply fetchDetailedData_skips. right. exact Hin.
  - destruct (fetchDetailedData_fetches rt API_BASE_URL server t w s Hne Hnew)
      as (w1 & s1 & Hrun & _ & _ & _ & _ & Hterms).
    rewrite Hrun. apply fetchDetailedData_skips. right.
    unfold state_of. cbn [snd]. rewrite Hterms.
    apply elem_of_union_l, elem_of_singleton. reflexivity.
Qed.

Section DetailsPageFacts.
Variable rt : Js.Runtime.
Variable API_BASE_URL : string.
Variable server : Server Item.t.

(** A page fetched from inside the page component: only [core] changes. *)
Lemma on_core_fetchPaginatedData (searchTerm : string) (system : option string)
  (page pageSize : Z) (w : World) (s : DetailsPage.State) :
  exists (data : Paged.t) (w' : World) (core' : MappingDetailsPage.State),
    DetailsPage.on_core
      (MappingDetailsPage.fetchPaginatedData rt server API_BASE_URL searchTerm system
         page pageSize) (w, s) =
      (Return data,
       (w', DetailsPage.mkState core' (DetailsPage.allData s)
              (DetailsPage.isLoadingMore s) (DetailsPage.selectedResult s)
              (DetailsPage.loadingProgress s))) /\
    (exists sent : list string,
        requests w' = (requests w ++ sent)%list /\ (length sent <= 1)%nat) /\
    alerts w' = alerts w /\
    DetailsPage.frame (DetailsPage.core s) core'.
Proof.
  unfold DetailsPage.on_core. cbn [fst snd].
  destruct (fetchPaginatedData_full rt server API_BASE_URL searchTerm system page
              pageSize w (DetailsPage.core s))
    as (data & w' & core' & Hrun & Hsent & Halerts & Hframe).
  rewrite Hrun. exists data, w', core'. repeat split; try assumption; apply Hframe.
Qed.

(** [loadMoreResults] on a source that has a further page, with no other
    load in progress. *)
Lemma loadMoreResults_run (searchTerm : option string) (systemKey : string)
  (w : World) (s : DetailsPage.State) (cur : Source.t) :
  DetailsPage.allData s !! systemKey = Some cur ->
  Js.truthy_str (Source.next cur) = true ->
  DetailsPage.isLoadingMore s = false ->
  exists (newData : Paged.t) (w' : World) (core' : MappingDetailsPage.State),
    DetailsPage.loadMoreResults rt API_BASE_URL server searchTerm systemKey (w, s) =
      (Return tt,
       (w', DetailsPage.mkState core'
              (<[systemKey :=
                   Source.mk
                     (Source.results cur ++
                      (Source.FromSearch <$> Paged.results newData))
                     (Paged.count newData) (Paged.next newData) None
                     ((if Source.currentPage cur =? 0 then 1
                       else Source.currentPage cur) + 1)]> (DetailsPage.allData s))
              false (DetailsPage.selectedResult s) (DetailsPage.loadingProgress s))) /\
    (exists sent : list string,
        requests w' = (requests w ++ sent)%list /\ (length sent <= 1)%nat) /\
    alerts w' = alerts w /\
    DetailsPage.frame (DetailsPage.core s) core'.
Proof.
  intros Hcur Hnext Hidle.
  unfold DetailsPage.loadMoreResults. unfold bind at 1, get. cbn [fst snd].
  rewrite Hcur. cbn [mbind option_bind]. rewrite Hnext, Hidle. cbn [negb orb].
  unfold bind at 1, DetailsPage.setIsLoadingMore at 1, modify at 1. cbn [fst snd].
  unfold try_finally, try_catch.
  unfold bind at 1, get. cbn [fst snd DetailsPage.allData]. rewrite Hcur.
  unfold bind at 1.
  match goal with
  | |- context [DetailsPage.on_core
                  (MappingDetailsPage.fetchPaginatedData _ _ _ ?t ?sys ?p ?n) (?w0, ?s0)] =>
      destruct (on_core_fetchPaginatedData t sys p n w0 s0)
        as (newData & w' & core' & Hrun & Hsent & Halerts & Hframe)
  end.
  rewrite Hrun.
  unfold bind at 1, get. cbn [fst snd DetailsPage.allData]. rewrite Hcur.
  unfold DetailsPage.setAllData, DetailsPage.setIsLoadingMore, modify.
  cbn [fst snd DetailsPage.allData DetailsPage.core DetailsPage.isLoadingMore
       DetailsPage.selectedResult DetailsPage.loadingProgress].
  exists newData, w', core'. split; [reflexivity|].
  split; [exact Hsent|]. split; [exact Halerts | exact Hframe].
Qed.

End DetailsPageFacts.

Ltac details_page_step :=
  cbn [fst snd DetailsPage.core DetailsPage.allData DetailsPage.isLoadingMore
       DetailsPage.selectedResult DetailsPage.loadingProgress
       MappingDetailsPage.apiCache MappingDetailsPage.detailedData
       MappingDetailsPage.isLoading MappingDetailsPage.loadedTerms].

Tactic Notation "details_page_step" "in" hyp(H) :=
  cbn [fst snd DetailsPage.core DetailsPage.allData DetailsPage.isLoadingMore
       DetailsPage.selectedResult DetailsPage.loadingProgress
       MappingDetailsPage.apiCache MappingDetailsPage.detailedData
       MappingDetailsPage.isLoading MappingDetailsPage.loadedTerms] in H.

Section ProgressiveLoading.
Variable rt : Js.Runtime.
Variable API_BASE_URL : string.
Variable server : Server Item.t.

(** A failed request for the next page. *)
Lemma loadMoreResults_failed (searchTerm : option string) (systemKey url : string)
  (w : World) (s : DetailsPage.State) (cur : Source.t) :
  DetailsPage.allData s !! systemKey = Some cur ->
  Js.truthy_str (Source.next cur) = true ->
  DetailsPage.isLoadingMore s = false ->
  MappingDetailsPage.pagedUrl rt API_BASE_URL (default "undefined" searchTerm)
    (Some systemKey)
    ((if Source.currentPage cur =? 0 then 1 else Source.currentPage cur) + 1) 10 =
    Some url ->
  MappingDetailsPage.apiCache (DetailsPage.core s) !! url = None ->
  failed (server (requests w) url) = true ->
  DetailsPage.loadMoreResults rt API_BASE_URL server searchTerm systemKey (w, s) =
    (Return tt,
     (after_fetch server "Error fetching data:" w url,
      DetailsPage.mkState (DetailsPage.core s)
        (<[systemKey :=
             Source.mk (Source.results cur) 0 None None
               ((if Source.currentPage cur =? 0 then 1
                 else Source.currentPage cur) + 1)]> (DetailsPage.allData s))
        false (DetailsPage.selectedResult s) (DetailsPage.loadingProgress s))).
Proof.
  intros Hcur Hnext Hidle Hurl Hmiss Hfail.
  unfold DetailsPage.loadMoreResults. unfold bind at 1, get. cbn [fst snd].
  rewrite Hcur. cbn [mbind option_bind]. rewrite Hnext, Hidle. cbn [negb orb].
  unfold bind at 1, DetailsPage.setIsLoadingMore at 1, modify at 1. cbn [fst snd].
  unfold try_finally, try_catch.
  unfold bind at 1, get. cbn [fst snd DetailsPage.allData]. rewrite Hcur.
  unfold bind at 1, DetailsPage.on_core. cbn [fst snd DetailsPage.core].
  replace (if String.eqb systemKey "icd11" then "icd11" else systemKey)
    with systemKey by (destruct (String.eqb_spec systemKey "icd11"); congruence).
  rewrite (fetchPaginatedData_failed rt server _ _ _ _ _ url w _ Hurl Hmiss Hfail).
  unfold bind at 1, get.
  cbn [fst snd DetailsPage.allData DetailsPage.core DetailsPage.isLoadingMore
       DetailsPage.selectedResult DetailsPage.loadingProgress].
  rewrite Hcur.
  unfold DetailsPage.setAllData, DetailsPage.setIsLoadingMore, modify.
  cbn [fst snd DetailsPage.allData DetailsPage.core DetailsPage.isLoadingMore
       DetailsPage.selectedResult DetailsPage.loadingProgress Paged.results
       Paged.count Paged.next Paged.empty fmap list_fmap].
  rewrite app_nil_r. reflexivity.
Qed.

(** The guard of [loadMoreResults]. *)
Lemma loadMoreResults_skips (searchTerm : option string) (systemKey : string)
  (w : World) (s : DetailsPage.State) :
  Js.truthy_str (DetailsPage.allData s !! systemKey ≫= Source.next) = false \/
  DetailsPage.isLoadingMore s = true ->
  DetailsPage.loadMoreResults rt API_BASE_URL server searchTerm systemKey (w, s) =
    (Return tt, (w, s)).
Proof.
  intros Hskip. unfold DetailsPage.loadMoreResults, bind, get. cbn [fst snd].
  destruct Hskip as [-> | ->]; [reflexivity | rewrite orb_true_r; reflexivity].
Qed.

Lemma selection_step (selection : option Selected.t) (w : World)
  (s : DetailsPage.State) :
  match selection with
  | Some chosen => DetailsPage.setSelectedResult chosen
  | None => ret tt
  end (w, s) =
  (Return tt,
   (w, DetailsPage.mkState (DetailsPage.core s) (DetailsPage.allData s)
         (DetailsPage.isLoadingMore s)
         (match selection with
          | Some chosen => Some chosen
          | None => DetailsPage.selectedResult s
          end)
         (DetailsPage.loadingProgress s))).
Proof. destruct selection, s; reflexivity. Qed.

(** One callback of the [forEach] over the systems. *)
Lemma system_callback_run (random_id : string -> string) (term : string)
  (activeItem : option Carried.t) (system : string) (w : World)
  (s : DetailsPage.State) :
  exists (page : Paged.t) (w' : World) (core' : MappingDetailsPage.State),
    spawn
      (DetailsPage.setLoadingProgress (fun prev => <[system := true]> prev) ;;;
       systemData <- DetailsPage.on_core
         (MappingDetailsPage.fetchPaginatedData rt server API_BASE_URL term
            (Some system) 1 10) ;;
       DetailsPage.setAllData (fun prev =>
         <[system := DetailsPage.loaded_source (random_id system) activeItem system
                       systemData]> prev) ;;;
       DetailsPage.setLoadingProgress (fun prev => <[system := false]> prev))%prog
      (w, s) =
      (Return tt,
       (w', DetailsPage.mkState core'
              (<[system := DetailsPage.loaded_source (random_id system) activeItem
                             system page]> (DetailsPage.allData s))
              (DetailsPage.isLoadingMore s) (DetailsPage.selectedResult s)
              (<[system := false]> (<[system := true]>
                 (DetailsPage.loadingProgress s))))) /\
    (exists sent : list string,
        requests w' = (requests w ++ sent)%list /\ (length sent <= 1)%nat) /\
    alerts w' = alerts w /\
    DetailsPage.frame (DetailsPage.core s) core'.
Proof.
  unfold spawn. unfold bind at 1, DetailsPage.setLoadingProgress at 1, modify at 1.
  cbn [fst snd]. unfold bind at 1.
  match goal with
  | |- context [DetailsPage.on_core
                  (MappingDetailsPage.fetchPaginatedData _ _ _ ?t ?sys ?p ?n) (?w0, ?s0)] =>
      destruct (on_core_fetchPaginatedData rt API_BASE_URL server t sys p n w0 s0)
        as (page & w' & core' & Hrun & Hsent & Halerts & Hframe)
  end.
  rewrite Hrun.
  unfold bind, DetailsPage.setAllData, DetailsPage.setLoadingProgress, modify.
  cbn [fst snd DetailsPage.allData DetailsPage.core DetailsPage.isLoadingMore
       DetailsPage.selectedResult DetailsPage.loadingProgress].
  exists page, w', core'. split; [reflexivity|].
  split; [exact Hsent|]. split; [exact Halerts | exact Hframe].
Qed.

(** The progressive-loading effect for a non-empty search term: the pages it
    received and the state it leaves. *)
Lemma loadDataProgressively_run (random_id : string -> string) (term : string)
  (mapping item : option Carried.t) (systemType : option string)
  (w : World) (s : DetailsPage.State) :
  term <> "" ->
  exists (combined ayurveda unani siddha icd11 : Paged.t) (w' : World)
         (core' : MappingDetailsPage.State),
    let chosen :=
      DetailsPage.chooseActive mapping item systemType term combined
        (DetailsPage.selectedResult s) in
    let fallback (system : string) (page : Paged.t) :=
      DetailsPage.loaded_source (random_id system) (fst chosen) system page in
    DetailsPage.loadDataProgressively rt API_BASE_URL server random_id (Some term)
      mapping item systemType (w, s) =
      (Return tt,
       (w', DetailsPage.mkState core'
              (<["icd11" := fallback "icd11" icd11]>
                 (<["siddha" := fallback "siddha" siddha]>
                    (<["unani" := fallback "unani" unani]>
                       (<["ayurveda" := fallback "ayurveda" ayurveda]>
                          (<["combined" := DetailsPage.source_of combined 1]>
                             (DetailsPage.allData s))))))
              (DetailsPage.isLoadingMore s)
              (match snd chosen with
               | Some selection => Some selection
               | None => DetailsPage.selectedResult s
               end)
              (<["icd11" := false]> (<["icd11" := true]>
                 (<["siddha" := false]> (<["siddha" := true]>
                    (<["unani" := false]> (<["unani" := true]>
                       (<["ayurveda" := false]> (<["ayurveda" := true]>
                          (<["combined" := false]> (<["combined" := true]>
                             (DetailsPage.loadingProgress s))))))))))))) /\
    (exists sent : list string,
        requests w' = (requests w ++ sent)%list /\ (length sent <= 5)%nat) /\
    alerts w' = alerts w /\
    MappingDetailsPage.isLoading core' = false /\
    MappingDetailsPage.detailedData core' =
      MappingDetailsPage.detailedData (DetailsPage.core s) /\
    MappingDetailsPage.loadedTerms core' =
      MappingDetailsPage.loadedTerms (DetailsPage.core s).
Proof.
  intros Hne. unfold DetailsPage.loadDataProgressively.
  apply String.eqb_neq in Hne. rewrite Hne.
  unfold bind at 1, get. cbn [fst snd].
  unfold bind at 1, DetailsPage.on_core at 1, MappingDetailsPage.setIsLoading at 1,
    modify at 1. details_page_step.
  unfold bind at 1, DetailsPage.setLoadingProgress at 1, modify at 1.
  details_page_step. unfold bind at 1.
  match goal with
  | |- context [DetailsPage.on_core
                  (MappingDetailsPage.fetchPaginatedData _ _ _ ?t ?sys ?p ?n) (?w0, ?s0)] =>
      destruct (on_core_fetchPaginatedData rt API_BASE_URL server t sys p n w0 s0)
        as (combined & w1 & core1 & Hrun1 & (sent1 & Hreq1 & Hlen1) & Hal1 & Hfr1)
  end.
  rewrite Hrun1. details_page_step. unfold DetailsPage.frame in Hfr1. details_page_step in Hfr1.
  unfold bind at 1, DetailsPage.setAllData at 1, modify at 1. details_page_step.
  unfold bind at 1, DetailsPage.setLoadingProgress at 1, modify at 1.
  details_page_step. cbv zeta.
  unfold bind at 1. rewrite selection_step. details_page_step.
  set (active := fst (DetailsPage.chooseActive mapping item systemType term combined
                        (DetailsPage.selectedResult s))).
  unfold bind at 1. cbn [for_each]. unfold bind at 1.
  match goal with
  | |- context [spawn _ (?w0, ?s0)] =>
      destruct (system_callback_run random_id term active "ayurveda" w0 s0)
        as (ayurveda & w2 & core2 & Hrun2 & (sent2 & Hreq2 & Hlen2) & Hal2 & Hfr2)
  end.
  rewrite Hrun2. details_page_step. unfold DetailsPage.frame in Hfr2. details_page_step in Hfr2. unfold bind at 1.
  match goal with
  | |- context [spawn _ (?w0, ?s0)] =>
      destruct (system_callback_run random_id term active "unani" w0 s0)
        as (unani & w3 & core3 & Hrun3 & (sent3 & Hreq3 & Hlen3) & Hal3 & Hfr3)
  end.
  rewrite Hrun3. details_page_step. unfold DetailsPage.frame in Hfr3. details_page_step in Hfr3. unfold bind at 1.
  match goal with
  | |- context [spawn _ (?w0, ?s0)] =>
      destruct (system_callback_run random_id term active "siddha" w0 s0)
        as (siddha & w4 & core4 & Hrun4 & (sent4 & Hreq4 & Hlen4) & Hal4 & Hfr4)
  end.
  rewrite Hrun4. details_page_step. unfold DetailsPage.frame in Hfr4. details_page_step in Hfr4. unfold bind at 1.
  match goal with
  | |- context [spawn _ (?w0, ?s0)] =>
      destruct (system_callback_run random_id term active "icd11" w0 s0)
        as (icd11 & w5 & core5 & Hrun5 & (sent5 & Hreq5 & Hlen5) & Hal5 & Hfr5)
  end.
  rewrite Hrun5. details_page_step. unfold DetailsPage.frame in Hfr5. details_page_step in Hfr5.
  unfold ret at 1. unfold DetailsPage.on_core, MappingDetailsPage.setIsLoading, modify.
  details_page_step.
  exists combined, ayurveda, unani, siddha, icd11, w5. eexists.
  split; [reflexivity|]. details_page_step.
  destruct Hfr1 as (Hd1 & _ & Ht1), Hfr2 as (Hd2 & _ & Ht2), Hfr3 as (Hd3 & _ & Ht3),
    Hfr4 as (Hd4 & _ & Ht4), Hfr5 as (Hd5 & _ & Ht5).
  split; [|split; [congruence|split; [reflexivity|split; congruence]]].
  exists (sent1 ++ sent2 ++ sent3 ++ sent4 ++ sent5)%list.
  rewrite Hreq5, Hreq4, Hreq3, Hreq2, Hreq1, <- !app_assoc.
  split; [reflexivity|]. rewrite !length_app. lia.
Qed.


(** What a system's tab holds after the fallback. *)
Lemma loaded_source_rows (drawn : string) (activeItem : option Carried.t)
  (system : string) (page : Paged.t) :
  DetailsPage.loaded_source drawn activeItem system page = DetailsPage.source_of page 1 \/
  Paged.results page = [] /\ system <> "icd11" /\
  exists row : MappedRow.t,
    DetailsPage.mappedTerm drawn activeItem system = Some row /\
    DetailsPage.loaded_source drawn activeItem system page =
      Source.mk [Source.FromMapping row] 1 (Paged.next page) (Paged.previous page) 1.
Proof.
  unfold DetailsPage.loaded_source.
  destruct (Paged.results page) as [|first rest] eqn:Hrows; cbn [length Nat.eqb andb];
    [|left; reflexivity].
  destruct (String.eqb_spec system "icd11") as [->|Hsys]; cbn [negb];
    [left; reflexivity|].
  destruct (DetailsPage.mappedTerm drawn activeItem system) as [row|];
    [|left; reflexivity].
  right. split; [reflexivity|]. split; [exact Hsys|]. exists row. split; reflexivity.
Qed.

Lemma mappedTerm_carried (drawn : string) (a : Carried.t) (system : string) :
  is_Some (Carried.related a system) \/ is_Some (Carried.namaste a system) ->
  is_Some (DetailsPage.mappedTerm drawn (Some a) system) /\
  system ∈ ["ayurveda"; "unani"; "siddha"].
Proof.
  intros Hmapped. split.
  - unfold DetailsPage.mappedTerm.
    destruct (Carried.related a system) as [r|]; [eexists; reflexivity|].
    destruct Hmapped as [[r Hr]|[n Hn]]; [discriminate|].
    rewrite Hn. eexists; reflexivity.
  - unfold Carried.related, Carried.namaste in Hmapped.
    destruct (String.eqb system "ayurveda") eqn:Hay;
      [apply String.eqb_eq in Hay; subst system; apply elem_of_cons; left; reflexivity|].
    destruct (String.eqb system "siddha") eqn:Hsi;
      [apply String.eqb_eq in Hsi; subst system;
       do 2 (apply elem_of_cons; right); apply elem_of_cons; left; reflexivity|].
    destruct (String.eqb system "unani") eqn:Hun;
      [apply String.eqb_eq in Hun; subst system;
       apply elem_of_cons; right; apply elem_of_cons; left; reflexivity|].
    destruct (Carried.namaste_terms a);
      destruct Hmapped as [[? Hnone]|[? Hnone]]; discriminate.
Qed.

Lemma chooseActive_selected (mapping item : option Carried.t)
  (systemType : option string) (term : string) (combined : Paged.t)
  (sel : Selected.t) :
  DetailsPage.chooseActive mapping item systemType term combined (Some sel) =
  (Some (Selected.carried sel), None).
Proof.
  unfold DetailsPage.chooseActive.
  destruct (Paged.results combined), mapping, item; reflexivity.
Qed.

Lemma loaded_source_filled (drawn : string) (a : Carried.t) (system : string)
  (page : Paged.t) :
  is_Some (Carried.related a system) \/ is_Some (Carried.namaste a system) ->
  Source.results (DetailsPage.loaded_source drawn (Some a) system page) <> [].
Proof.
  intros Hmapped.
  destruct (mappedTerm_carried drawn a system Hmapped) as [[row Hrow] Hsystem].
  unfold DetailsPage.loaded_source.
  destruct (Paged.results page) as [|first rest] eqn:Hrows; cbn [length Nat.eqb andb].
  - assert (Hsys : String.eqb system "icd11" = false).
    { repeat (apply elem_of_cons in Hsystem as [->|Hsystem]);
        [..|apply elem_of_nil in Hsystem; contradiction]; reflexivity. }
    rewrite Hsys. cbn [negb]. rewrite Hrow. discriminate.
  - unfold DetailsPage.source_of. rewrite Hrows. discriminate.
Qed.

End ProgressiveLoading.


Ltac lookup_key :=
  repeat (rewrite lookup_insert_ne by discriminate);
  try rewrite lookup_insert_eq.

(** X11. "Load more" on a source that announces a further page, with no
    other load in progress, sends at most one request and never throws: the
    rows already shown stay in place as a prefix of the new list, the page
    number goes up by one, the other sources are untouched, and
    [isLoadingMore] is off again at the end. *)
Theorem X11_load_more_appends_one_page :
  forall (rt : Js.Runtime) (API_BASE_URL : string) (server : Server Item.t)
         (searchTerm : option string) (systemKey : string) (w : World)
         (s : DetailsPage.State) (cur : Source.t),
    DetailsPage.allData s !! systemKey = Some cur ->
    Js.truthy_str (Source.next cur) = true ->
    DetailsPage.isLoadingMore s = false ->
    let r := run (DetailsPage.loadMoreResults rt API_BASE_URL server searchTerm
                    systemKey) w s in
    outcome r = Return tt /\
    (exists sent : list string,
        requests (world_of r) = (requests w ++ sent)%list /\
        (length sent <= 1)%nat) /\
    alerts (world_of r) = alerts w /\
    DetailsPage.isLoadingMore (state_of r) = false /\
    (exists entry : Source.t,
        DetailsPage.allData (state_of r) !! systemKey = Some entry /\
        Source.results cur `prefix_of` Source.results entry /\
        Source.currentPage entry =
          (if Source.currentPage cur =? 0 then 1 else Source.currentPage cur) + 1) /\
    (forall other : string,
        other <> systemKey ->
        DetailsPage.allData (state_of r) !! other = DetailsPage.allData s !! other).
Proof.
  intros rt API_BASE_URL server searchTerm systemKey w s cur Hcur Hnext Hidle r.
  subst r. unfold run.
  destruct (loadMoreResults_run rt API_BASE_URL server searchTerm systemKey w s cur
              Hcur Hnext Hidle)
    as (newData & w' & core' & Hrun & Hsent & Halerts & _).
  rewrite Hrun. unfold outcome, world_of, state_of. details_page_step.
  split; [reflexivity|]. split; [exact Hsent|]. split; [exact Halerts|].
  split; [reflexivity|]. split.
  - eexists. split; [apply lookup_insert_eq|]. split; [|reflexivity].
    cbn [Source.results]. eexists; reflexivity.
  - intros other Hother. apply lookup_insert_ne. congruence.
Qed.


(** X12. When the request for the next page fails, "load more" still
    returns normally and keeps the rows shown, but it overwrites the
    source's total with 0 and forgets the further page: from then on "load
    more" does nothing for that source, whatever the server would answer. *)
Theorem X12_failed_load_more_ends_paging :
  forall (rt : Js.Runtime) (API_BASE_URL : string) (server server' : Server Item.t)
         (searchTerm : option string) (systemKey url : string) (w w' : World)
         (s : DetailsPage.State) (cur : Source.t),
    DetailsPage.allData s !! systemKey = Some cur ->
    Js.truthy_str (Source.next cur) = true ->
    DetailsPage.isLoadingMore s = false ->
    MappingDetailsPage.pagedUrl rt API_BASE_URL (default "undefined" searchTerm)
      (Some systemKey)
      ((if Source.currentPage cur =? 0 then 1 else Source.currentPage cur) + 1) 10 =
      Some url ->
    MappingDetailsPage.apiCache (DetailsPage.core s) !! url = None ->
    failed (server (requests w) url) = true ->
    let r := run (DetailsPage.loadMoreResults rt API_BASE_URL server searchTerm
                    systemKey) w s in
    outcome r = Return tt /\
    (exists entry : Source.t,
        DetailsPage.allData (state_of r) !! systemKey = Some entry /\
        Source.results entry = Source.results cur /\
        Source.count entry = 0 /\
        Source.next entry = None) /\
    run (DetailsPage.loadMoreResults rt API_BASE_URL server' searchTerm systemKey)
      w' (state_of r) = (Return tt, (w', state_of r)).
Proof.
  intros rt API_BASE_URL server server' searchTerm systemKey url w w' s cur
    Hcur Hnext Hidle Hurl Hmiss Hfail r.
  subst r. unfold run.
  rewrite (loadMoreResults_failed rt API_BASE_URL server searchTerm systemKey url w s
             cur Hcur Hnext Hidle Hurl Hmiss Hfail).
  unfold outcome, state_of. details_page_step.
  split; [reflexivity|]. split.
  - eexists. split; [apply lookup_insert_eq|]. repeat split.
  - apply loadMoreResults_skips. left. details_page_step.
    rewrite lookup_insert_eq. reflexivity.
Qed.

(** ** MappingDetailsPage.js: the loading flags while callbacks are in flight *)

Section DetailsInFlightFacts.
Variable rt : Js.Runtime.
Variable API_BASE_URL : string.
Variable server : Server Item.t.
Variable random_id : string -> string.

(** [fetchPaginatedData] up to its await: at most one request, no change
    of state. *)
Lemma fetchPaginatedData_start_post (baseUrl searchTerm : string)
  (system : option string) (page pageSize : Z) (w : World)
  (s : MappingDetailsPage.State) :
  exists (awaited : DetailsInFlight.Awaited) (w' : World),
    DetailsInFlight.fetchPaginatedData_start rt baseUrl searchTerm system page
      pageSize (w, s) = (Return awaited, (w', s)) /\
    (exists sent : list string,
        requests w' = (requests w ++ sent)%list /\ (length sent <= 1)%nat) /\
    alerts w' = alerts w.
Proof.
  unfold DetailsInFlight.fetchPaginatedData_start.
  destruct (MappingDetailsPage.pagedUrl rt baseUrl searchTerm system page pageSize)
    as [url|].
  - unfold bind at 1, get. cbn [fst snd].
    destruct (MappingDetailsPage.apiCache s !! url) as [cached|].
    + exists (DetailsInFlight.Cached cached), w. split; [reflexivity|].
      split; [exists []; rewrite app_nil_r; split; [reflexivity | simpl; lia]|].
      reflexivity.
    + exists (DetailsInFlight.Requested url), (sent w url). split; [reflexivity|].
      split; [exists [url]; split; [reflexivity | simpl; lia]|]. reflexivity.
  - exists DetailsInFlight.NoUrl, w. split; [reflexivity|].
    split; [exists []; rewrite app_nil_r; split; [reflexivity | simpl; lia]|].
    reflexivity.
Qed.

(** [fetchPaginatedData] from its await on: nothing is sent, nothing is
    thrown, and only the cache may change. *)
Lemma fetchPaginatedData_resume_post (system : option string)
  (awaited : DetailsInFlight.Awaited) (reply : Reply Item.t) (w : World)
  (s : MappingDetailsPage.State) :
  exists (page : Paged.t) (w' : World) (s' : MappingDetailsPage.State),
    DetailsInFlight.fetchPaginatedData_resume system awaited reply (w, s) =
      (Return page, (w', s')) /\
    requests w' = requests w /\
    alerts w' = alerts w /\
    DetailsPage.frame s s'.
Proof.
  unfold DetailsInFlight.fetchPaginatedData_resume.
  destruct awaited as [|data|url].
  - exists Paged.empty, w, s. repeat split.
  - eexists _, w, s. repeat split.
  - unfold DetailsInFlight.fetchData_resume, InFlight.arrive, try_catch, bind, json,
      throw, MappingDetailsPage.setCache, modify, console_error, ret.
    destruct reply as [|st [d|]]; cbn [fst snd ok body status].
    + eexists _, _, _. split; [reflexivity|]. repeat split.
    + destruct ((200 <=? st) && (st <=? 299)); cbn [negb fst snd];
        eexists _, _, _; (split; [reflexivity|]); repeat split.
    + destruct ((200 <=? st) && (st <=? 299)); cbn [negb fst snd];
        eexists _, _, _; (split; [reflexivity|]); repeat split.
Qed.

(** A callback of the effect up to its await. *)
Lemma details_callback_start_run (term system : string) (w : World)
  (s : DetailsPage.State) :
  exists (awaited : DetailsInFlight.Awaited) (w' : World),
    DetailsInFlight.callback_start rt API_BASE_URL term system (w, s) =
      (Return awaited,
       (w', DetailsPage.mkState (DetailsPage.core s) (DetailsPage.allData s)
              (DetailsPage.isLoadingMore s) (DetailsPage.selectedResult s)
              (<[system := true]> (DetailsPage.loadingProgress s)))) /\
    (exists sent : list string,
        requests w' = (requests w ++ sent)%list /\ (length sent <= 1)%nat) /\
    alerts w' = alerts w.
Proof.
  unfold DetailsInFlight.callback_start.
  unfold bind at 1, DetailsPage.setLoadingProgress, modify. cbn [fst snd].
  unfold DetailsPage.on_core. details_page_step.
  destruct (fetchPaginatedData_start_post API_BASE_URL term (Some system) 1 10 w
              (DetailsPage.core s)) as (awaited & w' & Hrun & Hsent & Halerts).
  rewrite Hrun. exists awaited, w'. split; [reflexivity|]. split; assumption.
Qed.

(** The same callback from its await on. *)
Lemma details_callback_resume_run (activeItem : option Carried.t) (system : string)
  (awaited : DetailsInFlight.Awaited) (reply : Reply Item.t) (w : World)
  (s : DetailsPage.State) :
  exists (page : Paged.t) (w' : World) (core' : MappingDetailsPage.State),
    DetailsInFlight.callback_resume random_id activeItem system awaited reply (w, s) =
      (Return tt,
       (w', DetailsPage.mkState core'
              (<[system := DetailsPage.loaded_source (random_id system) activeItem
                             system page]> (DetailsPage.allData s))
              (DetailsPage.isLoadingMore s) (DetailsPage.selectedResult s)
              (<[system := false]> (DetailsPage.loadingProgress s)))) /\
    requests w' = requests w /\
    alerts w' = alerts w /\
    DetailsPage.frame (DetailsPage.core s) core'.
Proof.
  unfold DetailsInFlight.callback_resume.
  unfold bind at 1, DetailsPage.on_core at 1. cbn [fst snd].
  destruct (fetchPaginatedData_resume_post (Some system) awaited reply w
              (DetailsPage.core s)) as (page & w' & core' & Hrun & Hreq & Hal & Hfr).
  rewrite Hrun.
  unfold bind, DetailsPage.setAllData, DetailsPage.setLoadingProgress, modify.
  details_page_step.
  exists page, w', core'. split; [reflexivity|]. split; [exact Hreq|].
  split; [exact Hal | exact Hfr].
Qed.

(** Callbacks resuming in any order: nothing is sent; the flag of every
    system whose callback has resumed is off and its entry is set; the
    other flags are as they were. *)
Lemma details_settle_post (activeItem : option Carried.t)
  (inFlight : list (string * DetailsInFlight.Awaited))
  (arrivals : list (string * Reply Item.t)) :
  forall (w : World) (s : DetailsPage.State),
  exists (w' : World) (s' : DetailsPage.State),
    DetailsInFlight.settle random_id activeItem inFlight arrivals (w, s) =
      (Return tt, (w', s')) /\
    requests w' = requests w /\
    alerts w' = alerts w /\
    DetailsPage.frame (DetailsPage.core s) (DetailsPage.core s') /\
    (forall key : string,
        DetailsPage.loadingProgress s' !! key =
        if bool_decide (key ∈ arrivals.*1) &&
           bool_decide (is_Some (DetailsInFlight.awaited_of inFlight key))
        then Some false
        else DetailsPage.loadingProgress s !! key) /\
    (forall key : string,
        key ∈ arrivals.*1 ->
        is_Some (DetailsInFlight.awaited_of inFlight key) ->
        is_Some (DetailsPage.allData s' !! key)) /\
    (forall key : string,
        is_Some (DetailsPage.allData s !! key) ->
        is_Some (DetailsPage.allData s' !! key)).
Proof.
  unfold DetailsInFlight.settle.
  induction arrivals as [|[system reply] arrivals IH]; intros w s; cbn [for_each].
  - exists w, s. split; [reflexivity|]. split; [reflexivity|]. split; [reflexivity|].
    split; [apply frame_refl|]. split; [reflexivity|].
    split; [|auto].
    intros key Hkey. apply elem_of_nil in Hkey. contradiction.
  - unfold bind at 1. cbn [fst snd].
    destruct (DetailsInFlight.awaited_of inFlight system) as [awaited|] eqn:Hawaited.
    + unfold spawn at 1.
      destruct (details_callback_resume_run activeItem system awaited reply w s)
        as (page & w1 & core1 & Hrun1 & Hreq1 & Hal1 & Hfr1).
      rewrite Hrun1.
      match goal with
      | |- context [for_each _ _ (?w0, ?s0)] =>
          destruct (IH w0 s0)
            as (w' & s' & Hrun & Hreq & Hal & Hfr & Hflags & Hset & Hkept)
      end.
      rewrite Hrun. exists w', s'. split; [reflexivity|].
      details_page_step in Hfr.
      cbn [DetailsPage.loadingProgress DetailsPage.allData] in Hflags, Hkept.
      split; [congruence|]. split; [congruence|].
      split; [exact (frame_trans _ _ _ Hfr1 Hfr)|].
      split; [|split].
      * intros key. rewrite Hflags. cbn [fmap list_fmap fst].
        destruct (decide (key = system)) as [->|Hne].
        -- rewrite Hawaited.
           rewrite (bool_decide_eq_true_2 (is_Some (Some awaited)))
             by (eexists; reflexivity).
           rewrite (bool_decide_eq_true_2 (system ∈ system :: arrivals.*1))
             by apply list_elem_of_here.
           rewrite lookup_insert_eq. cbn [andb].
           destruct (bool_decide (system ∈ arrivals.*1)); reflexivity.
        -- rewrite lookup_insert_ne by congruence.
           destruct (bool_decide_reflect (key ∈ arrivals.*1)) as [Hin|Hout].
           ++ rewrite (bool_decide_eq_true_2 (key ∈ system :: arrivals.*1))
                by (apply list_elem_of_further; exact Hin).
              reflexivity.
           ++ rewrite (bool_decide_eq_false_2 (key ∈ system :: arrivals.*1))
                by (intros Hk; apply elem_of_cons in Hk as [?|?]; contradiction).
              reflexivity.
      * intros key Hkey Hsome. cbn [fmap list_fmap fst] in Hkey.
        destruct (decide (key = system)) as [->|Hne].
        -- apply Hkept. rewrite lookup_insert_eq. eexists; reflexivity.
        -- apply elem_of_cons in Hkey as [?|Hkey]; [contradiction|].
           apply Hset; assumption.
      * intros key Hkey. apply Hkept.
        destruct (decide (key = system)) as [->|Hne].
        -- rewrite lookup_insert_eq. eexists; reflexivity.
        -- rewrite lookup_insert_ne by congruence. exact Hkey.
    + unfold ret at 1.
      destruct (IH w s) as (w' & s' & Hrun & Hreq & Hal & Hfr & Hflags & Hset & Hkept).
      rewrite Hrun. exists w', s'. split; [reflexivity|].
      split; [exact Hreq|]. split; [exact Hal|]. split; [exact Hfr|].
      split; [|split].
      * intros key. rewrite Hflags. cbn [fmap list_fmap fst].
        destruct (decide (key = system)) as [->|Hne].
        -- rewrite Hawaited.
           rewrite (bool_decide_eq_false_2 (is_Some None))
             by (intros [? ?]; discriminate).
           rewrite !andb_false_r. reflexivity.
        -- destruct (bool_decide_reflect (key ∈ arrivals.*1)) as [Hin|Hout].
           ++ rewrite (bool_decide_eq_true_2 (key ∈ system :: arrivals.*1))
                by (apply list_elem_of_further; exact Hin).
              reflexivity.
           ++ rewrite (bool_decide_eq_false_2 (key ∈ system :: arrivals.*1))
                by (intros Hk; apply elem_of_cons in Hk as [?|?]; contradiction).
              reflexivity.
      * intros key Hkey Hsome. cbn [fmap list_fmap fst] in Hkey.
        apply elem_of_cons in Hkey as [->|Hkey].
        -- rewrite Hawaited in Hsome. destruct Hsome; discriminate.
        -- apply Hset; assumption.
      * exact Hkept.
Qed.

(** The effect for a non-empty search term, up to the point where its
    function returns. *)
Lemma loadDataProgressively_until_return_run (term : string)
  (mapping item : option Carried.t) (systemType : option string)
  (w : World) (s : DetailsPage.State) :
  term <> "" ->
  exists (combined : Paged.t) (a1 a2 a3 a4 : DetailsInFlight.Awaited) (w' : World)
         (core' : MappingDetailsPage.State),
    let chosen :=
      DetailsPage.chooseActive mapping item systemType term combined
        (DetailsPage.selectedResult s) in
    DetailsInFlight.loadDataProgressively_until_return rt API_BASE_URL server
      (Some term) mapping item systemType (w, s) =
      (Return (fst chosen,
               [("ayurveda", a1); ("unani", a2); ("siddha", a3); ("icd11", a4)]),
       (w', DetailsPage.mkState core'
              (<["combined" := DetailsPage.source_of combined 1]>
                 (DetailsPage.allData s))
              (DetailsPage.isLoadingMore s)
              (match snd chosen with
               | Some selection => Some selection
               | None => DetailsPage.selectedResult s
               end)
              (<["icd11" := true]> (<["siddha" := true]> (<["unani" := true]>
                 (<["ayurveda" := true]>
                    (<["combined" := false]> (<["combined" := true]>
                       (DetailsPage.loadingProgress s))))))))) /\
    (exists sent : list string,
        requests w' = (requests w ++ sent)%list /\ (length sent <= 5)%nat) /\
    alerts w' = alerts w /\
    MappingDetailsPage.isLoading core' = false /\
    MappingDetailsPage.detailedData core' =
      MappingDetailsPage.detailedData (DetailsPage.core s) /\
    MappingDetailsPage.loadedTerms core' =
      MappingDetailsPage.loadedTerms (DetailsPage.core s).
Proof.
  intros Hne. unfold DetailsInFlight.loadDataProgressively_until_return.
  apply String.eqb_neq in Hne. rewrite Hne.
  unfold bind at 1, get. cbn [fst snd].
  unfold bind at 1, DetailsPage.on_core at 1, MappingDetailsPage.setIsLoading at 1,
    modify at 1. details_page_step.
  unfold bind at 1, DetailsPage.setLoadingProgress at 1, modify at 1.
  details_page_step. unfold bind at 1.
  match goal with
  | |- context [DetailsPage.on_core
                  (MappingDetailsPage.fetchPaginatedData _ _ _ ?t ?sys ?p ?n) (?w0, ?s0)] =>
      destruct (on_core_fetchPaginatedData rt API_BASE_URL server t sys p n w0 s0)
        as (combined & w1 & core1 & Hrun1 & (sent1 & Hreq1 & Hlen1) & Hal1 & Hfr1)
  end.
  rewrite Hrun1. details_page_step.
  unfold DetailsPage.frame in Hfr1. details_page_step in Hfr1.
  unfold bind at 1, DetailsPage.setAllData at 1, modify at 1. details_page_step.
  unfold bind at 1, DetailsPage.setLoadingProgress at 1, modify at 1.
  details_page_step. cbv zeta.
  unfold bind at 1. rewrite selection_step. details_page_step.
  set (active := fst (DetailsPage.chooseActive mapping item systemType term combined
                        (DetailsPage.selectedResult s))).
  unfold bind at 1. cbn [InFlight.for_each_start]. unfold bind at 1.
  match goal with
  | |- context [DetailsInFlight.callback_start _ _ _ _ (?w0, ?s0)] =>
      destruct (details_callback_start_run term "ayurveda" w0 s0)
        as (a1 & w2 & Hrun2 & (sent2 & Hreq2 & Hlen2) & Hal2)
  end.
  rewrite Hrun2. details_page_step. unfold bind at 1. unfold bind at 1.
  match goal with
  | |- context [DetailsInFlight.callback_start _ _ _ _ (?w0, ?s0)] =>
      destruct (details_callback_start_run term "unani" w0 s0)
        as (a2 & w3 & Hrun3 & (sent3 & Hreq3 & Hlen3) & Hal3)
  end.
  rewrite Hrun3. details_page_step. unfold bind at 1. unfold bind at 1.
  match goal with
  | |- context [DetailsInFlight.callback_start _ _ _ _ (?w0, ?s0)] =>
      destruct (details_callback_start_run term "siddha" w0 s0)
        as (a3 & w4 & Hrun4 & (sent4 & Hreq4 & Hlen4) & Hal4)
  end.
  rewrite Hrun4. details_page_step. unfold bind at 1. unfold bind at 1.
  match goal with
  | |- context [DetailsInFlight.callback_start _ _ _ _ (?w0, ?s0)] =>
      destruct (details_callback_start_run term "icd11" w0 s0)
        as (a4 & w5 & Hrun5 & (sent5 & Hreq5 & Hlen5) & Hal5)
  end.
  rewrite Hrun5. details_page_step.
  unfold bind, ret, DetailsPage.on_core, MappingDetailsPage.setIsLoading, modify.
  details_page_step.
  exists combined, a1, a2, a3, a4, w5. eexists.
  split; [reflexivity|]. details_page_step.
  destruct Hfr1 as (Hd1 & _ & Ht1).
  split; [|split; [congruence|split; [reflexivity|split; [exact Hd1 | exact Ht1]]]].
  exists (sent1 ++ sent2 ++ sent3 ++ sent4 ++ sent5)%list.
  rewrite Hreq5, Hreq4, Hreq3, Hreq2, Hreq1, <- !app_assoc.
  split; [reflexivity|]. rewrite !length_app. lia.
Qed.

End DetailsInFlightFacts.

(** X13. The progressive-loading effect never throws and shows no dialog.
    Without a search term it does nothing.  With one, when its function
    returns (the combined request has settled), at most five requests have
    been sent, [isLoading] is off, the combined source has its entry and its
    flag is off, and the flags of ayurveda, unani, siddha and icd11 are on:
    their callbacks are in flight.  As those callbacks resume, in any order
    and however each request ends, nothing more is sent and nothing is
    thrown; the flag of a system is off, and its entry set, once its
    callback has resumed, and its flag stays on for as long as it has not. *)
Theorem X13_progressive_load_is_contained :
  forall (rt : Js.Runtime) (API_BASE_URL : string) (server : Server Item.t)
         (random_id : string -> string) (searchTerm : option string)
         (mapping item : option Carried.t) (systemType : option string)
         (w : World) (s : DetailsPage.State)
         (arrivals : list (string * Reply Item.t)),
    let returned :=
      run (DetailsInFlight.loadDataProgressively_until_return rt API_BASE_URL server
             searchTerm mapping item systemType) w s in
    let systems := ["ayurveda"; "unani"; "siddha"; "icd11"] in
    (Js.truthy_str searchTerm = false ->
     returned = (Return (None, []), (w, s))) /\
    (Js.truthy_str searchTerm = true ->
     exists (activeItem : option Carried.t)
            (inFlight : list (string * DetailsInFlight.Awaited)),
       let later :=
         run (DetailsInFlight.settle random_id activeItem inFlight arrivals)
           (world_of returned) (state_of returned) in
       (* when the effect's function returns *)
       (outcome returned = Return (activeItem, inFlight) /\
        inFlight.*1 = systems /\
        (exists sent : list string,
            requests (world_of returned) = (requests w ++ sent)%list /\
            (length sent <= 5)%nat) /\
        alerts (world_of returned) = alerts w /\
        MappingDetailsPage.isLoading (DetailsPage.core (state_of returned)) = false /\
        DetailsPage.loadingProgress (state_of returned) !! "combined" = Some false /\
        is_Some (DetailsPage.allData (state_of returned) !! "combined") /\
        (forall system : string,
            system ∈ systems ->
            DetailsPage.loadingProgress (state_of returned) !! system = Some true)) /\
       (* after the callbacks of [arrivals] have resumed *)
       (outcome later = Return tt /\
        requests (world_of later) = requests (world_of returned) /\
        alerts (world_of later) = alerts w /\
        MappingDetailsPage.isLoading (DetailsPage.core (state_of later)) = false /\
        DetailsPage.loadingProgress (state_of later) !! "combined" = Some false /\
        is_Some (DetailsPage.allData (state_of later) !! "combined") /\
        (forall system : string,
            system ∈ systems ->
            DetailsPage.loadingProgress (state_of later) !! system =
              Some (negb (bool_decide (system ∈ arrivals.*1))) /\
            (system ∈ arrivals.*1 ->
             is_Some (DetailsPage.allData (state_of later) !! system))))).
Proof.
  intros rt API_BASE_URL server random_id searchTerm mapping item systemType w s
    arrivals returned systems.
  subst returned. unfold run. split.
  - intros Hnone. unfold DetailsInFlight.loadDataProgressively_until_return.
    destruct searchTerm as [term|]; [|reflexivity].
    cbn [Js.truthy_str] in Hnone. apply negb_false_iff in Hnone.
    rewrite Hnone. reflexivity.
  - intros Hterm. destruct searchTerm as [term|]; [|discriminate].
    cbn [Js.truthy_str] in Hterm. apply negb_true_iff, String.eqb_neq in Hterm.
    destruct (loadDataProgressively_until_return_run rt API_BASE_URL server term
                mapping item systemType w s Hterm)
      as (combined & a1 & a2 & a3 & a4 & w' & core' & Hrun & Hsent & Halerts &
          Hloading & _).
    cbv zeta in Hrun. rewrite Hrun.
    exists (fst (DetailsPage.chooseActive mapping item systemType term combined
                   (DetailsPage.selectedResult s))),
      [("ayurveda", a1); ("unani", a2); ("siddha", a3); ("icd11", a4)].
    cbv zeta.
    unfold outcome, world_of, state_of. cbn [fst snd].
    match goal with
    | |- context [DetailsInFlight.settle _ ?a ?fl _ (?w1, ?s1)] =>
        set (active := a); set (inFlight := fl); set (s_ret := s1)
    end.
    assert (Hflags_ret :
              DetailsPage.loadingProgress s_ret !! "combined" = Some false /\
              is_Some (DetailsPage.allData s_ret !! "combined") /\
              forall system : string,
                system ∈ systems ->
                DetailsPage.loadingProgress s_ret !! system = Some true /\
                is_Some (DetailsInFlight.awaited_of inFlight system)).
    { subst s_ret inFlight systems.
      cbn [DetailsPage.loadingProgress DetailsPage.allData].
      split; [lookup_key; reflexivity|].
      split; [rewrite lookup_insert_eq; eexists; reflexivity|].
      intros system Hsystem.
      repeat (apply elem_of_cons in Hsystem as [->|Hsystem]);
        try (apply elem_of_nil in Hsystem; contradiction);
        (split; [lookup_key; reflexivity | eexists; reflexivity]). }
    destruct Hflags_ret as (Hcombined & Hentry & Hflying).
    split.
    + split; [reflexivity|]. split; [reflexivity|]. split; [exact Hsent|].
      split; [exact Halerts|]. split; [exact Hloading|].
      split; [exact Hcombined|]. split; [exact Hentry|].
      intros system Hsystem. apply (Hflying system Hsystem).
    + destruct (details_settle_post random_id active inFlight arrivals w' s_ret)
        as (w'' & s'' & Hrun' & Hreq' & Hal' & (_ & Hload' & _) & Hflags & Hset & Hkept).
      rewrite Hrun'. cbn [fst snd].
      split; [reflexivity|]. split; [exact Hreq'|].
      split; [rewrite Hal'; exact Halerts|].
      split; [rewrite Hload'; exact Hloading|].
      split.
      { rewrite Hflags, Hcombined.
        destruct (_ && _); reflexivity. }
      split; [apply Hkept; exact Hentry|].
      intros system Hsystem. destruct (Hflying system Hsystem) as [Hon Hawaited].
      split.
      * rewrite Hflags, Hon, (bool_decide_eq_true_2 _ Hawaited), andb_true_r.
        destruct (bool_decide _); reflexivity.
      * intros Harrived. apply Hset; assumption.
Qed.


(** X14. When a result is selected and it carries a mapped term for a
    traditional system (as [related_<system>] or in [namaste_terms]), that
    system's tab is not empty after progressive loading, even if the
    system's own search finds nothing or fails; and the selection stays as
    it was. *)
Theorem X14_mapped_term_fills_empty_tab :
  forall (rt : Js.Runtime) (API_BASE_URL : string) (server : Server Item.t)
         (random_id : string -> string) (term : string)
         (mapping item : option Carried.t) (systemType : option string)
         (w : World) (s : DetailsPage.State) (sel : Selected.t) (system : string),
    term <> "" ->
    DetailsPage.selectedResult s = Some sel ->
    is_Some (Carried.related (Selected.carried sel) system) \/
    is_Some (Carried.namaste (Selected.carried sel) system) ->
    let r := run (DetailsPage.loadDataProgressively rt API_BASE_URL server random_id
                    (Some term) mapping item systemType) w s in
    (exists src : Source.t,
        DetailsPage.allData (state_of r) !! system = Some src /\
        Source.results src <> []) /\
    DetailsPage.selectedResult (state_of r) = Some sel.
Proof.
  intros rt API_BASE_URL server random_id term mapping item systemType w s sel system
    Hterm Hsel Hmapped r.
  subst r. unfold run.
  destruct (loadDataProgressively_run rt API_BASE_URL server random_id term mapping
              item systemType w s Hterm)
    as (combined & ayurveda & unani & siddha & icd11 & w' & core' & Hrun & _).
  cbv zeta in Hrun. rewrite Hrun. unfold state_of. details_page_step.
  rewrite Hsel, chooseActive_selected. cbn [fst snd]. split; [|reflexivity].
  pose proof (loaded_source_filled (random_id system) (Selected.carried sel) system) as Hfilled.
  destruct (mappedTerm_carried (random_id system) (Selected.carried sel) system
              Hmapped) as [_ Hsystem].
  repeat (apply elem_of_cons in Hsystem as [->|Hsystem]);
    [..|apply elem_of_nil in Hsystem; contradiction];
    (eexists; split; [lookup_key; reflexivity | apply Hfilled; exact Hmapped]).
Qed.


Lemma X11_load_more_witness :
  let r := run (DetailsPage.loadMoreResults Js.ascii_runtime "http://api"
                  Examples.endless (Some "fever") "ayurveda")
             world0 DetailExamples.page_with_tab in
  outcome r = Return tt /\
  DetailsPage.isLoadingMore (state_of r) = false /\
  exists entry : Source.t,
    DetailsPage.allData (state_of r) !! "ayurveda" = Some entry /\
    Source.currentPage entry = 2.
Proof.
  destruct (X11_load_more_appends_one_page Js.ascii_runtime "http://api"
              Examples.endless (Some "fever") "ayurveda" world0
              DetailExamples.page_with_tab DetailExamples.ayurveda_tab
              ltac:(apply lookup_insert_eq) eq_refl eq_refl)
    as (Hret & _ & _ & Hidle & (entry & Hentry & _ & Hpage) & _).
  split; [exact Hret|]. split; [exact Hidle|].
  exists entry. split; [exact Hentry | exact Hpage].
Defined.

Lemma X12_failed_load_more_witness :
  let r := run (DetailsPage.loadMoreResults Js.ascii_runtime "http://api"
                  Examples.offline (Some "fever") "ayurveda")
             world0 DetailExamples.page_with_tab in
  outcome r = Return tt /\
  run (DetailsPage.loadMoreResults Js.ascii_runtime "http://api" Examples.endless
         (Some "fever") "ayurveda") world0 (state_of r) =
    (Return tt, (world0, state_of r)).
Proof.
  destruct (X12_failed_load_more_ends_paging Js.ascii_runtime "http://api"
              Examples.offline Examples.endless (Some "fever") "ayurveda"
              "http://api/terminologies/ayurveda/search/?q=fever&threshold=0.2&page=2&page_size=10"
              world0 world0 DetailExamples.page_with_tab DetailExamples.ayurveda_tab
              ltac:(apply lookup_insert_eq) eq_refl eq_refl eq_refl
              ltac:(apply lookup_empty) eq_refl)
    as (Hret & _ & Hagain).
  split; [exact Hret | exact Hagain].
Defined.

(** Offline, with nothing cached: siddha has failed, the other three have
    not answered yet. *)
Lemma X13_progressive_load_witness :
  let returned :=
    run (DetailsInFlight.loadDataProgressively_until_return Js.ascii_runtime
           "http://api" Examples.offline (Some "fever") None None None)
      world0 DetailsPage.initial in
  exists (activeItem : option Carried.t)
         (inFlight : list (string * DetailsInFlight.Awaited)),
    let later :=
      run (DetailsInFlight.settle DetailExamples.no_random activeItem inFlight
             [("siddha", NetworkFailure)])
        (world_of returned) (state_of returned) in
    outcome returned = Return (activeItem, inFlight) /\
    DetailsPage.loadingProgress (state_of returned) !! "siddha" = Some true /\
    DetailsPage.loadingProgress (state_of later) !! "siddha" = Some false /\
    DetailsPage.loadingProgress (state_of later) !! "unani" = Some true.
Proof.
  destruct (X13_progressive_load_is_contained Js.ascii_runtime "http://api"
              Examples.offline DetailExamples.no_random (Some "fever") None None None
              world0 DetailsPage.initial [("siddha", NetworkFailure)])
    as [_ Hloaded].
  destruct (Hloaded eq_refl)
    as (activeItem & inFlight & (Hret & _ & _ & _ & _ & _ & _ & Hflying) &
        (_ & _ & _ & _ & _ & _ & Hlater)).
  exists activeItem, inFlight. cbv zeta.
  split; [exact Hret|].
  split; [apply Hflying; do 2 apply list_elem_of_further; apply list_elem_of_here|].
  split.
  - destruct (Hlater "siddha") as [Hflag _];
      [do 2 apply list_elem_of_further; apply list_elem_of_here|].
    rewrite Hflag. reflexivity.
  - destruct (Hlater "unani") as [Hflag _];
      [apply list_elem_of_further; apply list_elem_of_here|].
    rewrite Hflag. reflexivity.
Defined.

Lemma X14_mapped_term_witness :
  let r := run (DetailsPage.loadDataProgressively Js.ascii_runtime "http://api"
                  Examples.offline DetailExamples.no_random (Some "fever") None None
                  None) world0 DetailExamples.page_with_selection in
  (exists src : Source.t,
      DetailsPage.allData (state_of r) !! "unani" = Some src /\
      Source.results src <> []) /\
  DetailsPage.selectedResult (state_of r) = Some DetailExamples.selected_fever.
Proof.
  apply (X14_mapped_term_fills_empty_tab Js.ascii_runtime "http://api"
           Examples.offline DetailExamples.no_random "fever" None None None world0
           DetailExamples.page_with_selection DetailExamples.selected_fever "unani").
  - discriminate.
  - reflexivity.
  - left. eexists. reflexivity.
Defined.

(** X15. After progressive loading every source is on page 1, and its rows
    are either all rows of its own search or, for a traditional system
    only, one single mapped term with a total of 1: the combined and ICD-11
    sources never show a mapped term. *)
Theorem X15_rows_are_search_rows_or_one_mapped_term :
  forall (rt : Js.Runtime) (API_BASE_URL : string) (server : Server Item.t)
         (random_id : string -> string) (term : string)
         (mapping item : option Carried.t) (systemType : option string)
         (w : World) (s : DetailsPage.State) (system : string),
    term <> "" ->
    system ∈ ["combined"; "ayurveda"; "unani"; "siddha"; "icd11"] ->
    let r := run (DetailsPage.loadDataProgressively rt API_BASE_URL server random_id
                    (Some term) mapping item systemType) w s in
    exists src : Source.t,
      DetailsPage.allData (state_of r) !! system = Some src /\
      Source.currentPage src = 1 /\
      (Forall (fun row => exists found : Item.t, row = Source.FromSearch found)
         (Source.results src) \/
       system ∈ ["ayurveda"; "unani"; "siddha"] /\
       exists mapped : MappedRow.t,
         Source.results src = [Source.FromMapping mapped] /\ Source.count src = 1).
Proof.
  intros rt API_BASE_URL server random_id term mapping item systemType w s system
    Hterm Hsystem r.
  subst r. unfold run.
  destruct (loadDataProgressively_run rt API_BASE_URL server random_id term mapping
              item systemType w s Hterm)
    as (combined & ayurveda & unani & siddha & icd11 & w' & core' & Hrun & _).
  cbv zeta in Hrun. rewrite Hrun. unfold state_of. details_page_step.
  assert (Hsearch : forall page : Paged.t,
             Forall (fun row => exists found : Item.t, row = Source.FromSearch found)
               (Source.results (DetailsPage.source_of page 1))).
  { intros page. unfold DetailsPage.source_of. cbn [Source.results].
    apply Forall_fmap, Forall_forall. intros found _. exists found. reflexivity. }
  assert (Hfallback : forall (active : option Carried.t) (key : string)
                             (page : Paged.t),
             key ∈ ["ayurveda"; "unani"; "siddha"; "icd11"] ->
             let src := DetailsPage.loaded_source (random_id key) active key page in
             Source.currentPage src = 1 /\
             (Forall (fun row => exists found : Item.t, row = Source.FromSearch found)
                (Source.results src) \/
              key ∈ ["ayurveda"; "unani"; "siddha"] /\
              exists mapped : MappedRow.t,
                Source.results src = [Source.FromMapping mapped] /\
                Source.count src = 1)).
  { intros active key page Hkey src. subst src.
    destruct (loaded_source_rows (random_id key) active key page)
      as [-> | (_ & Hkind & row & _ & ->)].
    - split; [reflexivity|]. left. apply Hsearch.
    - split; [reflexivity|]. right. split.
      + repeat (apply elem_of_cons in Hkey as [->|Hkey]);
          [..|apply elem_of_nil in Hkey; contradiction]; try congruence;
          repeat (first [apply list_elem_of_here | apply list_elem_of_further]).
      + exists row. split; reflexivity. }
  repeat (apply elem_of_cons in Hsystem as [->|Hsystem]);
    [..|apply elem_of_nil in Hsystem; contradiction].
  - eexists. split; [lookup_key; reflexivity|]. split; [reflexivity|].
    left. apply Hsearch.
  - eexists. split; [lookup_key; reflexivity|]. apply Hfallback.
    repeat (first [apply list_elem_of_here | apply list_elem_of_further]).
  - eexists. split; [lookup_key; reflexivity|]. apply Hfallback.
    repeat (first [apply list_elem_of_here | apply list_elem_of_further]).
  - eexists. split; [lookup_key; reflexivity|]. apply Hfallback.
    repeat (first [apply list_elem_of_here | apply list_elem_of_further]).
  - eexists. split; [lookup_key; reflexivity|].
    destruct (Hfallback (fst (DetailsPage.chooseActive mapping item systemType term
                                combined (DetailsPage.selectedResult s)))
                "icd11" icd11
                ltac:(repeat (first [apply list_elem_of_here
                                    | apply list_elem_of_further])))
      as [Hpage Hrows].
    split; [exact Hpage|]. left.
    destruct (loaded_source_rows (random_id "icd11")
                (fst (DetailsPage.chooseActive mapping item systemType term combined
                        (DetailsPage.selectedResult s))) "icd11" icd11)
      as [-> | (_ & Hkind & _)]; [apply Hsearch | congruence].
Qed.

Lemma X15_rows_witness :
  let r := run (DetailsPage.loadDataProgressively Js.ascii_runtime "http://api"
                  Examples.offline DetailExamples.no_random (Some "fever") None None
                  None) world0 DetailExamples.page_with_selection in
  exists src : Source.t,
    DetailsPage.allData (state_of r) !! "icd11" = Some src /\
    Source.currentPage src = 1.
Proof.
  destruct (X15_rows_are_search_rows_or_one_mapped_term Js.ascii_runtime "http://api"
              Examples.offline DetailExamples.no_random "fever" None None None world0
              DetailExamples.page_with_selection "icd11" ltac:(discriminate)
              ltac:(do 4 (apply elem_of_cons; right); apply elem_of_cons; left;
                    reflexivity))
    as (src & Hsrc & Hpage & _).
  exists src. split; [exact Hsrc | exact Hpage].
Defined.

(** X16. When nothing is selected and the combined search returns rows, the
    effect selects the first of them, as a "combined" result named by its
    title (or by the search term when it has none). *)
Theorem X16_first_combined_result_is_selected :
  forall (rt : Js.Runtime) (API_BASE_URL : string) (server : Server Item.t)
         (random_id : string -> string) (term : string)
         (mapping item : option Carried.t) (systemType : option string)
         (w : World) (s : DetailsPage.State) (src : Source.t) (first : Item.t)
         (rest : list Source.Row),
    term <> "" ->
    DetailsPage.selectedResult s = None ->
    let r := run (DetailsPage.loadDataProgressively rt API_BASE_URL server random_id
                    (Some term) mapping item systemType) w s in
    DetailsPage.allData (state_of r) !! "combined" = Some src ->
    Source.results src = Source.FromSearch first :: rest ->
    DetailsPage.selectedResult (state_of r) =
      Some (Selected.mk (Carried.of_item first) "Combined" "combined"
              (Js.or_str (Item.title first) (Some term))).
Proof.
  intros rt API_BASE_URL server random_id term mapping item systemType w s src first
    rest Hterm Hsel r.
  subst r. unfold run.
  destruct (loadDataProgressively_run rt API_BASE_URL server random_id term mapping
              item systemType w s Hterm)
    as (combined & ayurveda & unani & siddha & icd11 & w' & core' & Hrun & _).
  cbv zeta in Hrun. rewrite Hrun. unfold state_of. details_page_step.
  lookup_key. intros Hsrc Hrows. injection Hsrc as <-.
  unfold DetailsPage.source_of in Hrows. cbn [Source.results] in Hrows.
  rewrite Hsel. unfold DetailsPage.chooseActive.
  destruct (Paged.results combined) as [|first' rest']; [discriminate|].
  injection Hrows as -> _. reflexivity.
Qed.

Lemma X16_first_result_witness :
  let r := run (DetailsPage.loadDataProgressively Js.ascii_runtime "http://api"
                  (Examples.always Examples.combined_response)
                  DetailExamples.no_random (Some "fever") None None None)
             world0 DetailsPage.initial in
  DetailsPage.selectedResult (state_of r) = Some DetailExamples.selected_fever.
Proof.
  apply (X16_first_combined_result_is_selected Js.ascii_runtime "http://api"
           (Examples.always Examples.combined_response) DetailExamples.no_random
           "fever" None None None world0 DetailsPage.initial
           (DetailsPage.source_of
              (Paged.mk [Examples.fever_entry; Examples.icd 8 "Cough"] 2 None None) 1)
           Examples.fever_entry [Source.FromSearch (Examples.icd 8 "Cough")]).
  - discriminate.
  - reflexivity.
  - vm_compute. reflexivity.
  - reflexivity.
Defined.

(** ** SystemPage: suggestion paging *)

(** The end of a slice may be clamped to the length beforehand. *)
Lemma slice_clamp {A} (l : list A) (start end_ : Z) :
  0 <= end_ ->
  Js.slice l start end_ = Js.slice l start (Z.min end_ (Z.of_nat (length l))).
Proof.
  intros Hend. unfold Js.slice.
  destruct (Z.ltb_spec end_ 0); [lia|].
  destruct (Z.ltb_spec (Z.min end_ (Z.of_nat (length l))) 0); [lia|].
  replace (Z.min (Z.min end_ (Z.of_nat (length l))) (Z.of_nat (length l)))
    with (Z.min end_ (Z.of_nat (length l))) by lia.
  reflexivity.
Qed.

Lemma slice_from_0 {A} (l : list A) (n : Z) :
  0 <= n -> Js.slice l 0 n = take (Z.to_nat n) l.
Proof.
  intros Hn. unfold Js.slice.
  destruct (Z.ltb_spec 0 0); [lia|].
  destruct (Z.ltb_spec n 0); [lia|].
  replace (Z.to_nat (Z.min 0 (Z.of_nat (length l)))) with 0%nat by lia.
  rewrite drop_0.
  destruct (Z.le_ge_cases n (Z.of_nat (length l))).
  - f_equal. lia.
  - rewrite !take_ge by lia. reflexivity.
Qed.

Section SuggestionPagingFacts.
Variable rt : Js.Runtime.
Variable auto_server : Server string.

(** The timer callback of the suggestions effect, for a term of two
    characters or more. *)
Lemma suggestionsEffect_run (system : SystemPage.SystemConfig) (w : World)
  (s : SystemPage.State) :
  (2 <= String.length (SystemPage.searchTerm s))%nat ->
  let url := SystemPage.autocompleteUrl rt system (SystemPage.searchTerm s) in
  let allData :=
    match reply_data (auto_server (requests w) url) with
    | DObject rs => default [] (results rs)
    | DArray items => items
    | DNull => []
    end in
  SystemPage.suggestionsEffect rt auto_server system (w, s) =
  (Return tt,
   (after_fetch auto_server "fetch error" w url,
    SystemPage.mkState (SystemPage.searchTerm s) (SystemPage.results s)
      (SystemPage.isSearching s) (SystemPage.currentPage s) 1
      (SystemPage.uploading s) (SystemPage.currentUser s) (SystemPage.userChecked s)
      (Js.slice allData 0 10)
      (SystemPage.showSuggestions s) (Z.of_nat (length allData)) false
      (Js.ceil_div (Z.of_nat (length allData)) 10) allData
      (SystemPage.fileInputClicks s))).
Proof.
  intros Hlong url allData. subst url allData.
  unfold SystemPage.suggestionsEffect.
  unfold bind at 1, SystemPage.setSuggPage at 1, modify at 1. cbn [fst snd].
  unfold bind at 1, get. cbn [fst snd]. unfold spawn.
  cbn [SystemPage.searchTerm].
  rewrite (fetchAllSuggestions_long rt auto_server system _ w _ Hlong).
  reflexivity.
Qed.

End SuggestionPagingFacts.

Lemma handleSuggPage_run (page : Z) (w : World) (s : SystemPage.State) :
  SuggestionPaging.handleSuggPage page (w, s) =
  (Return tt,
   (w, if (page <? 1) || (SystemPage.suggTotalPages s <? page) then s
       else
         SystemPage.mkState (SystemPage.searchTerm s) (SystemPage.results s)
           (SystemPage.isSearching s) (SystemPage.currentPage s) page
           (SystemPage.uploading s) (SystemPage.currentUser s)
           (SystemPage.userChecked s) (SystemPage.suggestions s)
           (SystemPage.showSuggestions s) (SystemPage.suggTotal s)
           (SystemPage.suggLoading s) (SystemPage.suggTotalPages s)
           (SystemPage.allSuggestions s) (SystemPage.fileInputClicks s))).
Proof.
  unfold SuggestionPaging.handleSuggPage. system_page_step.
  destruct ((page <? 1) || (SystemPage.suggTotalPages s <? page)); reflexivity.
Qed.

Lemma pageEffect_run (w : World) (s : SystemPage.State) :
  SuggestionPaging.pageEffect (w, s) =
  (Return tt,
   (w, if (0 <? length (SystemPage.allSuggestions s))%nat
       then
         SystemPage.mkState (SystemPage.searchTerm s) (SystemPage.results s)
           (SystemPage.isSearching s) (SystemPage.currentPage s)
           (SystemPage.suggPage s) (SystemPage.uploading s)
           (SystemPage.currentUser s) (SystemPage.userChecked s)
           (Js.slice (SystemPage.allSuggestions s) ((SystemPage.suggPage s - 1) * 10)
              ((SystemPage.suggPage s - 1) * 10 + 10))
           (SystemPage.showSuggestions s) (SystemPage.suggTotal s)
           (SystemPage.suggLoading s) (SystemPage.suggTotalPages s)
           (SystemPage.allSuggestions s) (SystemPage.fileInputClicks s)
       else s)).
Proof.
  unfold SuggestionPaging.pageEffect. system_page_step.
  destruct (0 <? length (SystemPage.allSuggestions s))%nat; reflexivity.
Qed.

(** X17. After the debounced suggestions effect has run for a term of two
    characters or more, whatever the server answered: one request was sent,
    the dropdown is back on page 1 and no longer loading, the total shown
    is the number of suggestions held, the first ten of them are displayed,
    and the "Showing 1-10 of N" line is rendered exactly when there are
    more than ten. *)
Theorem X17_suggestion_counters_agree :
  forall (rt : Js.Runtime) (auto_server : Server string)
         (system : SystemPage.SystemConfig) (w : World) (s : SystemPage.State),
    (2 <= String.length (SystemPage.searchTerm s))%nat ->
    let r := run (SystemPage.suggestionsEffect rt auto_server system) w s in
    let s' := state_of r in
    outcome r = Return tt /\
    requests (world_of r) =
      (requests w ++
       [SystemPage.autocompleteUrl rt system (SystemPage.searchTerm s)])%list /\
    SystemPage.suggPage s' = 1 /\
    SystemPage.suggLoading s' = false /\
    SystemPage.suggTotal s' = Z.of_nat (length (SystemPage.allSuggestions s')) /\
    SystemPage.suggestions s' = take 10 (SystemPage.allSuggestions s') /\
    SuggestionPaging.renderSuggPagination s' =
      (if SystemPage.suggTotal s' <=? 10 then None
       else Some (SuggestionPaging.mkLabel 1 10 (SystemPage.suggTotal s'))).
Proof.
  intros rt auto_server system w s Hlong r s'. subst s' r. unfold run.
  rewrite (suggestionsEffect_run rt auto_server system w s Hlong).
  unfold outcome, world_of, state_of. cbn [fst snd].
  set (allData := match reply_data _ with
                  | DObject rs => default [] (results rs)
                  | DArray items => items
                  | DNull => []
                  end).
  split; [reflexivity|]. split; [apply requests_after_fetch|].
  split; [reflexivity|]. split; [reflexivity|]. split; [reflexivity|].
  split; [apply (slice_from_0 allData 10); lia|].
  unfold SuggestionPaging.renderSuggPagination, SystemPage.suggPerPage.
  cbn [SystemPage.suggTotalPages SystemPage.suggPage SystemPage.suggTotal].
  pose proof (ceil_div_bounds (Z.of_nat (length allData)) 10 ltac:(lia)) as Hceil.
  destruct (Z.leb_spec (Js.ceil_div (Z.of_nat (length allData)) 10) 1);
    destruct (Z.leb_spec (Z.of_nat (length allData)) 10); try lia; try reflexivity.
  do 2 f_equal. lia.
Qed.

Lemma X17_suggestion_counters_witness :
  let r := run (SystemPage.suggestionsEffect Js.ascii_runtime Examples.offline
                  (SystemPage.systemData "http://api" SystemPage.ayurveda))
             world0 Examples.system_page_with_suggestions in
  outcome r = Return tt /\
  SystemPage.suggPage (state_of r) = 1 /\
  SystemPage.suggLoading (state_of r) = false.
Proof.
  destruct (X17_suggestion_counters_agree Js.ascii_runtime Examples.offline
              (SystemPage.systemData "http://api" SystemPage.ayurveda) world0
              Examples.system_page_with_suggestions ltac:(simpl; lia))
    as (Hret & _ & Hpage & Hloading & _).
  split; [exact Hret|]. split; [exact Hpage | exact Hloading].
Defined.

(** X18. Paging through the suggestions: when the counters agree with the
    list held, choosing a page between 1 and the last page displays
    exactly the items that the "Showing a-b of N" line announces: items
    [a] to [b] of the list, [b - a + 1] of them and at least one. *)
Theorem X18_suggestion_page_matches_label :
  forall (w : World) (s : SystemPage.State) (page : Z),
    SystemPage.suggTotal s = Z.of_nat (length (SystemPage.allSuggestions s)) ->
    SystemPage.suggTotalPages s =
      Js.ceil_div (Z.of_nat (length (SystemPage.allSuggestions s)))
        SystemPage.suggPerPage ->
    1 <= page <= SystemPage.suggTotalPages s ->
    let r := run (SuggestionPaging.handleSuggPage page ;;;
                  SuggestionPaging.pageEffect)%prog w s in
    let s' := state_of r in
    let a := (page - 1) * 10 + 1 in
    let b := Z.min (page * 10) (SystemPage.suggTotal s) in
    outcome r = Return tt /\
    SystemPage.suggPage s' = page /\
    SystemPage.suggestions s' = Js.slice (SystemPage.allSuggestions s) (a - 1) b /\
    Z.of_nat (length (SystemPage.suggestions s')) = b - a + 1 /\
    a <= b /\
    (1 < SystemPage.suggTotalPages s ->
     SuggestionPaging.renderSuggPagination s' =
       Some (SuggestionPaging.mkLabel a b (SystemPage.suggTotal s))).
Proof.
  intros w s page Htotal Hpages Hpage r s' a b. subst s' r a b. unfold run.
  unfold SystemPage.suggPerPage in Hpages.
  pose proof (ceil_div_bounds (Z.of_nat (length (SystemPage.allSuggestions s))) 10
                ltac:(lia)) as Hceil.
  rewrite <- Hpages in Hceil.
  assert (Hsome : (0 <? length (SystemPage.allSuggestions s))%nat = true).
  { apply Nat.ltb_lt. lia. }
  assert (Hrange : (page <? 1) || (SystemPage.suggTotalPages s <? page) = false).
  { apply orb_false_iff; split; apply Z.ltb_ge; lia. }
  unfold bind. rewrite handleSuggPage_run, Hrange, pageEffect_run.
  cbn [SystemPage.allSuggestions SystemPage.suggPage]. rewrite Hsome.
  unfold outcome, state_of.
  cbn [fst snd SystemPage.suggPage SystemPage.suggestions SystemPage.suggTotal
       SystemPage.suggTotalPages SystemPage.allSuggestions].
  assert (Hslice : Js.slice (SystemPage.allSuggestions s) ((page - 1) * 10)
                     ((page - 1) * 10 + 10) =
                   Js.slice (SystemPage.allSuggestions s) ((page - 1) * 10 + 1 - 1)
                     (Z.min (page * 10) (SystemPage.suggTotal s))).
  { rewrite slice_clamp by lia. rewrite Htotal. f_equal; lia. }
  split; [reflexivity|]. split; [reflexivity|]. split; [exact Hslice|].
  split; [|split].
  - rewrite slice_length by lia. rewrite Htotal. lia.
  - rewrite Htotal. lia.
  - intros Hmany. unfold SuggestionPaging.renderSuggPagination, SystemPage.suggPerPage.
    cbn [SystemPage.suggPage SystemPage.suggTotal SystemPage.suggTotalPages].
    destruct (Z.leb_spec (SystemPage.suggTotalPages s) 1); [lia | reflexivity].
Qed.

Lemma X18_suggestion_page_witness :
  let r := run (SuggestionPaging.handleSuggPage 3 ;;;
                SuggestionPaging.pageEffect)%prog world0
             SystemExamples.paged_suggestions in
  SystemPage.suggPage (state_of r) = 3 /\
  Z.of_nat (length (SystemPage.suggestions (state_of r))) = 5 /\
  SuggestionPaging.renderSuggPagination (state_of r) =
    Some (SuggestionPaging.mkLabel 21 25 25).
Proof.
  destruct (X18_suggestion_page_matches_label world0
              SystemExamples.paged_suggestions 3 eq_refl eq_refl
              ltac:(vm_compute; split; discriminate))
    as (_ & Hpage & _ & Hlen & _ & Hlabel).
  split; [exact Hpage|]. split; [exact Hlen | exact (Hlabel eq_refl)].
Defined.

(** ** SystemPage: CSV upload *)

Ltac upload_step :=
  unfold try_finally, try_catch, bind, CsvUpload.setUploading,
    CsvUpload.setUploadRes, CsvUpload.clearInput, CsvUpload.post, alert, modify,
    get, ret;
  cbn [fst snd CsvUpload.page CsvUpload.uploadRes CsvUpload.inputValue
       SystemPage.searchTerm SystemPage.results SystemPage.isSearching
       SystemPage.currentPage SystemPage.suggPage SystemPage.uploading
       SystemPage.currentUser SystemPage.userChecked SystemPage.suggestions
       SystemPage.showSuggestions SystemPage.suggTotal SystemPage.suggLoading
       SystemPage.suggTotalPages SystemPage.allSuggestions
       SystemPage.fileInputClicks requests console alerts].

(** What [handleFileUpload] does for a user who is not the administrator. *)
Lemma handleFileUpload_refused (server : CsvUpload.UploadServer)
  (system : SystemPage.SystemConfig) (file : option string) (w : World)
  (s : CsvUpload.State) :
  SystemPage.isAdmin (SystemPage.currentUser (CsvUpload.page s)) = false ->
  CsvUpload.handleFileUpload server system file (w, s) =
  (Return tt,
   if bool_decide (is_Some file) && Js.truthy_str (SystemPage.csvEp system)
   then
     (mkWorld (requests w) (console w)
        (alerts w ++
         [if SystemPage.isLoggedIn (SystemPage.currentUser (CsvUpload.page s))
          then "Only admin users can upload files"
          else "Please log in to upload files"]),
      CsvUpload.mkState (CsvUpload.page s) (CsvUpload.uploadRes s) "")
   else (w, s)).
Proof.
  intros Hadmin.
  unfold CsvUpload.handleFileUpload. unfold bind at 1, get. cbn [fst snd].
  destruct file as [name|]; [|reflexivity].
  rewrite (bool_decide_eq_true_2 (is_Some (Some name))) by (eexists; reflexivity).
  destruct (SystemPage.csvEp system) as [endpoint|]; [|reflexivity].
  cbn [Js.truthy_str andb].
  destruct (String.eqb endpoint ""); [reflexivity|].
  rewrite Hadmin. cbn [negb].
  destruct (SystemPage.isLoggedIn _); reflexivity.
Qed.

(** What it does for the administrator. *)
Lemma handleFileUpload_accepted (server : CsvUpload.UploadServer)
  (system : SystemPage.SystemConfig) (name endpoint : string) (w : World)
  (s : CsvUpload.State) :
  SystemPage.isAdmin (SystemPage.currentUser (CsvUpload.page s)) = true ->
  SystemPage.csvEp system = Some endpoint ->
  endpoint <> "" ->
  CsvUpload.handleFileUpload server system (Some name) (w, s) =
  (Return tt,
   (mkWorld (requests w ++ [endpoint]) (console w) (alerts w),
    CsvUpload.mkState
      (SystemPage.mkState (SystemPage.searchTerm (CsvUpload.page s))
         (SystemPage.results (CsvUpload.page s))
         (SystemPage.isSearching (CsvUpload.page s))
         (SystemPage.currentPage (CsvUpload.page s))
         (SystemPage.suggPage (CsvUpload.page s)) false
         (SystemPage.currentUser (CsvUpload.page s))
         (SystemPage.userChecked (CsvUpload.page s))
         (SystemPage.suggestions (CsvUpload.page s))
         (SystemPage.showSuggestions (CsvUpload.page s))
         (SystemPage.suggTotal (CsvUpload.page s))
         (SystemPage.suggLoading (CsvUpload.page s))
         (SystemPage.suggTotalPages (CsvUpload.page s))
         (SystemPage.allSuggestions (CsvUpload.page s))
         (SystemPage.fileInputClicks (CsvUpload.page s)))
      (match server (requests w) endpoint with
       | CsvUpload.Json value => value
       | _ => Some (CsvUpload.mkJson (Some "Network or server error") None None
                      None None)
       end)
      "")).
Proof.
  intros Hadmin Hep Hne.
  unfold CsvUpload.handleFileUpload. unfold bind at 1, get. cbn [fst snd].
  rewrite Hep. apply String.eqb_neq in Hne. rewrite Hne.
  rewrite Hadmin, (isAdmin_isLoggedIn _ Hadmin). cbn [negb].
  upload_step.
  destruct (server (requests w) endpoint) as [| |value]; reflexivity.
Qed.

(** X19. Only the administrator uploads: for any other user
    [handleFileUpload] sends no request and leaves the page and the upload
    result as they were; if a file was chosen on a system with an upload
    endpoint, the user is told so in one dialog and the file input is
    cleared. *)
Theorem X19_only_admin_uploads :
  forall (server : CsvUpload.UploadServer) (system : SystemPage.SystemConfig)
         (file : option string) (w : World) (s : CsvUpload.State),
    SystemPage.isAdmin (SystemPage.currentUser (CsvUpload.page s)) = false ->
    let r := run (CsvUpload.handleFileUpload server system file) w s in
    outcome r = Return tt /\
    requests (world_of r) = requests w /\
    CsvUpload.page (state_of r) = CsvUpload.page s /\
    CsvUpload.uploadRes (state_of r) = CsvUpload.uploadRes s /\
    (is_Some file ->
     Js.truthy_str (SystemPage.csvEp system) = true ->
     (exists message : string, alerts (world_of r) = (alerts w ++ [message])%list) /\
     CsvUpload.inputValue (state_of r) = "").
Proof.
  intros server system file w s Hadmin r. subst r. unfold run.
  rewrite (handleFileUpload_refused server system file w s Hadmin).
  unfold outcome, world_of, state_of. cbn [fst snd].
  destruct (bool_decide (is_Some file) && Js.truthy_str (SystemPage.csvEp system))
    eqn:Hchosen; cbn [fst snd requests alerts CsvUpload.page CsvUpload.uploadRes
                      CsvUpload.inputValue].
  - refine (conj eq_refl (conj eq_refl (conj eq_refl (conj eq_refl _)))).
    intros _ _. split; [eexists; reflexivity | reflexivity].
  - refine (conj eq_refl (conj eq_refl (conj eq_refl (conj eq_refl _)))).
    intros Hfile Hep. rewrite (bool_decide_eq_true_2 _ Hfile), Hep in Hchosen.
    discriminate.
Qed.

Lemma X19_only_admin_witness :
  let r := run (CsvUpload.handleFileUpload SystemExamples.upload_ok
                  (SystemPage.systemData "http://api" SystemPage.ayurveda)
                  (Some "terms.csv")) world0 SystemExamples.guest_page in
  requests (world_of r) = [] /\
  alerts (world_of r) = ["Only admin users can upload files"] /\
  CsvUpload.inputValue (state_of r) = "".
Proof.
  destruct (X19_only_admin_uploads SystemExamples.upload_ok
              (SystemPage.systemData "http://api" SystemPage.ayurveda)
              (Some "terms.csv") world0 SystemExamples.guest_page eq_refl)
    as (_ & Hreq & _ & _ & Hfile).
  destruct (Hfile ltac:(eexists; reflexivity) eq_refl) as [_ Hinput].
  split; [exact Hreq|]. split; [reflexivity | exact Hinput].
Defined.

(** X20. An upload by the administrator always reports back: exactly one
    request is sent, to the system's upload endpoint; nothing is thrown and
    no dialog is shown; afterwards [uploading] is off and the file input is
    cleared.  When the network fails or the answer is not JSON the page
    shows "Upload failed: Network or server error"; otherwise it keeps the
    answer as the upload result. *)
Theorem X20_upload_reports_outcome :
  forall (server : CsvUpload.UploadServer) (system : SystemPage.SystemConfig)
         (name endpoint : string) (w : World) (s : CsvUpload.State),
    SystemPage.isAdmin (SystemPage.currentUser (CsvUpload.page s)) = true ->
    SystemPage.csvEp system = Some endpoint ->
    endpoint <> "" ->
    let r := run (CsvUpload.handleFileUpload server system (Some name)) w s in
    outcome r = Return tt /\
    requests (world_of r) = (requests w ++ [endpoint])%list /\
    alerts (world_of r) = alerts w /\
    SystemPage.uploading (CsvUpload.page (state_of r)) = false /\
    CsvUpload.inputValue (state_of r) = "" /\
    match server (requests w) endpoint with
    | CsvUpload.Json value => CsvUpload.uploadRes (state_of r) = value
    | _ =>
        CsvUpload.feedback (state_of r) =
          Some (CsvUpload.UploadFailed "Upload failed: Network or server error")
    end.
Proof.
  intros server system name endpoint w s Hadmin Hep Hne r. subst r. unfold run.
  rewrite (handleFileUpload_accepted server system name endpoint w s Hadmin Hep Hne).
  unfold outcome, world_of, state_of.
  cbn [fst snd requests alerts CsvUpload.page CsvUpload.uploadRes
       CsvUpload.inputValue SystemPage.uploading].
  refine (conj eq_refl (conj eq_refl (conj eq_refl (conj eq_refl (conj eq_refl _))))).
  destruct (server (requests w) endpoint) as [| |value]; reflexivity.
Qed.

Lemma X20_upload_witness :
  let r := run (CsvUpload.handleFileUpload SystemExamples.upload_down
                  (SystemPage.systemData "http://api" SystemPage.ayurveda)
                  (Some "terms.csv")) world0 SystemExamples.root_page in
  requests (world_of r) = ["http://api/terminologies/ayurveda/csv/upload/"] /\
  CsvUpload.feedback (state_of r) =
    Some (CsvUpload.UploadFailed "Upload failed: Network or server error").
Proof.
  destruct (X20_upload_reports_outcome SystemExamples.upload_down
              (SystemPage.systemData "http://api" SystemPage.ayurveda) "terms.csv"
              "http://api/terminologies/ayurveda/csv/upload/" world0
              SystemExamples.root_page eq_refl eq_refl ltac:(discriminate))
    as (_ & Hreq & _ & _ & _ & Hfeedback).
  split; [exact Hreq | exact Hfeedback].
Defined.

(** ** The definition column *)

Lemma string_length_append (a b : string) :
  String.length (a +:+ b) = (String.length a + String.length b)%nat.
Proof.
  induction a as [|c a IH]; [reflexivity|].
  change (String c a +:+ b) with (String c (a +:+ b)).
  cbn [String.length]. rewrite IH. reflexivity.
Qed.

Lemma substring_0_length (n : nat) (s : string) :
  String.length (String.substring 0 n s) = Nat.min n (String.length s).
Proof.
  revert s. induction n as [|n IH]; intros [|c s]; simpl; try reflexivity.
  rewrite IH. reflexivity.
Qed.

Lemma substring_0_all (n : nat) (s : string) :
  (String.length s <= n)%nat -> String.substring 0 n s = s.
Proof.
  revert s. induction n as [|n IH]; intros [|c s] Hlen; simpl in *;
    try reflexivity; [lia|].
  rewrite IH by lia. reflexivity.
Qed.

Lemma string_append_empty (s : string) : s +:+ "" = s.
Proof.
  induction s as [|c s IH]; [reflexivity|].
  change (String c s +:+ "") with (String c (s +:+ "")). rewrite IH. reflexivity.
Qed.

(** X25. The definition column of the combined table never shows more
    than 103 characters: a missing or empty definition is shown as "-", a
    definition of up to 100 characters in full, and a longer one as its
    first 100 characters followed by "...". *)
Theorem X25_definition_preview_is_bounded :
  forall definition : option string,
    let shown := DefinitionCell.definitionPreview definition in
    (String.length shown <= 103)%nat /\
    (Js.truthy_str definition = false -> shown = "-") /\
    (forall d : string,
        definition = Some d -> d <> "" ->
        ((String.length d <= 100)%nat -> shown = d) /\
        ((100 < String.length d)%nat ->
         shown = String.substring 0 100 d +:+ "..." /\
         String.length shown = 103%nat)).
Proof.
  intros definition shown. subst shown. unfold DefinitionCell.definitionPreview.
  split; [|split].
  - destruct definition as [d|]; [|simpl; lia].
    destruct (String.eqb d ""); [simpl; lia|].
    rewrite string_length_append, substring_0_length.
    destruct (100 <? String.length d)%nat; simpl String.length; lia.
  - destruct definition as [d|]; [|reflexivity]. cbn [Js.truthy_str].
    destruct (String.eqb d ""); [reflexivity | discriminate].
  - intros d -> Hne. apply String.eqb_neq in Hne. rewrite Hne. split.
    + intros Hshort.
      replace (100 <? String.length d)%nat with false
        by (symmetry; apply Nat.ltb_ge; lia).
      rewrite string_append_empty. apply substring_0_all. exact Hshort.
    + intros Hlong.
      replace (100 <? String.length d)%nat with true
        by (symmetry; apply Nat.ltb_lt; lia).
      split; [reflexivity|].
      rewrite string_length_append, substring_0_length. simpl String.length. lia.
Qed.

Lemma X25_definition_preview_witness :
  DefinitionCell.definitionPreview (Some "Elevated body temperature") =
  "Elevated body temperature".
Proof.
  destruct (X25_definition_preview_is_bounded (Some "Elevated body temperature"))
    as (_ & _ & Hshown).
  destruct (Hshown "Elevated body temperature" eq_refl ltac:(discriminate))
    as [Hshort _].
  apply Hshort. simpl. lia.
Defined.

(** ** The table headers of the per-system page *)

Section TableHeaderFacts.
Variable object_keys : Item.t -> list string.

Lemma add_key_spec (keys : list string) (k : string) :
  NoDup keys ->
  NoDup (TableHeaders.add_key keys k) /\
  forall x : string, x ∈ TableHeaders.add_key keys k <-> x ∈ keys \/ x = k.
Proof.
  intros Hnodup. unfold TableHeaders.add_key.
  destruct (bool_decide_reflect (k ∈ keys)) as [Hin|Hnew].
  - split; [exact Hnodup|]. intros x. split; [left; assumption|].
    intros [Hx| ->]; assumption.
  - split.
    + apply NoDup_app. split; [exact Hnodup|]. split.
      * intros x Hx Hk. apply list_elem_of_singleton in Hk. subst x. contradiction.
      * apply NoDup_singleton.
    + intros x. rewrite elem_of_app, list_elem_of_singleton. reflexivity.
Qed.

Lemma add_keys_spec (ks keys : list string) :
  NoDup keys ->
  NoDup (fold_left TableHeaders.add_key ks keys) /\
  forall x : string,
    x ∈ fold_left TableHeaders.add_key ks keys <-> x ∈ keys \/ x ∈ ks.
Proof.
  revert keys. induction ks as [|k ks IH]; intros keys Hnodup; cbn [fold_left].
  - split; [exact Hnodup|]. intros x. rewrite elem_of_nil. tauto.
  - destruct (add_key_spec keys k Hnodup) as [Hnodup' Hmem].
    destruct (IH _ Hnodup') as [Hnd Hin]. split; [exact Hnd|].
    intros x. rewrite Hin, Hmem, elem_of_cons. tauto.
Qed.

Lemma collect_keys_spec (items : list Item.t) (keys : list string) :
  NoDup keys ->
  NoDup (fold_left (fun keys item =>
                      fold_left TableHeaders.add_key (object_keys item) keys)
           items keys) /\
  forall x : string,
    x ∈ fold_left (fun keys item =>
                     fold_left TableHeaders.add_key (object_keys item) keys)
          items keys <->
    x ∈ keys \/ exists item : Item.t, item ∈ items /\ x ∈ object_keys item.
Proof.
  revert keys. induction items as [|item items IH]; intros keys Hnodup;
    cbn [fold_left].
  - split; [exact Hnodup|]. intros x. split; [left; assumption|].
    intros [Hx|(item & Hitem & _)]; [assumption|].
    apply elem_of_nil in Hitem. contradiction.
  - destruct (add_keys_spec (object_keys item) keys Hnodup) as [Hnodup' Hmem].
    destruct (IH _ Hnodup') as [Hnd Hin]. split; [exact Hnd|].
    intros x. rewrite Hin, Hmem. split.
    + intros [[Hx|Hx]|(item' & Hitem' & Hx)].
      * left; assumption.
      * right. exists item. split; [apply list_elem_of_here | assumption].
      * right. exists item'. split; [apply list_elem_of_further | ]; assumption.
    + intros [Hx|(item' & Hitem' & Hx)]; [left; left; assumption|].
      apply elem_of_cons in Hitem' as [->|Hitem'].
      * left; right; assumption.
      * right. exists item'. split; assumption.
Qed.

End TableHeaderFacts.

(** X24. The header row of the results table: no rows give no headers; on
    the ICD-11 page the headers are the five allowed ones whatever the rows
    contain; on every other page each property name that occurs in some row
    is a header exactly once, and nothing else is. *)
Theorem X24_table_headers_cover_every_key_once :
  forall (object_keys : Item.t -> list string) (systemName : SystemPage.SystemName)
         (items : list Item.t),
    let headers := TableHeaders.getTableHeaders object_keys systemName items in
    (items = [] -> headers = []) /\
    (items <> [] -> systemName = SystemPage.icd11 ->
     headers = ["code"; "title"; "display_name"; "definition"; "class_kind"]) /\
    (systemName <> SystemPage.icd11 ->
     NoDup headers /\
     forall k : string,
       k ∈ headers <-> exists item : Item.t, item ∈ items /\ k ∈ object_keys item).
Proof.
  intros object_keys systemName items headers. subst headers.
  unfold TableHeaders.getTableHeaders. split; [|split].
  - intros ->. reflexivity.
  - intros Hsome ->. destruct items; [contradiction | reflexivity].
  - intros Hother.
    destruct (collect_keys_spec object_keys items [] NoDup_nil_2) as [Hnd Hin].
    destruct items as [|item items].
    + cbn [length Nat.eqb]. split; [apply NoDup_nil_2|].
      intros k. split; [intros Hk; apply elem_of_nil in Hk; contradiction|].
      intros (item & Hitem & _). apply elem_of_nil in Hitem. contradiction.
    + cbn [length Nat.eqb].
      assert (Hfold : match systemName with
                      | SystemPage.icd11 => TableHeaders.allowedIcd11Headers
                      | _ =>
                          fold_left
                            (fun keys item0 =>
                               fold_left TableHeaders.add_key (object_keys item0) keys)
                            (item :: items) []
                      end =
                      fold_left
                        (fun keys item0 =>
                           fold_left TableHeaders.add_key (object_keys item0) keys)
                        (item :: items) []).
      { destruct systemName; try reflexivity. contradiction. }
      rewrite Hfold. split; [exact Hnd|].
      intros k. rewrite Hin, elem_of_nil. tauto.
Qed.

Lemma X24_table_headers_witness :
  TableHeaders.getTableHeaders (fun _ => ["code"; "english_name"])
    SystemPage.icd11 [Examples.icd 8 "Cough"] =
  ["code"; "title"; "display_name"; "definition"; "class_kind"].
Proof.
  destruct (X24_table_headers_cover_every_key_once (fun _ => ["code"; "english_name"])
              SystemPage.icd11 [Examples.icd 8 "Cough"]) as (_ & Hicd & _).
  apply Hicd; [discriminate | reflexivity].
Defined.

(** ** The details drawer *)

Section DrawerFacts.
Context {V : Type}.
Variable rt : Js.Runtime.
Variable API_BASE : string.
Variable server : DetailsDrawer.Server V.

(** One settled request of the drawer: it is recorded, nothing is logged,
    and its value is what the server gave, if it gave one. *)
Lemma settle_fetchJSON (url : string) (w : World) (s : DetailsDrawer.State V) :
  exists x : DetailsDrawer.Settled V,
    DetailsDrawer.settle (DetailsDrawer.fetchJSON server url) (w, s) =
      (Return x, (mkWorld (requests w ++ [url]) (console w) (alerts w), s)) /\
    DetailsDrawer.value_or_null x = DetailsDrawer.succeeds server (requests w) url.
Proof.
  unfold DetailsDrawer.settle, DetailsDrawer.fetchJSON, DetailsDrawer.succeeds.
  cbn [fst snd].
  destruct (server (requests w) url) as [|st [v|]].
  - eexists. split; reflexivity.
  - destruct ((200 <=? st) && (st <=? 299)); cbn [negb];
      eexists; split; reflexivity.
  - destruct ((200 <=? st) && (st <=? 299)); cbn [negb];
      eexists; split; reflexivity.
Qed.

Lemma drawer_get_run (code : string) (stale : bool) (w : World)
  (s : DetailsDrawer.State V) :
  let u1 := DetailsDrawer.codeUrl rt API_BASE "icd11" code in
  let u2 := DetailsDrawer.codeUrl rt API_BASE "ayurveda" code in
  let u3 := DetailsDrawer.codeUrl rt API_BASE "siddha" code in
  let u4 := DetailsDrawer.codeUrl rt API_BASE "unani" code in
  let u5 := DetailsDrawer.codeUrl rt API_BASE "mappings" code in
  DetailsDrawer.get_ rt API_BASE server code stale (w, s) =
  (Return tt,
   (mkWorld (requests w ++ [u1; u2; u3; u4; u5]) (console w) (alerts w),
    DetailsDrawer.mkState false
      (if stale then DetailsDrawer.data s
       else
         DetailsDrawer.mkData
           (DetailsDrawer.succeeds server (requests w) u1)
           (DetailsDrawer.succeeds server (requests w ++ [u1]) u2)
           (DetailsDrawer.succeeds server (requests w ++ [u1; u2]) u3)
           (DetailsDrawer.succeeds server (requests w ++ [u1; u2; u3]) u4)
           (DetailsDrawer.succeeds server (requests w ++ [u1; u2; u3; u4]) u5)))).
Proof.
  intros u1 u2 u3 u4 u5. unfold DetailsDrawer.get_.
  fold u1 u2 u3 u4 u5. clearbody u1 u2 u3 u4 u5.
  unfold try_finally, try_catch.
  unfold bind at 1, DetailsDrawer.setLoading at 1, modify at 1. cbn [fst snd].
  unfold bind at 1.
  destruct (settle_fetchJSON u1 w (DetailsDrawer.mkState true (DetailsDrawer.data s)))
    as (x1 & -> & <-).
  unfold bind at 1.
  match goal with
  | |- context [DetailsDrawer.settle _ (?w0, ?s0)] =>
      destruct (settle_fetchJSON u2 w0 s0) as (x2 & -> & H2)
  end.
  unfold bind at 1.
  match goal with
  | |- context [DetailsDrawer.settle _ (?w0, ?s0)] =>
      destruct (settle_fetchJSON u3 w0 s0) as (x3 & -> & H3)
  end.
  unfold bind at 1.
  match goal with
  | |- context [DetailsDrawer.settle _ (?w0, ?s0)] =>
      destruct (settle_fetchJSON u4 w0 s0) as (x4 & -> & H4)
  end.
  unfold bind at 1.
  match goal with
  | |- context [DetailsDrawer.settle _ (?w0, ?s0)] =>
      destruct (settle_fetchJSON u5 w0 s0) as (x5 & -> & H5)
  end.
  cbn [requests console alerts] in *.
  rewrite <- !app_assoc in *. cbn [app] in *.
  rewrite H2, H3, H4, H5.
  destruct stale; unfold ret, DetailsDrawer.setData, DetailsDrawer.setLoading, modify;
    cbn [fst snd DetailsDrawer.data DetailsDrawer.loading]; reflexivity.
Qed.

End DrawerFacts.

(** X22. The details drawer asks its five sources independently: whatever
    each of them answers, [get] sends exactly the five requests, in the
    same order, throws nothing, logs nothing and shows no dialog, and ends
    with [loading] off.  Each slot holds the body of its own request when
    that one succeeded and [null] when it failed; if the drawer has gone
    stale in the meantime the slots are left as they were. *)
Theorem X22_drawer_sources_are_independent :
  forall (V : Type) (rt : Js.Runtime) (API_BASE : string)
         (server : DetailsDrawer.Server V) (code : string) (stale : bool)
         (w : World) (s : DetailsDrawer.State V),
    let r := run (DetailsDrawer.get_ rt API_BASE server code stale) w s in
    let u1 := DetailsDrawer.codeUrl rt API_BASE "icd11" code in
    let u2 := DetailsDrawer.codeUrl rt API_BASE "ayurveda" code in
    let u3 := DetailsDrawer.codeUrl rt API_BASE "siddha" code in
    let u4 := DetailsDrawer.codeUrl rt API_BASE "unani" code in
    let u5 := DetailsDrawer.codeUrl rt API_BASE "mappings" code in
    outcome r = Return tt /\
    requests (world_of r) = (requests w ++ [u1; u2; u3; u4; u5])%list /\
    console (world_of r) = console w /\
    alerts (world_of r) = alerts w /\
    DetailsDrawer.loading (state_of r) = false /\
    (stale = true -> DetailsDrawer.data (state_of r) = DetailsDrawer.data s) /\
    (stale = false ->
     DetailsDrawer.icd (DetailsDrawer.data (state_of r)) =
       DetailsDrawer.succeeds server (requests w) u1 /\
     DetailsDrawer.ayur (DetailsDrawer.data (state_of r)) =
       DetailsDrawer.succeeds server (requests w ++ [u1]) u2 /\
     DetailsDrawer.sidd (DetailsDrawer.data (state_of r)) =
       DetailsDrawer.succeeds server (requests w ++ [u1; u2]) u3 /\
     DetailsDrawer.unan (DetailsDrawer.data (state_of r)) =
       DetailsDrawer.succeeds server (requests w ++ [u1; u2; u3]) u4 /\
     DetailsDrawer.map (DetailsDrawer.data (state_of r)) =
       DetailsDrawer.succeeds server (requests w ++ [u1; u2; u3; u4]) u5).
Proof.
  intros V rt API_BASE server code stale w s r u1 u2 u3 u4 u5. subst r. unfold run.
  rewrite (drawer_get_run rt API_BASE server code stale w s).
  fold u1 u2 u3 u4 u5. unfold outcome, world_of, state_of.
  cbn [fst snd requests console alerts DetailsDrawer.loading DetailsDrawer.data].
  refine (conj eq_refl (conj eq_refl (conj eq_refl (conj eq_refl (conj eq_refl _))))).
  split; intros ->; [reflexivity|].
  cbn [DetailsDrawer.icd DetailsDrawer.ayur DetailsDrawer.sidd DetailsDrawer.unan
       DetailsDrawer.map].
  repeat split.
Qed.

Lemma X22_drawer_witness :
  let r := run (DetailsDrawer.get_ Js.ascii_runtime "http://api"
                  (fun _ url =>
                     if String.eqb url "http://api/terminologies/siddha/MG26"
                     then DetailsDrawer.NetworkFailure
                     else DetailsDrawer.HttpReply 200 (Some url))
                  "MG26" false) world0 DetailsDrawer.initial in
  DetailsDrawer.sidd (DetailsDrawer.data (state_of r)) = None /\
  DetailsDrawer.unan (DetailsDrawer.data (state_of r)) =
    Some "http://api/terminologies/unani/MG26".
Proof.
  destruct (X22_drawer_sources_are_independent string Js.ascii_runtime "http://api"
              (fun _ url =>
                 if String.eqb url "http://api/terminologies/siddha/MG26"
                 then DetailsDrawer.NetworkFailure
                 else DetailsDrawer.HttpReply 200 (Some url))
              "MG26" false world0 DetailsDrawer.initial)
    as (_ & _ & _ & _ & _ & _ & Hslots).
  destruct (Hslots eq_refl) as (_ & _ & Hsidd & Hunan & _).
  split; [rewrite Hsidd | rewrite Hunan]; reflexivity.
Defined.

(** ** The data-fetch effect of the system-results page *)

Section ResultsEffectFacts.
Variable rt : Js.Runtime.
Variable API_BASE : string.
Variable server : Server Item.t.

Lemma dataEffect_run (system searchTerm : option string)
  (prefilledResults : option (Data Item.t)) (w : World) (s : ResultsEffect.State) :
  ResultsEffect.dataEffect rt API_BASE server system searchTerm prefilledResults
    (w, s) =
  (Return tt,
   if negb (Js.truthy_str system) || negb (Js.truthy_str searchTerm)
   then (w, ResultsEffect.mkState (ResultsEffect.core s)
              (ResultsEffect.navigations s ++ ["/search"]))
   else if match prefilledResults with Some d => truthy d | None => false end
   then (w, ResultsEffect.mkState
              (SystemResultsPage.mkState
                 (SystemResultsPage.data (ResultsEffect.core s)) false
                 (SystemResultsPage.currentPage (ResultsEffect.core s)))
              (ResultsEffect.navigations s))
   else
     let url := SystemResultsPage.searchUrl rt API_BASE (default "" system)
                  (default "" searchTerm) in
     let reply := server (requests w) url in
     (after_fetch server "e" w url,
      ResultsEffect.mkState
        (SystemResultsPage.mkState
           (if failed reply then empty_results_count0 else reply_data reply)
           false (SystemResultsPage.currentPage (ResultsEffect.core s)))
        (ResultsEffect.navigations s))).
Proof.
  unfold ResultsEffect.dataEffect.
  destruct (negb (Js.truthy_str system) || negb (Js.truthy_str searchTerm));
    [reflexivity|].
  destruct (match prefilledResults with Some d => truthy d | None => false end);
    [reflexivity|].
  unfold spawn, ResultsEffect.on_core. cbn [fst snd].
  rewrite system_results_get_run. reflexivity.
Qed.

End ResultsEffectFacts.

(** X23. The data-fetch effect of the system-results page never throws and
    shows no dialog.  Without a system or a search term it sends no request
    and goes back to the search page; with prefilled results it sends no
    request, keeps the data and turns [isLoading] off; otherwise it sends
    exactly one request, to the search URL of the system, and ends with
    [isLoading] off. *)
Theorem X23_results_effect_fetches_only_when_needed :
  forall (rt : Js.Runtime) (API_BASE : string) (server : Server Item.t)
         (system searchTerm : option string)
         (prefilledResults : option (Data Item.t))
         (w : World) (s : ResultsEffect.State),
    let r := run (ResultsEffect.dataEffect rt API_BASE server system searchTerm
                    prefilledResults) w s in
    let prefilled :=
      match prefilledResults with Some d => truthy d | None => false end in
    outcome r = Return tt /\
    alerts (world_of r) = alerts w /\
    (Js.truthy_str system && Js.truthy_str searchTerm = false ->
     requests (world_of r) = requests w /\
     ResultsEffect.navigations (state_of r) =
       (ResultsEffect.navigations s ++ ["/search"])%list /\
     ResultsEffect.core (state_of r) = ResultsEffect.core s) /\
    (Js.truthy_str system && Js.truthy_str searchTerm = true ->
     ResultsEffect.navigations (state_of r) = ResultsEffect.navigations s /\
     SystemResultsPage.isLoading (ResultsEffect.core (state_of r)) = false /\
     (prefilled = true ->
      requests (world_of r) = requests w /\
      SystemResultsPage.data (ResultsEffect.core (state_of r)) =
        SystemResultsPage.data (ResultsEffect.core s)) /\
     (prefilled = false ->
      requests (world_of r) =
        (requests w ++
         [SystemResultsPage.searchUrl rt API_BASE (default "" system)
            (default "" searchTerm)])%list)).
Proof.
  intros rt API_BASE server system searchTerm prefilledResults w s r prefilled.
  subst r prefilled. unfold run. rewrite dataEffect_run.
  unfold outcome, world_of, state_of. cbn [fst snd].
  destruct (Js.truthy_str system), (Js.truthy_str searchTerm); cbn [negb orb andb];
    try (refine (conj eq_refl (conj eq_refl (conj _ _)));
         [intros _; repeat split | discriminate]).
  destruct (match prefilledResults with Some d => truthy d | None => false end);
    cbn [fst snd ResultsEffect.navigations ResultsEffect.core
         SystemResultsPage.isLoading SystemResultsPage.data].
  - refine (conj eq_refl (conj eq_refl (conj _ _))); [discriminate|].
    intros _. refine (conj eq_refl (conj eq_refl (conj _ _))); [|discriminate].
    intros _. split; reflexivity.
  - refine (conj eq_refl (conj (alerts_after_fetch _ _ _ _) (conj _ _)));
      [discriminate|].
    intros _. refine (conj eq_refl (conj eq_refl (conj _ _))); [discriminate|].
    intros _. apply requests_after_fetch.
Qed.

Lemma X23_results_effect_witness :
  let r := run (ResultsEffect.dataEffect Js.ascii_runtime "http://api"
                  Examples.offline (Some "ayurveda") (Some "fever")
                  (Some Examples.combined_response))
             world0 (ResultsEffect.opened (Some Examples.combined_response)) in
  requests (world_of r) = [] /\
  SystemResultsPage.isLoading (ResultsEffect.core (state_of r)) = false /\
  SystemResultsPage.data (ResultsEffect.core (state_of r)) =
    Examples.combined_response.
Proof.
  destruct (X23_results_effect_fetches_only_when_needed Js.ascii_runtime "http://api"
              Examples.offline (Some "ayurveda") (Some "fever")
              (Some Examples.combined_response) world0
              (ResultsEffect.opened (Some Examples.combined_response)))
    as (_ & _ & _ & Hopen).
  destruct (Hopen eq_refl) as (_ & Hloading & Hprefilled & _).
  destruct (Hprefilled eq_refl) as [Hreq Hdata].
  split; [exact Hreq|]. split; [exact Hloading | exact Hdata].
Defined.

(** ** The per-system page: searching *)

(** X21. A search on the per-system page with a non-blank term sends
    exactly one request, to the system's search endpoint followed by the
    encoded term, and whatever comes back the table is on page 1 showing
    the first ten results, with the suggestions closed and [isSearching]
    off.  A blank term sends nothing and changes nothing. *)
Theorem X21_system_search_shows_first_page :
  forall (rt : Js.Runtime) (server : Server Item.t)
         (system : SystemPage.SystemConfig) (w : World) (s : SystemPage.State),
    let r := run (SystemPage.handleSearch rt server system) w s in
    let s' := state_of r in
    outcome r = Return tt /\
    (String.eqb (Js.trim rt (SystemPage.searchTerm s)) "" = true ->
     world_of r = w /\ s' = s) /\
    (String.eqb (Js.trim rt (SystemPage.searchTerm s)) "" = false ->
     requests (world_of r) =
       (requests w ++
        [SystemPage.searchEp system +:+
         Js.encodeURIComponent rt (SystemPage.searchTerm s)])%list /\
     SystemPage.currentPage s' = 1 /\
     SystemPage.isSearching s' = false /\
     SystemPage.showSuggestions s' = false /\
     SystemPage.currentResults (SystemPage.currentPage s') SystemPage.resultsPerPage
       (SystemPage.results s') = take 10 (SystemPage.results s')).
Proof.
  intros rt server system w s r s'. subst s' r. unfold run.
  destruct (String.eqb (Js.trim rt (SystemPage.searchTerm s)) "") eqn:Hblank.
  - assert (Hrun : SystemPage.handleSearch rt server system (w, s) =
                   (Return tt, (w, s))).
    { unfold SystemPage.handleSearch. unfold bind at 1, get. cbn [fst snd].
      rewrite Hblank. reflexivity. }
    rewrite Hrun. split; [reflexivity|]. split; [|discriminate].
    intros _. split; reflexivity.
  - rewrite (system_page_handleSearch_run rt server system w s Hblank).
    unfold outcome, world_of, state_of.
    cbn [fst snd SystemPage.currentPage SystemPage.isSearching
         SystemPage.showSuggestions SystemPage.results].
    split; [reflexivity|]. split; [discriminate|]. intros _.
    split; [apply requests_after_fetch|].
    refine (conj eq_refl (conj eq_refl (conj eq_refl _))).
    unfold SystemPage.currentResults, SystemPage.resultsPerPage.
    apply (slice_from_0 _ 10). lia.
Qed.

Lemma X21_system_search_witness :
  let r := run (SystemPage.handleSearch Js.ascii_runtime
                  (Examples.always Examples.combined_response)
                  (SystemPage.systemData "http://api" SystemPage.ayurveda))
             world0 Examples.system_page_with_suggestions in
  outcome r = Return tt /\
  SystemPage.currentPage (state_of r) = 1 /\
  SystemPage.showSuggestions (state_of r) = false.
Proof.
  destruct (X21_system_search_shows_first_page Js.ascii_runtime
              (Examples.always Examples.combined_response)
              (SystemPage.systemData "http://api" SystemPage.ayurveda) world0
              Examples.system_page_with_suggestions)
    as (Hret & _ & Hsearch).
  destruct (Hsearch eq_refl) as (_ & Hpage & _ & Hclosed & _).
  split; [exact Hret|]. split; [exact Hpage | exact Hclosed].
Defined.

(** ** SearchPage.js: the effect on the filters *)

(** X26. Changing the system filter, the confidence or a strategy before
    the first search, or with a blank term, sends nothing and changes
    nothing.  After a search it runs the search again: five requests, one
    per source, whose URLs depend on the term and on the strategies only;
    the selected system and the minimum confidence make no difference to
    what is requested or stored. *)
Theorem X26_filters_rerun_the_same_search :
  forall (rt : Js.Runtime) (API_BASE_URL : string) (server : Server Item.t)
         (w : World) (s : SearchPage.State),
    let r := run (SearchView.searchEffect rt API_BASE_URL server) w s in
    let term := SearchPage.searchTerm s in
    let blank := String.eqb term "" || String.eqb (Js.trim rt term) "" in
    outcome r = Return tt /\
    (SearchPage.hasSearched s && negb blank = false ->
     world_of r = w /\ state_of r = s) /\
    (SearchPage.hasSearched s && negb blank = true ->
     requests (world_of r) =
       (requests w ++
        [SearchPage.buildSearchUrl rt API_BASE_URL (SearchPage.searchStrategy s) term
           "combined";
         SearchPage.buildSearchUrl rt API_BASE_URL (SearchPage.searchStrategy s) term
           "icd11";
         SearchPage.systemUrl rt API_BASE_URL "ayurveda" term;
         SearchPage.systemUrl rt API_BASE_URL "unani" term;
         SearchPage.systemUrl rt API_BASE_URL "siddha" term])%list /\
     forall (system : string) (confidence : Q),
       (world_of r, state_of r) =
       snd (run (SearchPage.performSearch rt API_BASE_URL server term system
                   confidence) w s)).
Proof.
  intros rt API_BASE_URL server w s r term blank. subst r. unfold run.
  assert (Hrun : SearchView.searchEffect rt API_BASE_URL server (w, s) =
                 if SearchPage.hasSearched s && negb blank
                 then (Return tt,
                       snd (SearchPage.performSearch rt API_BASE_URL server term
                              (SearchPage.selectedSystem s)
                              (SearchPage.minConfidence s) (w, s)))
                 else (Return tt, (w, s))).
  { unfold SearchView.searchEffect. unfold bind at 1, get. cbn [fst snd].
    fold term. fold blank.
    destruct (SearchPage.hasSearched s); cbn [negb andb]; [|reflexivity].
    destruct blank; cbn [negb]; [reflexivity|].
    unfold spawn.
    destruct (SearchPage.performSearch _ _ _ _ _ _ _) as [o c]. reflexivity. }
  rewrite Hrun.
  destruct (SearchPage.hasSearched s && negb blank) eqn:Hgo.
  - split; [reflexivity|]. split; [discriminate|]. intros _.
    apply andb_prop in Hgo as [_ Hblank]. apply negb_true_iff in Hblank.
    subst blank.
    unfold world_of, state_of. cbn [fst snd]. split.
    + rewrite (performSearch_run rt API_BASE_URL server term _ _ w s Hblank).
      cbn [fst snd]. rewrite !requests_after_fetch, <- !app_assoc. reflexivity.
    + intros system confidence.
      rewrite !(performSearch_run rt API_BASE_URL server term _ _ w s Hblank).
      reflexivity.
  - split; [reflexivity|]. split; [|discriminate]. intros _. split; reflexivity.
Qed.

Lemma X26_filters_witness :
  let r := run (SearchView.searchEffect Js.ascii_runtime "http://api" Examples.offline)
             world0 SearchPage.initial in
  world_of r = world0 /\ state_of r = SearchPage.initial.
Proof.
  destruct (X26_filters_rerun_the_same_search Js.ascii_runtime "http://api"
              Examples.offline world0 SearchPage.initial) as (_ & Hidle & _).
  apply Hidle. reflexivity.
Defined.

(** ** The per-system page: the suggestions dropdown *)


